(** * MFLUX-WEBUI: upscale orchestration and the Dreambooth tab handlers

    A shallow embedding of

      - [backend/upscale_manager.py]: [upscale_image],
        [upscale_image_gradio], [upscale_with_custom_dimensions_gradio]
        and [batch_upscale_gradio];
      - [frontend/components/dreambooth_fine_tuning.py]: the two event
        handlers [show_images] and [update_blocks_visibility].

    Python values are modelled as follows.

      - A [str] is a Rocq [string] whose characters are read as the code
        points U+0000..U+00FF; [strip], [lower], [repr], [float] and
        [int] follow CPython on these.
      - A [float] is a binary64 value of [SpecFloat.spec_float].  The
        conversion from decimal text and the quotient of two integers
        are correctly rounded (to nearest, ties to even), as CPython
        does them.
      - An [int] is a [Z].
      - An exception is a value of [exn]: its class and its text.  Every
        exception of the model is an [Exception]; [KeyboardInterrupt]
        and [SystemExit], which [except Exception] lets through, are
        left out.
      - PIL, mflux, the clock and the file system are an environment
        [env] that answers each call and sees the events so far; what a
        call does to the outside is recorded as a list of events.
        [print], [traceback.print_exc], [gc.collect] and
        [force_mlx_cleanup] are events that return. *)

From Stdlib Require Import ZArith List String Ascii Bool Lia.
From Stdlib Require Import DecimalString DecimalZ DecimalPos.
From Stdlib Require Import Floats.SpecFloat.
Import ListNotations.

Local Open Scope string_scope.
Local Open Scope Z_scope.

(** ** Python strings *)

Module PyString.

Definition code (c : ascii) : Z := Z.of_N (N_of_ascii c).

(** [str.isspace] on one character, for code points below 256. *)
Definition isspace (c : ascii) : bool :=
  let n := code c in
  ((9 <=? n) && (n <=? 13)) || ((28 <=? n) && (n <=? 32))
  || (n =? 133) || (n =? 160).

Definition isdigit (c : ascii) : bool :=
  let n := code c in (48 <=? n) && (n <=? 57).

Definition digit_val (c : ascii) : Z := code c - 48.

(** The whitespace that [float] and [int] skip around a number: the
    ASCII characters U+001C..U+001F are no part of it. *)
Definition isspace_number (c : ascii) : bool :=
  let n := code c in
  ((9 <=? n) && (n <=? 13)) || (n =? 32) || (n =? 133) || (n =? 160).

Fixpoint lstrip_by (space : ascii -> bool) (s : string) : string :=
  match s with
  | EmptyString => EmptyString
  | String c s' => if space c then lstrip_by space s' else s
  end.

(** The trailing whitespace is dropped: a character is kept when
    something that is not whitespace follows it or it is not whitespace
    itself. *)
Fixpoint rstrip_by (space : ascii -> bool) (s : string) : string :=
  match s with
  | EmptyString => EmptyString
  | String c s' =>
      match rstrip_by space s' with
      | EmptyString => if space c then EmptyString else String c EmptyString
      | r => String c r
      end
  end.

Definition strip_by (space : ascii -> bool) (s : string) : string :=
  rstrip_by space (lstrip_by space s).

(** [s.strip()] *)
Definition strip (s : string) : string := strip_by isspace s.

(** [str.lower] on one character, for code points below 256: the ASCII
    capitals and the Latin-1 capitals U+00C0..U+00DE without U+00D7. *)
Definition lower_char (c : ascii) : ascii :=
  let n := code c in
  if ((65 <=? n) && (n <=? 90))
     || ((192 <=? n) && (n <=? 222) && negb (n =? 215))
  then ascii_of_N (Z.to_N (n + 32)) else c.

Fixpoint lower (s : string) : string :=
  match s with
  | EmptyString => EmptyString
  | String c s' => String (lower_char c) (lower s')
  end.

(** [s.replace(old, new)] for a one-character [old]. *)
Fixpoint replace (old : ascii) (new : string) (s : string) : string :=
  match s with
  | EmptyString => EmptyString
  | String c s' =>
      if Ascii.eqb c old then new ++ replace old new s'
      else String c (replace old new s')
  end.

(** [s.endswith(c)] for a one-character suffix. *)
Fixpoint endswith (s : string) (c : ascii) : bool :=
  match s with
  | EmptyString => false
  | String d EmptyString => Ascii.eqb d c
  | String _ s' => endswith s' c
  end.

(** [bool(s)]. *)
Definition truthy (s : string) : bool :=
  match s with EmptyString => false | _ => true end.

(** The first [n] characters of [s]: what a precision does to a text in
    a format, as in [%.200R]. *)
Fixpoint take (n : nat) (s : string) : string :=
  match n, s with
  | S n', String c s' => String c (take n' s')
  | _, _ => EmptyString
  end.

(** [str(n)] of an integer. *)
Definition of_Z (n : Z) : string := NilZero.string_of_int (Z.to_int n).

Fixpoint join (sep : string) (l : list string) : string :=
  match l with
  | [] => EmptyString
  | [x] => x
  | x :: l' => x ++ sep ++ join sep l'
  end.

Definition hex_digit (n : Z) : ascii :=
  ascii_of_N (Z.to_N (if n <? 10 then 48 + n else 87 + n)).

(** [str.isprintable] on one character, for code points below 256. *)
Definition isprintable (c : ascii) : bool :=
  let n := code c in
  ((32 <=? n) && (n <=? 126)) || ((161 <=? n) && negb (n =? 173)).

Fixpoint all (f : ascii -> bool) (s : string) : bool :=
  match s with
  | EmptyString => true
  | String c s' => f c && all f s'
  end.

Fixpoint contains (c : ascii) (s : string) : bool :=
  match s with
  | EmptyString => false
  | String d s' => Ascii.eqb d c || contains c s'
  end.

Definition repr_char (quote c : ascii) : string :=
  let n := code c in
  if Ascii.eqb c quote || (n =? 92) then String "\" (String c EmptyString)
  else if n =? 9 then "\t"
  else if n =? 10 then "\n"
  else if n =? 13 then "\r"
  else if isprintable c then String c EmptyString
  else String "\" (String "x"
         (String (hex_digit (n / 16))
            (String (hex_digit (n mod 16)) EmptyString))).

Fixpoint repr_body (quote : ascii) (s : string) : string :=
  match s with
  | EmptyString => EmptyString
  | String c s' => repr_char quote c ++ repr_body quote s'
  end.

(** [repr(s)]: single quotes, unless the text has a single quote and
    no double quote. *)
Definition repr (s : string) : string :=
  let quote :=
    if contains "'" s && negb (contains (ascii_of_N 34) s)
    then ascii_of_N 34 else "'"%char in
  String quote (repr_body quote s ++ String quote EmptyString).

End PyString.

(** ** Exceptions *)

Inductive exn_class :=
| ValueError | OverflowError | ZeroDivisionError | TypeError | OtherException.

(** An exception: its class and [str(e)]. *)
Record exn := Exn { exn_kind : exn_class; exn_str : string }.

Definition is_ValueError (e : exn) : bool :=
  match exn_kind e with ValueError => true | _ => false end.

(** The result of an expression that may raise. *)
Definition res (A : Type) := (exn + A)%type.

Definition bind_res {A B} (r : res A) (k : A -> res B) : res B :=
  match r with inl e => inl e | inr a => k a end.

(** ** Python floats *)

Module PyFloat.

Definition prec := 53.
Definition emax := 1024.

(** The quotient [n / d] of two positive integers, correctly rounded to
    binary64, with the given sign; an overflow gives an infinity. *)
Definition of_ratio (neg : bool) (n d : positive) : spec_float :=
  let '(q, e, l) := SFdiv_core_binary prec emax (Zpos n) 0 (Zpos d) 0 in
  binary_round_aux prec emax neg q e l.

(** The decimal [digits * 10 ^ exp10], correctly rounded. *)
Definition of_decimal (neg : bool) (digits exp10 : Z) : spec_float :=
  match digits with
  | Zpos p =>
      if 0 <=? exp10
      then of_ratio neg (p * Z.to_pos (10 ^ exp10)) 1
      else of_ratio neg p (Z.to_pos (10 ^ (- exp10)))
  | _ => S754_zero neg
  end.

Definition leb := SFleb.
Definition ltb := SFltb.

(** [max(a, b)]: the second argument is taken when it is greater than
    the first. *)
Definition max (a b : spec_float) : spec_float :=
  if ltb a b then b else a.

(** [bool(f)]. *)
Definition truthy (f : spec_float) : bool :=
  match f with S754_zero _ => false | _ => true end.

(** [int(f)]: truncation towards zero. *)
Definition to_int (f : spec_float) : res Z :=
  match f with
  | S754_zero _ => inr 0
  | S754_finite s m e =>
      let v := if 0 <=? e then Zpos m * 2 ^ e else Zpos m / 2 ^ (- e) in
      inr (if s then - v else v)
  | S754_infinity _ =>
      inl (Exn OverflowError "cannot convert float infinity to integer")
  | S754_nan =>
      inl (Exn ValueError "cannot convert float NaN to integer")
  end.

(** [a / b] on integers. *)
Definition truediv (a b : Z) : res spec_float :=
  let neg := xorb (a <? 0) (b <? 0) in
  match a, b with
  | _, Z0 => inl (Exn ZeroDivisionError "division by zero")
  | Z0, _ => inr (S754_zero neg)
  | (Zpos n | Zneg n), (Zpos d | Zneg d) =>
      match of_ratio neg n d with
      | S754_infinity _ =>
          inl (Exn OverflowError
                 "integer division result too large for a float")
      | f => inr f
      end
  end.

End PyFloat.

(** ** Text to number: [float(s)] and [int(s)] *)

Module PyParse.
Import PyString.

(** Underscores may only stand between two digits; they are dropped
    before the number is read. *)
Fixpoint drop_underscores (prev : ascii) (s : string) : option string :=
  match s with
  | EmptyString =>
      if Ascii.eqb prev "_" then None else Some EmptyString
  | String c s' =>
      if Ascii.eqb c "_" then
        if isdigit prev then drop_underscores c s' else None
      else if Ascii.eqb prev "_" && negb (isdigit c) then None
      else option_map (String c) (drop_underscores c s')
  end.

Definition sign (s : string) : bool * string :=
  match s with
  | String "-" s' => (true, s')
  | String "+" s' => (false, s')
  | _ => (false, s)
  end.

(** Reads a run of decimal digits after the value [acc]: the value, the
    number of digits read and what is left. *)
Fixpoint digits (s : string) (acc : Z) (count : Z) : Z * Z * string :=
  match s with
  | String c s' =>
      if isdigit c then digits s' (10 * acc + digit_val c) (count + 1)
      else (acc, count, s)
  | EmptyString => (acc, count, s)
  end.

(** The exponent part: nothing, or [e] or [E], a sign and digits. *)
Definition exponent (s : string) : option Z :=
  match s with
  | EmptyString => Some 0
  | String c s' =>
      if Ascii.eqb c "e" || Ascii.eqb c "E" then
        let '(neg, s1) := sign s' in
        match digits s1 0 0 with
        | (v, n, EmptyString) =>
            if 0 <? n then Some (if neg then - v else v) else None
        | _ => None
        end
      else None
  end.

Definition number (s : string) : option spec_float :=
  let '(neg, s1) := sign s in
  let name := lower s1 in
  if String.eqb name "inf" || String.eqb name "infinity"
  then Some (S754_infinity neg)
  else if String.eqb name "nan" then Some S754_nan
  else
    let '(ip, ni, s2) := digits s1 0 0 in
    let '(fp, nf, s3) :=
      match s2 with
      | String "." s2' => digits s2' ip 0
      | _ => (ip, 0, s2)
      end in
    if ni + nf =? 0 then None
    else option_map (fun e => PyFloat.of_decimal neg fp (e - nf))
                    (exponent s3).

(** [float(s)]. *)
Definition float_of_string (s : string) : res spec_float :=
  match drop_underscores zero (strip_by isspace_number s) with
  | Some t =>
      match number t with
      | Some f => inr f
      | None =>
          inl (Exn ValueError
                 ("could not convert string to float: " ++ repr s))
      end
  | None =>
      inl (Exn ValueError ("could not convert string to float: " ++ repr s))
  end.

(** [int(s)], base 10.  The message of the error is made with the
    format [%.200R]: it holds the first 200 characters of [repr(s)]. *)
Definition int_of_string (s : string) : res Z :=
  let bad :=
    inl (Exn ValueError
           ("invalid literal for int() with base 10: "
            ++ take 200 (repr s))) in
  match drop_underscores zero (strip_by isspace_number s) with
  | Some t =>
      let '(neg, t1) := sign t in
      match digits t1 0 0 with
      | (v, n, EmptyString) =>
          if 0 <? n then inr (if neg then - v else v) else bad
      | _ => bad
      end
  | None => bad
  end.

End PyParse.

(** ** Python values reaching the handlers *)

Inductive pyval :=
| PyNone
| PyBool (b : bool)
| PyInt (n : Z)
| PyFloat (f : spec_float)
| PyStr (s : string).

Module PyVal.

(** [bool(v)]. *)
Definition truthy (v : pyval) : bool :=
  match v with
  | PyNone => false
  | PyBool b => b
  | PyInt n => negb (n =? 0)
  | PyFloat f => PyFloat.truthy f
  | PyStr s => PyString.truthy s
  end.

(** [int(v)]. *)
Definition to_int (v : pyval) : res Z :=
  match v with
  | PyNone =>
      inl (Exn TypeError
             "int() argument must be a string, a bytes-like object or a real number, not 'NoneType'")
  | PyBool b => inr (if b then 1 else 0)
  | PyInt n => inr n
  | PyFloat f => PyFloat.to_int f
  | PyStr s => PyParse.int_of_string s
  end.

End PyVal.

(** ** Paths ([os.path] on POSIX) *)

Module PyPath.

Definition startswith_slash (s : string) : bool :=
  match s with String "/" _ => true | _ => false end.

(** [os.path.join(a, b)]. *)
Definition join (a b : string) : string :=
  if startswith_slash b then b
  else if negb (PyString.truthy a) || PyString.endswith a "/" then a ++ b
  else a ++ "/" ++ b.

(** [os.path.basename(p)]: what follows the last slash. *)
Fixpoint basename (p : string) : string :=
  match p with
  | EmptyString => EmptyString
  | String c p' =>
      if PyString.contains "/" p' then basename p'
      else if Ascii.eqb c "/" then p' else p
  end.

End PyPath.

(** ** Images, events and the environment *)

(** A PIL image: its size and its pixel data. *)
Record image := Image { width : Z; height : Z; pixels : list Z }.

(** The keyword arguments of [Image.save]. *)
Record save_kwargs := SaveKwargs { format : string; quality : option Z }.

(** What a call does to the outside, in the order it happens. *)
Inductive event :=
| Print (s : string)
| PrintExc
| ImageOpen (path : string)
| Upscale (img : image) (scale_factor : Z)
| Resize (img : image) (w h : Z)
| Save (img : image) (path : string) (kwargs : save_kwargs)
| JsonDump (path : string) (d : list (string * pyval))
| GcCollect
| ForceMlxCleanup.

Definition trace := list event.

(** The collaborators.  Each answer may depend on everything that
    happened before the call. *)
Record env := Env {
  (** [os.path.dirname(os.path.dirname(__file__))] *)
  project_root : string;
  (** [from mflux.upscaler.upscaler import Upscaler] *)
  import_upscaler : trace -> option exn;
  (** [Upscaler()] *)
  new_upscaler : trace -> option exn;
  (** [Image.open(path)] *)
  image_open : trace -> string -> res image;
  (** [image.convert("RGB")] *)
  convert_rgb : trace -> image -> res image;
  (** [upscaler.upscale(image, scale_factor=f)] *)
  upscaler_upscale : trace -> image -> Z -> res image;
  (** the pixel data of [image.resize((w, h), Image.Resampling.LANCZOS)],
      or the exception it ends in *)
  resample : image -> Z -> Z -> res (list Z);
  (** [image.save(path, **kwargs)] *)
  image_save : trace -> image -> string -> save_kwargs -> option exn;
  (** [with open(path, "w") as f: json.dump(d, f, indent=2)] *)
  json_dump : trace -> string -> list (string * pyval) -> option exn;
  (** [time.time()] *)
  time_time : trace -> spec_float;
  (** [str(time.ctime())] *)
  time_ctime : trace -> string
}.

(** ** Computations: a trace threaded through, and exceptions *)

Definition M (A : Type) : Type := trace -> trace * res A.

Definition ret {A} (a : A) : M A := fun t => (t, inr a).

Definition bind {A B} (m : M A) (k : A -> M B) : M B :=
  fun t => match m t with
           | (t', inl e) => (t', inl e)
           | (t', inr a) => k a t'
           end.

Notation "x <- m ;; k" := (bind m (fun x => k))
  (at level 61, m at next level, right associativity).
Notation "m ;;; k" := (bind m (fun _ => k))
  (at level 61, right associativity).

Definition lift {A} (r : res A) : M A := fun t => (t, r).

Definition emit (ev : event) : M unit := fun t => ((t ++ [ev])%list, inr tt).

(** Asks the environment, which sees the trace so far. *)
Definition ask {A} (f : trace -> res A) : M A := fun t => (t, f t).

Definition ask_ok (f : trace -> option exn) : M unit :=
  fun t => (t, match f t with Some e => inl e | None => inr tt end).

Definition ask_val {A} (f : trace -> A) : M A := fun t => (t, inr (f t)).

(** [try: m  except Exception as e: h e] *)
Definition try_except {A} (m : M A) (h : exn -> M A) : M A :=
  fun t => match m t with
           | (t', inl e) => h e t'
           | r => r
           end.

(** [try: m  finally: fin] *)
Definition try_finally {A} (m : M A) (fin : M unit) : M A :=
  fun t => let '(t', r) := m t in
           match fin t' with
           | (t'', inl e) => (t'', inl e)
           | (t'', inr _) => (t'', r)
           end.

(** [try: r  except ValueError: default], on an expression. *)
Definition except_ValueError {A} (r : res A) (default : A) : res A :=
  match r with
  | inl e => if is_ValueError e then inr default else inl e
  | inr a => inr a
  end.

(** An integer handed to C code as an [int], by the format [i] of
    [PyArg_ParseTuple], where a C [long] has 64 bits. *)
Definition c_int (n : Z) : res Z :=
  if (n <? - 2 ^ 63) || (2 ^ 63 - 1 <? n) then
    inl (Exn OverflowError "Python int too large to convert to C long")
  else if n <? - 2 ^ 31 then
    inl (Exn OverflowError "signed integer is less than minimum")
  else if 2 ^ 31 - 1 <? n then
    inl (Exn OverflowError "signed integer is greater than maximum")
  else inr n.

(** [Image.resize((w, h), resample)] on an image that is loaded: PIL
    takes the two sides as C integers, the width first, refuses a size
    below one pixel and otherwise returns, unless it fails, an image of
    the size asked for. *)
Definition image_resize (sample : image -> Z -> Z -> res (list Z))
    (img : image) (w h : Z) : res image :=
  bind_res (c_int w) (fun xsize =>
  bind_res (c_int h) (fun ysize =>
  if (xsize <? 1) || (ysize <? 1)
  then inl (Exn ValueError "height and width must be > 0")
  else bind_res (sample img xsize ysize)
         (fun data => inr (Image xsize ysize data)))).

(** What a caller may hand to [batch_upscale_gradio] as [input_images]:
    a list of paths, or a value that is no list. *)
Inductive images_arg :=
| PathList (items : list (option string))
| NoList (v : pyval).

(** [bool(input_images)]. *)
Definition images_truthy (input_images : images_arg) : bool :=
  match input_images with
  | PathList [] => false
  | PathList (_ :: _) => true
  | NoList v => PyVal.truthy v
  end.

(** The items that [enumerate(input_images)] goes through: those of a
    list, the characters of a text; [None], a truth value and a number
    can not be iterated. *)
Definition images_items (input_images : images_arg)
  : res (list (option string)) :=
  match input_images with
  | PathList items => inr items
  | NoList (PyStr s) =>
      inr (map (fun c => Some (String c EmptyString)) (list_ascii_of_string s))
  | NoList PyNone =>
      inl (Exn TypeError "'NoneType' object is not iterable")
  | NoList (PyBool _) =>
      inl (Exn TypeError "'bool' object is not iterable")
  | NoList (PyInt _) =>
      inl (Exn TypeError "'int' object is not iterable")
  | NoList (PyFloat _) =>
      inl (Exn TypeError "'float' object is not iterable")
  end.

(** ** [backend/upscale_manager.py] *)

Section UpscaleManager.

Variable E : env.

(** [parse_scale_factor] is imported from [backend/flux_manager.py],
    whose text is not among the sources at hand: it is taken as a
    parameter, from the requested size and the original one to an
    integer size, or an exception. *)
Variable parse_scale_factor : pyval -> Z -> res Z.

(** [OUTPUT_DIR] *)
Definition OUTPUT_DIR : string := PyPath.join (project_root E) "output".

(** [upscale_image(image_path, upscale_factor)], lines 18-40: every
    exception ends in [None]. *)
Definition upscale_image (image_path : string) (upscale_factor : Z)
  : M (option image) :=
  try_except
    (ask_ok (import_upscaler E) ;;;
     emit (ImageOpen image_path) ;;;
     opened <- ask (fun t => image_open E t image_path) ;;
     image <- ask (fun t => convert_rgb E t opened) ;;
     ask_ok (new_upscaler E) ;;;
     emit (Upscale image upscale_factor) ;;;
     upscaled <- ask (fun t => upscaler_upscale E t image upscale_factor) ;;
     ret (Some upscaled))
    (fun e =>
       emit (Print ("Error upscaling image: " ++ exn_str e)) ;;;
       emit PrintExc ;;;
       ret None).

(** Lines 58-72 of [upscale_image_gradio]: the requested factor, read
    from text such as "2x" or from a number. *)
Definition resolve_factor (upscale_factor : pyval) : res Z :=
  let as_number :=
    if PyVal.truthy upscale_factor then PyVal.to_int upscale_factor
    else inr 2 in
  match upscale_factor with
  | PyStr s =>
      if PyString.truthy (PyString.strip s) then
        if PyString.endswith (PyString.lower (PyString.strip s)) "x" then
          except_ValueError
            (bind_res
               (PyParse.float_of_string
                  (PyString.replace "x" EmptyString
                     (PyString.lower (PyString.strip s))))
               PyFloat.to_int)
            2
        else
          except_ValueError
            (bind_res (PyParse.float_of_string s) PyFloat.to_int) 2
      else as_number
  | _ => as_number
  end.

(** Line 75: [upscale_factor_int in [2, 3, 4]]. *)
Definition supported_factor (n : Z) : bool :=
  (n =? 2) || (n =? 3) || (n =? 4).

(** Lines 89-97 and 192-200: the extension and the arguments of [save]
    for an output format. *)
Definition format_kwargs (output_format : string) : string * save_kwargs :=
  if String.eqb output_format "PNG" then
    ("png", SaveKwargs "PNG" None)
  else if String.eqb output_format "JPEG" then
    ("jpg", SaveKwargs "JPEG" (Some 95))
  else
    ("webp", SaveKwargs "WebP" (Some 95)).

(** Lines 86 and 189: [int(time.time())]. *)
Definition unix_time : M Z :=
  now <- ask_val (time_time E) ;; lift (PyFloat.to_int now).

(** Lines 101 and 204: [upscaled_image.save(output_path, **save_kwargs)]. *)
Definition save_image (img : image) (path : string) (kw : save_kwargs)
  : M unit :=
  emit (Save img path kw) ;;; ask_ok (fun t => image_save E t img path kw).

(** Lines 120-121 and 223-224: the metadata file. *)
Definition dump_json (path : string) (d : list (string * pyval)) : M unit :=
  emit (JsonDump path d) ;;; ask_ok (fun t => json_dump E t path d).

(** Lines 54, 108 and 155: [Image.open(input_image)]. *)
Definition open_image (path : string) : M image :=
  emit (ImageOpen path) ;;; ask (fun t => image_open E t path).

(** Lines 99 and 105: the file name of [upscale_image_gradio], without
    its extension. *)
Definition upscaled_stem (upscale_factor_int timestamp : Z) : string :=
  "upscaled_" ++ PyString.of_Z upscale_factor_int ++ "x_"
  ++ PyString.of_Z timestamp.

(** Lines 135-138 and 238-241: the cleanup of the [finally] blocks. *)
Definition cleanup : M unit := emit GcCollect ;;; emit ForceMlxCleanup.

(** Lines 50 and 151: [input_image] when it is not falsy, for a path or
    [None]. *)
Definition given (input_image : option string) : option string :=
  match input_image with
  | Some p => if PyString.truthy p then Some p else None
  | None => None
  end.

(** Lines 49-127: what stands inside [try] in [upscale_image_gradio]. *)
Definition upscale_image_gradio_body (input_image : option string)
    (upscale_factor : pyval) (output_format : string) (metadata : bool)
  : M (option image * string) :=
  match given input_image with
  | None => ret (None, "Error: Input image is required")
  | Some input_image =>
      original_image <- open_image input_image ;;
      upscale_factor_int <- lift (resolve_factor upscale_factor) ;;
      if negb (supported_factor upscale_factor_int) then
        ret (None, "Error: Upscale factor must be 2, 3, or 4")
      else
        emit (Print ("Upscaling image with factor "
                     ++ PyString.of_Z upscale_factor_int ++ "x")) ;;;
        upscaled <- upscale_image input_image upscale_factor_int ;;
        match upscaled with
        | None => ret (None, "Error: Failed to upscale image")
        | Some upscaled_image =>
            timestamp <- unix_time ;;
            let '(ext, kw) := format_kwargs output_format in
            let filename :=
              upscaled_stem upscale_factor_int timestamp ++ "." ++ ext in
            let output_path := PyPath.join OUTPUT_DIR filename in
            save_image upscaled_image output_path kw ;;;
            (if metadata then
               let metadata_path :=
                 PyPath.join OUTPUT_DIR
                   (upscaled_stem upscale_factor_int timestamp ++ ".json") in
               original_image <- open_image input_image ;;
               ctime <- ask_val (time_ctime E) ;;
               dump_json metadata_path
                 [("original_width", PyInt (width original_image));
                  ("original_height", PyInt (height original_image));
                  ("upscaled_width", PyInt (width upscaled_image));
                  ("upscaled_height", PyInt (height upscaled_image));
                  ("upscale_factor", PyInt upscale_factor_int);
                  ("output_format", PyStr output_format);
                  ("generation_time", PyStr ctime);
                  ("original_file", PyStr (PyPath.basename input_image))]
             else ret tt) ;;;
            emit (Print ("Upscaled image saved to " ++ output_path)) ;;;
            ret (Some upscaled_image,
                 "Successfully upscaled image "
                 ++ PyString.of_Z upscale_factor_int ++ "x to "
                 ++ PyString.of_Z (width upscaled_image) ++ "x"
                 ++ PyString.of_Z (height upscaled_image))
        end
  end.

(** [upscale_image_gradio(input_image, upscale_factor, output_format,
    metadata)], lines 42-138: the body inside [try], the handler of
    [except Exception], the [finally] block. *)
Definition upscale_image_gradio (input_image : option string)
    (upscale_factor : pyval) (output_format : string) (metadata : bool)
  : M (option image * string) :=
  try_finally
    (try_except
       (upscale_image_gradio_body input_image upscale_factor
          output_format metadata)
       (fun e =>
          emit (Print ("Error in upscaling: " ++ exn_str e)) ;;;
          emit PrintExc ;;;
          ret (None, "Error: " ++ exn_str e)))
    cleanup.

(** Lines 170 and 172: the literals [2.5] and [3.5]. *)
Definition lit_2_5 : spec_float := PyFloat.of_decimal false 25 (-1).
Definition lit_3_5 : spec_float := PyFloat.of_decimal false 35 (-1).

(** Lines 163-167 of [upscale_with_custom_dimensions_gradio]:
    [max(final_width / original_width, final_height / original_height)]. *)
Definition effective_scale_of
    (final_width final_height original_width original_height : Z)
  : res spec_float :=
  bind_res (PyFloat.truediv final_width original_width) (fun scale_x =>
  bind_res (PyFloat.truediv final_height original_height) (fun scale_y =>
  inr (PyFloat.max scale_x scale_y))).

(** Lines 170-175: the supported factor for an effective scale. *)
Definition nearest_factor (effective_scale : spec_float) : Z :=
  if PyFloat.leb effective_scale lit_2_5 then 2
  else if PyFloat.leb effective_scale lit_3_5 then 3
  else 4.

(** Lines 185-186: the resize to the exact target size, when needed. *)
Definition fit_to_target (upscaled_image : image)
    (final_width final_height : Z) : M image :=
  if negb (width upscaled_image =? final_width)
     || negb (height upscaled_image =? final_height)
  then
    emit (Resize upscaled_image final_width final_height) ;;;
    lift (image_resize (resample E) upscaled_image final_width final_height)
  else ret upscaled_image.

(** Lines 202 and 208: the file name of
    [upscale_with_custom_dimensions_gradio], without its extension. *)
Definition custom_stem (final_width final_height timestamp : Z) : string :=
  "upscaled_custom_" ++ PyString.of_Z final_width ++ "x"
  ++ PyString.of_Z final_height ++ "_" ++ PyString.of_Z timestamp.

(** Lines 151-230: what stands inside [try] in
    [upscale_with_custom_dimensions_gradio]. *)
Definition upscale_with_custom_dimensions_gradio_body
    (input_image : option string) (target_width target_height : pyval)
    (output_format : string) (metadata : bool)
  : M (option image * string) :=
  match given input_image with
  | None => ret (None, "Error: Input image is required")
  | Some input_image =>
      original_image <- open_image input_image ;;
      let original_width := width original_image in
      let original_height := height original_image in
      final_width <- lift (parse_scale_factor target_width original_width) ;;
      final_height <-
        lift (parse_scale_factor target_height original_height) ;;
      effective_scale <-
        lift (effective_scale_of final_width final_height
                original_width original_height) ;;
      let upscale_factor_int := nearest_factor effective_scale in
      emit (Print ("Upscaling image with factor "
                   ++ PyString.of_Z upscale_factor_int ++ "x to target "
                   ++ PyString.of_Z final_width ++ "x"
                   ++ PyString.of_Z final_height)) ;;;
      upscaled <- upscale_image input_image upscale_factor_int ;;
      match upscaled with
      | None => ret (None, "Error: Failed to upscale image")
      | Some upscaled_image =>
          upscaled_image <-
            fit_to_target upscaled_image final_width final_height ;;
          timestamp <- unix_time ;;
          let '(ext, kw) := format_kwargs output_format in
          let filename :=
            custom_stem final_width final_height timestamp ++ "." ++ ext in
          let output_path := PyPath.join OUTPUT_DIR filename in
          save_image upscaled_image output_path kw ;;;
          (if metadata then
             let metadata_path :=
               PyPath.join OUTPUT_DIR
                 (custom_stem final_width final_height timestamp
                  ++ ".json") in
             ctime <- ask_val (time_ctime E) ;;
             dump_json metadata_path
               [("original_width", PyInt original_width);
                ("original_height", PyInt original_height);
                ("upscaled_width", PyInt (width upscaled_image));
                ("upscaled_height", PyInt (height upscaled_image));
                ("target_width", target_width);
                ("target_height", target_height);
                ("effective_scale", PyFloat effective_scale);
                ("upscale_factor_used", PyInt upscale_factor_int);
                ("output_format", PyStr output_format);
                ("generation_time", PyStr ctime);
                ("original_file", PyStr (PyPath.basename input_image))]
           else ret tt) ;;;
          emit (Print ("Upscaled image saved to " ++ output_path)) ;;;
          ret (Some upscaled_image,
               "Successfully upscaled image to "
               ++ PyString.of_Z (width upscaled_image) ++ "x"
               ++ PyString.of_Z (height upscaled_image))
      end
  end.

(** [upscale_with_custom_dimensions_gradio(input_image, target_width,
    target_height, output_format, metadata)], lines 144-241. *)
Definition upscale_with_custom_dimensions_gradio
    (input_image : option string) (target_width target_height : pyval)
    (output_format : string) (metadata : bool)
  : M (option image * string) :=
  try_finally
    (try_except
       (upscale_with_custom_dimensions_gradio_body input_image
          target_width target_height output_format metadata)
       (fun e =>
          emit (Print ("Error in custom upscaling: " ++ exn_str e)) ;;;
          emit PrintExc ;;;
          ret (None, "Error: " ++ exn_str e)))
    cleanup.

(** The line feed of the messages. *)
Definition nl : string := String (ascii_of_N 10) EmptyString.

(** Lines 268 and 271: [f"Image {idx+1}: {message}"]. *)
Definition item_error (idx : Z) (message : string) : string :=
  "Image " ++ PyString.of_Z (idx + 1) ++ ": " ++ message.

(** Lines 256-271: the [for] loop of [batch_upscale_gradio], from
    position [idx] on, with the two lists built so far.  The inner
    [except Exception] is kept although [upscale_image_gradio] returns
    on every path. *)
Fixpoint batch_loop (total idx : Z) (items : list (option string))
    (upscale_factor : pyval) (output_format : string) (metadata : bool)
    (upscaled_images : list image) (errors : list string)
  : M (list image * list string) :=
  match items with
  | [] => ret (upscaled_images, errors)
  | image_path :: rest =>
      lists <-
        try_except
          (emit (Print ("Processing image " ++ PyString.of_Z (idx + 1)
                        ++ "/" ++ PyString.of_Z total)) ;;;
           result <- upscale_image_gradio image_path upscale_factor
                       output_format metadata ;;
           match fst result with
           | Some upscaled =>
               ret ((upscaled_images ++ [upscaled])%list, errors)
           | None =>
               ret (upscaled_images,
                    (errors ++ [item_error idx (snd result)])%list)
           end)
          (fun e =>
             ret (upscaled_images,
                  (errors ++ [item_error idx (exn_str e)])%list)) ;;
      batch_loop total (idx + 1) rest upscale_factor output_format metadata
        (fst lists) (snd lists)
  end.

(** Lines 273-279: the result for the two lists. *)
Definition batch_summary (upscaled_images : list image)
    (errors : list string) : list image * string :=
  match upscaled_images with
  | _ :: _ =>
      let success_msg :=
        "Successfully upscaled "
        ++ PyString.of_Z (Z.of_nat (List.length upscaled_images))
        ++ " image(s)" in
      (upscaled_images,
       match errors with
       | _ :: _ =>
           success_msg ++ nl ++ nl ++ "Errors:" ++ nl
           ++ PyString.join nl errors
       | [] => success_msg
       end)
  | [] =>
      ([], "Failed to upscale any images" ++ nl ++ nl
           ++ PyString.join nl errors)
  end.

(** [batch_upscale_gradio(input_images, upscale_factor, output_format,
    metadata)], lines 243-285: it has an [except Exception] handler and
    no [finally] block. *)
Definition batch_upscale_gradio (input_images : option (list (option string)))
    (upscale_factor : pyval) (output_format : string) (metadata : bool)
  : M (list image * string) :=
  try_except
    (match input_images with
     | None | Some [] => ret ([], "Error: No images provided")
     | Some items =>
         lists <- batch_loop (Z.of_nat (List.length items)) 0 items
                    upscale_factor output_format metadata [] [] ;;
         ret (batch_summary (fst lists) (snd lists))
     end)
    (fun e =>
       emit (Print ("Error in batch upscaling: " ++ exn_str e)) ;;;
       emit PrintExc ;;;
       ret ([], "Error: " ++ exn_str e)).

(** [batch_upscale_gradio] for any [input_images], lines 249-285: the
    header of the [for] loop, line 256, is inside the outer [try] only,
    so that an [input_images] that can not be iterated ends in the
    handler of line 281. *)
Definition batch_upscale_gradio_any (input_images : images_arg)
    (upscale_factor : pyval) (output_format : string) (metadata : bool)
  : M (list image * string) :=
  try_except
    (if negb (images_truthy input_images)
     then ret ([], "Error: No images provided")
     else
       items <- lift (images_items input_images) ;;
       lists <- batch_loop (Z.of_nat (List.length items)) 0 items
                  upscale_factor output_format metadata [] [] ;;
       ret (batch_summary (fst lists) (snd lists)))
    (fun e =>
       emit (Print ("Error in batch upscaling: " ++ exn_str e)) ;;;
       emit PrintExc ;;;
       ret ([], "Error: " ++ exn_str e)).

End UpscaleManager.

(** ** [frontend/components/dreambooth_fine_tuning.py] *)

Module Dreambooth.

(** [gr.update(value=v, visible=b)]; [value=None] is [None] here. *)
Record update := Update { value : option string; visible : bool }.

(** An uploaded file, of which the handler reads [name]. *)
Record file := File { name : string }.

(** [updates.extend([a, b])] *)
Definition extend (updates : list update) (a b : update) : list update :=
  (updates ++ [a; b])%list.

(** [show_images(files)], lines 135-151; [files] is [None] or a list. *)
Definition show_images (files : option (list file)) : list update :=
  match files with
  | None | Some [] => repeat (Update None false) 40
  | Some files =>
      let updates :=
        fold_left
          (fun updates f =>
             extend updates (Update (Some (name f)) true)
               (Update (Some EmptyString) true))
          (firstn 20 files) [] in
      let remaining := (20 - List.length (firstn 20 files))%nat in
      fold_left
        (fun updates _ =>
           extend updates (Update None false)
             (Update (Some EmptyString) false))
        (seq 0 remaining) updates
  end.

(** The values of the two check boxes
    [transformer_blocks_enabled] and [single_blocks_enabled]. *)
Record blocks := Blocks {
  transformer_blocks_enabled : bool;
  single_blocks_enabled : bool
}.

(** [update_blocks_visibility(transformer_enabled, single_enabled)],
    lines 312-322: the new values of the two check boxes. *)
Definition update_blocks_visibility
    (transformer_enabled single_enabled : bool) : blocks :=
  if transformer_enabled && single_enabled then
    Blocks true false
  else
    Blocks transformer_enabled single_enabled.

Inductive checkbox := TransformerBox | SingleBox.

(** The user sets one check box. *)
Definition set_box (c : checkbox) (v : bool) (st : blocks) : blocks :=
  match c with
  | TransformerBox => Blocks v (single_blocks_enabled st)
  | SingleBox => Blocks (transformer_blocks_enabled st) v
  end.

Definition get_box (c : checkbox) (st : blocks) : bool :=
  match c with
  | TransformerBox => transformer_blocks_enabled st
  | SingleBox => single_blocks_enabled st
  end.

Definition other (c : checkbox) : checkbox :=
  match c with TransformerBox => SingleBox | SingleBox => TransformerBox end.

(** Lines 324-334, [transformer_blocks_enabled.change(...)] and
    [single_blocks_enabled.change(...)]: both register the same
    function on the same inputs and outputs, so what the page shows
    after a change of [changed] does not depend on [changed]. *)
Definition on_change (changed : checkbox) (st : blocks) : blocks :=
  update_blocks_visibility
    (transformer_blocks_enabled st) (single_blocks_enabled st).

(** The page after the user has set check box [c] to [v]. *)
Definition user_sets (c : checkbox) (v : bool) (st : blocks) : blocks :=
  on_change c (set_box c v st).

(** [gr.Image(...)] and [gr.Textbox(...)] with the arguments the tab
    gives them. *)
Inductive widget :=
| ImageWidget (show_label visible : bool) (height : Z) (container : bool)
| TextboxWidget (label : string) (show_label visible : bool) (lines : Z)
    (interactive : bool).

(** Lines 51-64, and the same in each of the five rows: the two widgets
    of the slot [i]. *)
Definition slot (i : nat) : list widget :=
  [ImageWidget false false 200 false;
   TextboxWidget ("Caption " ++ PyString.of_Z (Z.of_nat i + 1)) true false 3
     true].

(** [for i in range(a, b): ... image_caption_pairs.extend([img, caption])] *)
Definition add_row (pairs : list widget) (a b : nat) : list widget :=
  fold_left (fun pairs i => (pairs ++ slot i)%list) (seq a (b - a)) pairs.

(** Lines 46-132: [image_caption_pairs] after the five rows. *)
Definition image_caption_pairs : list widget :=
  add_row (add_row (add_row (add_row (add_row [] 0 4) 4 8) 8 12) 12 16) 16 20.

(** [l[::2]] *)
Fixpoint every_second {A} (l : list A) : list A :=
  match l with
  | [] => []
  | [x] => [x]
  | x :: _ :: l' => x :: every_second l'
  end.

(** Line 393: [[pair[1] for pair in zip(l[::2], l[1::2])]]. *)
Definition second_of_pairs {A} (l : list A) : list A :=
  map snd (combine (every_second l) (every_second (tl l))).

(** A run of a generator: what it yields, and whether it then returns or
    raises.  A generator that never ends has no such run. *)
Inductive gen (A : Type) :=
| GenReturn
| GenRaise (e : exn)
| GenYield (a : A) (rest : gen A).

Arguments GenReturn {A}.
Arguments GenRaise {A} e.
Arguments GenYield {A} a rest.

(** What the page gets for [training_progress] and [debug_dir]. *)
Record progress_update := ProgressUpdate {
  training_progress : string;
  debug_dir : string
}.

(** Lines 346-350: [debug_dir.value], under the directory
    [os.path.dirname(os.path.dirname(__file__))]. *)
Definition debug_dir_value (dir : string) : string :=
  PyPath.join (PyPath.join dir "configs") "dreambooth_debug_config.json".

(** [on_start_training], lines 352-366, on the run of the generator
    [run_dreambooth_from_ui_no_explicit_quantize] of
    [backend/training_manager.py], which is taken as given: every
    progress text is passed on, an exception becomes a last update. *)
Fixpoint on_start_training (dir : string) (generator : gen string)
  : gen progress_update :=
  match generator with
  | GenYield progress rest =>
      GenYield (ProgressUpdate progress (debug_dir_value dir))
        (on_start_training dir rest)
  | GenReturn => GenReturn
  | GenRaise e =>
      GenYield
        (ProgressUpdate ("Error: " ++ exn_str e) "Failed to save debug config")
        GenReturn
  end.

(** What a run yields, in order. *)
Fixpoint yields {A} (g : gen A) : list A :=
  match g with
  | GenYield a rest => a :: yields rest
  | _ => []
  end.

(** The exception a run ends in, if any. *)
Fixpoint ending {A} (g : gen A) : option exn :=
  match g with
  | GenYield _ rest => ending rest
  | GenReturn => None
  | GenRaise e => Some e
  end.

(** Lines 268-271 and 292-295: the check boxes as the tab creates them,
    both ticked. *)
Definition initial_blocks : blocks := Blocks true true.

(** The page after the user has set check boxes one after the other. *)
Definition user_session (changes : list (checkbox * bool)) (st : blocks)
  : blocks :=
  fold_left (fun st change => user_sets (fst change) (snd change) st)
    changes st.

End Dreambooth.

(** ** Sample collaborators, used to run the functions *)

Module Sample.

(** A 100 by 100 picture at every path but ["missing.png"], an upscaler
    that multiplies both sides, a clock stopped at 1700000000. *)
Definition world : env :=
  {| project_root := "/app";
     import_upscaler := fun _ => None;
     new_upscaler := fun _ => None;
     image_open := fun _ path =>
       if String.eqb path "missing.png"
       then inl (Exn OtherException "No such file: missing.png")
       else inr (Image 100 100 []);
     convert_rgb := fun _ img => inr img;
     upscaler_upscale := fun _ img f =>
       inr (Image (f * width img) (f * height img) []);
     resample := fun _ _ _ => inr [];
     image_save := fun _ _ _ _ => None;
     json_dump := fun _ _ _ => None;
     time_time := fun _ => PyFloat.of_decimal false 1700000000 0;
     time_ctime := fun _ => "Tue Nov 14 22:13:20 2023" |}.

(** The same, with pictures of 50 by 50. *)
Definition small_world : env :=
  {| project_root := project_root world;
     import_upscaler := import_upscaler world;
     new_upscaler := new_upscaler world;
     image_open := fun _ _ => inr (Image 50 50 []);
     convert_rgb := convert_rgb world;
     upscaler_upscale := upscaler_upscale world;
     resample := resample world;
     image_save := image_save world;
     json_dump := json_dump world;
     time_time := time_time world;
     time_ctime := time_ctime world |}.

(** A [parse_scale_factor] that takes an integer as the size in pixels
    and keeps the original size otherwise. *)
Definition pixels_or_original (v : pyval) (original : Z) : res Z :=
  match v with
  | PyInt n => inr n
  | _ => inr original
  end.

(** The events of a run for custom dimensions in [world], for the
    target 250 by 300. *)
Definition custom_trace : trace :=
  [ImageOpen "a.png";
   Print "Upscaling image with factor 3x to target 250x300";
   ImageOpen "a.png";
   Upscale (Image 100 100 []) 3;
   Resize (Image 300 300 []) 250 300;
   Save (Image 250 300 [])
     "/app/output/upscaled_custom_250x300_1700000000.png"
     (SaveKwargs "PNG" None);
   Print
     "Upscaled image saved to /app/output/upscaled_custom_250x300_1700000000.png";
   GcCollect; ForceMlxCleanup].

(** [world] without the upscaler package. *)
Definition no_upscaler_world : env :=
  {| project_root := project_root world;
     import_upscaler := fun _ =>
       Some (Exn OtherException "No module named 'mflux.upscaler'");
     new_upscaler := new_upscaler world;
     image_open := image_open world;
     convert_rgb := convert_rgb world;
     upscaler_upscale := upscaler_upscale world;
     resample := resample world;
     image_save := image_save world;
     json_dump := json_dump world;
     time_time := time_time world;
     time_ctime := time_ctime world |}.

(** [world] where the input file is gone once a result has been
    saved. *)
Definition vanishing_world : env :=
  {| project_root := project_root world;
     import_upscaler := import_upscaler world;
     new_upscaler := new_upscaler world;
     image_open := fun t path =>
       if existsb (fun ev => match ev with Save _ _ _ => true | _ => false end)
            t
       then inl (Exn OtherException "No such file: a.png")
       else inr (Image 100 100 []);
     convert_rgb := convert_rgb world;
     upscaler_upscale := upscaler_upscale world;
     resample := resample world;
     image_save := image_save world;
     json_dump := json_dump world;
     time_time := time_time world;
     time_ctime := time_ctime world |}.

(** The events of a run of [upscale_image_gradio] in [world], for the
    request "2x", the format JPEG and with metadata. *)
Definition plain_trace : trace :=
  [ImageOpen "a.png"; Print "Upscaling image with factor 2x";
   ImageOpen "a.png"; Upscale (Image 100 100 []) 2;
   Save (Image 200 200 []) "/app/output/upscaled_2x_1700000000.jpg"
     (SaveKwargs "JPEG" (Some 95));
   ImageOpen "a.png";
   JsonDump "/app/output/upscaled_2x_1700000000.json"
     [("original_width", PyInt 100); ("original_height", PyInt 100);
      ("upscaled_width", PyInt 200); ("upscaled_height", PyInt 200);
      ("upscale_factor", PyInt 2); ("output_format", PyStr "JPEG");
      ("generation_time", PyStr "Tue Nov 14 22:13:20 2023");
      ("original_file", PyStr "a.png")];
   Print "Upscaled image saved to /app/output/upscaled_2x_1700000000.jpg";
   GcCollect; ForceMlxCleanup].

(** The events of the same run in [vanishing_world], as a PNG and
    without metadata. *)
Definition saved_trace : trace :=
  [ImageOpen "a.png"; Print "Upscaling image with factor 2x";
   ImageOpen "a.png"; Upscale (Image 100 100 []) 2;
   Save (Image 200 200 []) "/app/output/upscaled_2x_1700000000.png"
     (SaveKwargs "PNG" None);
   Print "Upscaled image saved to /app/output/upscaled_2x_1700000000.png";
   GcCollect; ForceMlxCleanup].

End Sample.

(** ** Vocabulary of the statements *)

(** Every run of [m] appends events to the trace, all of them in [P]. *)
Definition emits {A} (P : event -> Prop) (m : M A) : Prop :=
  forall t, exists d, fst (m t) = (t ++ d)%list /\ Forall P d.

(** No run of [m] ends in an exception. *)
Definition never_raises {A} (m : M A) : Prop :=
  forall t, exists a, snd (m t) = inr a.

Definition is_gc (ev : event) : bool :=
  match ev with GcCollect => true | _ => false end.

Definition is_mlx_cleanup (ev : event) : bool :=
  match ev with ForceMlxCleanup => true | _ => false end.

Definition is_upscale (ev : event) : bool :=
  match ev with Upscale _ _ => true | _ => false end.

Definition is_resize (ev : event) : bool :=
  match ev with Resize _ _ _ => true | _ => false end.

Definition count (f : event -> bool) (d : trace) : nat :=
  List.length (filter f d).

(** An event that is no part of the cleanup. *)
Definition not_cleanup (ev : event) : Prop :=
  is_gc ev = false /\ is_mlx_cleanup ev = false.

(** Every call of the upscaler in [ev] has a factor in [P]. *)
Definition upscale_factor_in (P : Z -> Prop) (ev : event) : Prop :=
  forall img f, ev = Upscale img f -> P f.

Definition supported (f : Z) : Prop := f = 2 \/ f = 3 \/ f = 4.

(** [part] occurs in [s]. *)
Definition mentions (s part : string) : Prop :=
  exists pre post, s = pre ++ part ++ post.

(** The outcome of each item of a batch when the items are handled one
    after the other, each on the trace its predecessor left, and the
    trace after the last one. *)
Fixpoint batch_outcomes (E : env) (total idx : Z)
    (items : list (option string)) (upscale_factor : pyval)
    (output_format : string) (metadata : bool) (t : trace)
  : list (option image * string) * trace :=
  match items with
  | [] => ([], t)
  | image_path :: rest =>
      let t1 :=
        (t ++ [Print ("Processing image " ++ PyString.of_Z (idx + 1)
                      ++ "/" ++ PyString.of_Z total)])%list in
      let '(t2, r) :=
        upscale_image_gradio E image_path upscale_factor output_format
          metadata t1 in
      let outcome :=
        match r with
        | inr result => result
        | inl e => (None, exn_str e)
        end in
      let '(outcomes, t3) :=
        batch_outcomes E total (idx + 1) rest upscale_factor output_format
          metadata t2 in
      (outcome :: outcomes, t3)
  end.

(** The images of the items that succeeded, in order. *)
Fixpoint successes (outcomes : list (option image * string)) : list image :=
  match outcomes with
  | [] => []
  | (Some img, _) :: rest => img :: successes rest
  | (None, _) :: rest => successes rest
  end.

(** The messages of the items that failed, each under its position;
    [idx] is the position of the first outcome, counted from 0. *)
Fixpoint failures (idx : Z) (outcomes : list (option image * string))
  : list string :=
  match outcomes with
  | [] => []
  | (Some _, _) :: rest => failures (idx + 1) rest
  | (None, message) :: rest =>
      item_error idx message :: failures (idx + 1) rest
  end.

(** What the events of a body are like: none is part of the cleanup,
    every call of the upscaler has a supported factor. *)
Definition body_event (ev : event) : Prop :=
  not_cleanup ev /\ upscale_factor_in supported ev.

(** Every value that a run of [m] returns is in [R]. *)
Definition returns {A} (R : A -> Prop) (m : M A) : Prop :=
  forall t a, snd (m t) = inr a -> R a.

(** A result that reports a failure does so under the word "Error". *)
Definition failure_says_Error (r : option image * string) : Prop :=
  fst r = None -> String.prefix "Error" (snd r) = true.

(** The sizes a call of [upscale_with_custom_dimensions_gradio] works
    with: the original opened at the given path and the two target sizes
    that [parse_scale_factor] resolves against it. *)
Definition resolved_sizes (E : env) (parse_scale_factor : pyval -> Z -> res Z)
    (input_image : option string) (target_width target_height : pyval)
    (orig : image) (final_width final_height : Z) : Prop :=
  (exists p t0, given input_image = Some p /\ image_open E t0 p = inr orig)
  /\ parse_scale_factor target_width (width orig) = inr final_width
  /\ parse_scale_factor target_height (height orig) = inr final_height.

(** A call of the upscaler in [ev] is given the factor chosen for the
    effective scale of the resolved sizes. *)
Definition upscale_by_effective_scale (E : env)
    (parse_scale_factor : pyval -> Z -> res Z) (input_image : option string)
    (target_width target_height : pyval) (ev : event) : Prop :=
  forall img f,
    ev = Upscale img f ->
    exists orig final_width final_height effective_scale,
      resolved_sizes E parse_scale_factor input_image target_width
        target_height orig
        final_width final_height
      /\ effective_scale_of final_width final_height (width orig)
           (height orig) = inr effective_scale
      /\ f = nearest_factor effective_scale.

(** [ts] is a value of [int(time.time())]. *)
Definition unix_time_value (E : env) (ts : Z) : Prop :=
  exists t0, PyFloat.to_int (time_time E t0) = inr ts.

(** A [save] in [ev] made by [upscale_image_gradio]: the file name holds
    the resolved factor and the time, the arguments are those of the
    output format. *)
Definition save_by_factor (E : env) (upscale_factor : pyval)
    (output_format : string) (ev : event) : Prop :=
  forall img path kw,
    ev = Save img path kw ->
    exists f ts,
      resolve_factor upscale_factor = inr f /\ supported f
      /\ unix_time_value E ts
      /\ path
         = PyPath.join (OUTPUT_DIR E)
             (upscaled_stem f ts ++ "."
              ++ fst (format_kwargs output_format))
      /\ kw = snd (format_kwargs output_format).

(** A [save] in [ev] made by [upscale_with_custom_dimensions_gradio]:
    the file name holds the size of the saved image, which is the
    resolved target size, and the time. *)
Definition save_by_size (E : env) (parse_scale_factor : pyval -> Z -> res Z)
    (input_image : option string) (target_width target_height : pyval)
    (output_format : string) (ev : event) : Prop :=
  forall img path kw,
    ev = Save img path kw ->
    exists orig ts,
      resolved_sizes E parse_scale_factor input_image target_width
        target_height orig (width img) (height img)
      /\ unix_time_value E ts
      /\ path
         = PyPath.join (OUTPUT_DIR E)
             (custom_stem (width img) (height img) ts ++ "."
              ++ fst (format_kwargs output_format))
      /\ kw = snd (format_kwargs output_format).

(** The run of [m] from the trace [t] ends at the trace [t'] and
    returns [a]. *)
Definition runs {A} (m : M A) (t t' : trace) (a : A) : Prop :=
  m t = (t', inr a).

Definition is_save (ev : event) : bool :=
  match ev with Save _ _ _ => true | _ => false end.

(** Where a remainder [r] of a division by [d] stands: no remainder,
    below the half, at the half or above it. *)
Definition loc_of_rem (d r : Z) : location :=
  if r =? 0 then loc_Exact else loc_Inexact (2 * r ?= d).

(** A mantissa [m] of 53 bits with what lies behind it, rounded to
    nearest, ties to even, at the exponent [e]; a carry out of the 53
    bits moves to the next exponent. *)
Definition round53 (m : Z) (l : location) (e : Z) : spec_float :=
  let m1 := round_nearest_even m l in
  if m1 <? 2 ^ 53 then S754_finite false (Z.to_pos m1) e
  else S754_finite false (Z.to_pos (2 ^ 52)) (e + 1).

(** What [upscale_image] prints when it fails with [e], lines 37-39. *)
Definition upscale_image_report (e : exn) : trace :=
  [Print ("Error upscaling image: " ++ exn_str e); PrintExc].

(** The metadata of [upscale_image_gradio], lines 110-119. *)
Definition plain_metadata (original upscaled : image) (f : Z)
    (output_format ctime p : string) : list (string * pyval) :=
  [("original_width", PyInt (width original));
   ("original_height", PyInt (height original));
   ("upscaled_width", PyInt (width upscaled));
   ("upscaled_height", PyInt (height upscaled));
   ("upscale_factor", PyInt f);
   ("output_format", PyStr output_format);
   ("generation_time", PyStr ctime);
   ("original_file", PyStr (PyPath.basename p))].

(** The metadata of [upscale_with_custom_dimensions_gradio], lines
    210-222. *)
Definition custom_metadata (original upscaled : image)
    (target_width target_height : pyval) (effective_scale : spec_float)
    (output_format ctime p : string) : list (string * pyval) :=
  [("original_width", PyInt (width original));
   ("original_height", PyInt (height original));
   ("upscaled_width", PyInt (width upscaled));
   ("upscaled_height", PyInt (height upscaled));
   ("target_width", target_width);
   ("target_height", target_height);
   ("effective_scale", PyFloat effective_scale);
   ("upscale_factor_used", PyInt (nearest_factor effective_scale));
   ("output_format", PyStr output_format);
   ("generation_time", PyStr ctime);
   ("original_file", PyStr (PyPath.basename p))].

(** Every run of [m] appends at most [n] events that [f] selects. *)
Definition at_most {A} (f : event -> bool) (n : nat) (m : M A) : Prop :=
  forall t, exists d, fst (m t) = (t ++ d)%list /\ (count f d <= n)%nat.

(** An event that is not the first print of the handler of
    [batch_upscale_gradio], line 282. *)
Definition not_from_batch_handler (ev : event) : Prop :=
  forall s, ev = Print s -> String.prefix "Error in batch upscaling" s = false.

(** A recorded error of a batch of [n] items: the position of an item
    and a message that starts with "Error". *)
Definition item_report (n : nat) (x : string) : Prop :=
  exists k message,
    0 <= k < Z.of_nat n
    /\ x = item_error k message
    /\ String.prefix "Error" message = true.

(** A call of [json.dump] among the events. *)
Definition is_json_dump (ev : event) : bool :=
  match ev with JsonDump _ _ => true | _ => false end.

(** The path that an event writes to, if it writes. *)
Definition written_path (ev : event) : option string :=
  match ev with
  | Save _ path _ | JsonDump path _ => Some path
  | _ => None
  end.

(** A file written by [ev] lies in [dir], under a name without a
    slash, which [os.path.basename] gives back. *)
Definition writes_into (dir : string) (ev : event) : Prop :=
  match written_path ev with
  | Some path =>
      exists name,
        path = PyPath.join dir name
        /\ PyString.contains "/" name = false
        /\ PyPath.basename path = name
  | None => True
  end.

(** ** The computations: events and exceptions *)

Section MonadFacts.

Context {A B : Type}.
Variable P : event -> Prop.

Lemma emits_ret (a : A) : emits P (ret a).
Proof.
  intros t; exists []; split; [symmetry; apply app_nil_r | constructor].
Qed.

Lemma emits_lift (r : res A) : emits P (lift r).
Proof.
  intros t; exists []; split; [symmetry; apply app_nil_r | constructor].
Qed.

Lemma emits_ask (f : trace -> res A) : emits P (ask f).
Proof.
  intros t; exists []; split; [symmetry; apply app_nil_r | constructor].
Qed.

Lemma emits_ask_val (f : trace -> A) : emits P (ask_val f).
Proof.
  intros t; exists []; split; [symmetry; apply app_nil_r | constructor].
Qed.

Lemma emits_bind (m : M A) (k : A -> M B) :
  emits P m -> (forall a, emits P (k a)) -> emits P (bind m k).
Proof.
  intros Hm Hk t. unfold bind.
  destruct (Hm t) as [d [Ht Hd]].
  destruct (m t) as [t' [e | a]]; simpl in Ht; subst t'.
  - exists d; auto.
  - destruct (Hk a (t ++ d)%list) as [d' [Ht' Hd']].
    exists (d ++ d')%list. rewrite Ht', app_assoc. split; [reflexivity |].
    apply Forall_app; auto.
Qed.

Lemma emits_try_except (m : M A) (h : exn -> M A) :
  emits P m -> (forall e, emits P (h e)) -> emits P (try_except m h).
Proof.
  intros Hm Hh t. unfold try_except.
  destruct (Hm t) as [d [Ht Hd]].
  destruct (m t) as [t' [e | a]]; simpl in Ht; subst t'.
  - destruct (Hh e (t ++ d)%list) as [d' [Ht' Hd']].
    exists (d ++ d')%list. rewrite Ht', app_assoc. split; [reflexivity |].
    apply Forall_app; auto.
  - exists d; auto.
Qed.

End MonadFacts.

Lemma emits_emit (P : event -> Prop) (ev : event) : P ev -> emits P (emit ev).
Proof.
  intros H t; exists [ev]; split; [reflexivity |].
  repeat constructor; exact H.
Qed.

Lemma emits_ask_ok (P : event -> Prop) (f : trace -> option exn) :
  emits P (ask_ok f).
Proof.
  intros t; exists []; split; [symmetry; apply app_nil_r | constructor].
Qed.

Lemma emits_weaken {A} (P Q : event -> Prop) (m : M A) :
  (forall ev, P ev -> Q ev) -> emits P m -> emits Q m.
Proof.
  intros HPQ Hm t. destruct (Hm t) as [d [Ht Hd]].
  exists d; split; [exact Ht |]. eapply Forall_impl; eauto.
Qed.

Lemma never_raises_try_except {A} (m : M A) (h : exn -> M A) :
  (forall e, never_raises (h e)) -> never_raises (try_except m h).
Proof.
  intros Hh t. unfold try_except.
  destruct (m t) as [t' [e | a]].
  - apply Hh.
  - exists a; reflexivity.
Qed.

Lemma count_app (f : event -> bool) (d1 d2 : trace) :
  count f (d1 ++ d2)%list = (count f d1 + count f d2)%nat.
Proof. unfold count. now rewrite filter_app, length_app. Qed.

Lemma count_none (f : event -> bool) (d : trace) :
  Forall (fun ev => f ev = false) d -> count f d = 0%nat.
Proof.
  unfold count. induction 1 as [| ev d Hev _ IH]; simpl; [reflexivity |].
  now rewrite Hev.
Qed.

(** Solves [emits P m] for a computation built from the combinators,
    leaving the conditions on the single events. *)
Ltac emits_step :=
  first
    [ apply emits_ret | apply emits_lift | apply emits_ask
    | apply emits_ask_val | apply emits_ask_ok
    | apply emits_bind; [| intros ?]
    | apply emits_try_except; [| intros ?]
    | apply emits_emit ].

Ltac emits_auto :=
  repeat
    (first
       [ emits_step
       | match goal with
         | |- emits _ (match ?x with _ => _ end) => destruct x eqn:?
         | |- emits _ (if ?b then _ else _) => destruct b eqn:?
         end ]).

Lemma try_finally_cleanup {A} (m : M A) (t : trace) :
  try_finally m cleanup t
  = ((fst (m t) ++ [GcCollect; ForceMlxCleanup])%list, snd (m t)).
Proof.
  unfold try_finally, cleanup, bind, emit.
  destruct (m t) as [t' r]; simpl. now rewrite <- app_assoc.
Qed.

Lemma supported_factor_spec (n : Z) :
  supported_factor n = true <-> supported n.
Proof.
  unfold supported_factor, supported.
  rewrite !orb_true_iff, !Z.eqb_eq. tauto.
Qed.

Lemma nearest_factor_supported (es : spec_float) :
  supported (nearest_factor es).
Proof.
  unfold nearest_factor, supported.
  destruct (PyFloat.leb es lit_2_5); [auto |].
  destruct (PyFloat.leb es lit_3_5); auto.
Qed.

(** ** Facts on the upscale entry points *)

Section UpscaleFacts.

Variable E : env.
Variable parse_scale_factor : pyval -> Z -> res Z.

Ltac body_event_now :=
  split; [split; reflexivity | intros ? ? ?; discriminate].

Lemma upscale_image_events (image_path : string) (f : Z) :
  supported f -> emits body_event (upscale_image E image_path f).
Proof.
  intros Hf. unfold upscale_image. emits_auto; try body_event_now.
  split; [split; reflexivity |].
  intros img f' [= _ <-]. exact Hf.
Qed.

Lemma upscale_image_gradio_body_events input_image upscale_factor
    output_format metadata :
  emits body_event
    (upscale_image_gradio_body E input_image upscale_factor output_format
       metadata).
Proof.
  unfold upscale_image_gradio_body, open_image, unix_time, save_image,
    dump_json.
  destruct (given input_image); [| apply emits_ret].
  emits_auto; try body_event_now.
  split; [split; reflexivity |].
  intros img f [= _ <-]. apply supported_factor_spec.
  now apply negb_false_iff.
Qed.

Lemma custom_body_events input_image target_width target_height
    output_format metadata :
  emits body_event
    (upscale_with_custom_dimensions_gradio_body E parse_scale_factor
       input_image target_width target_height output_format metadata).
Proof.
  unfold upscale_with_custom_dimensions_gradio_body, open_image, unix_time,
    save_image, dump_json, fit_to_target.
  destruct (given input_image); [| apply emits_ret].
  emits_auto; try body_event_now.
  split; [split; reflexivity |].
  intros img f [= _ <-]. apply nearest_factor_supported.
Qed.

(** The events of a whole call: those of the body and of the handler,
    then the cleanup; and the call returns. *)
Lemma guarded_call {A} (body : M A) (h : exn -> M A) :
  emits body_event body ->
  (forall e, emits body_event (h e)) ->
  (forall e, never_raises (h e)) ->
  forall t, exists d a,
    try_finally (try_except body h) cleanup t
    = ((t ++ d ++ [GcCollect; ForceMlxCleanup])%list, inr a)
    /\ Forall body_event d.
Proof.
  intros Hb Hh Hn t. rewrite try_finally_cleanup.
  destruct (emits_try_except _ _ _ Hb Hh t) as [d [Ht Hd]].
  destruct (never_raises_try_except body h Hn t) as [a Ha].
  exists d, a. rewrite Ht, Ha, <- app_assoc. auto.
Qed.

Lemma handler_events (label : string) (e : exn) :
  emits body_event
    (emit (Print (label ++ exn_str e)) ;;; emit PrintExc ;;;
     ret (@None image, "Error: " ++ exn_str e)).
Proof. emits_auto; body_event_now. Qed.

Lemma handler_returns (label : string) (e : exn) :
  never_raises
    (emit (Print (label ++ exn_str e)) ;;; emit PrintExc ;;;
     ret (@None image, "Error: " ++ exn_str e)).
Proof. intros t. eexists. reflexivity. Qed.

Lemma upscale_image_gradio_call input_image upscale_factor output_format
    metadata (t : trace) :
  exists d a,
    upscale_image_gradio E input_image upscale_factor output_format
      metadata t
    = ((t ++ d ++ [GcCollect; ForceMlxCleanup])%list, inr a)
    /\ Forall body_event d.
Proof.
  apply guarded_call.
  - apply upscale_image_gradio_body_events.
  - intros e. apply handler_events.
  - intros e. apply handler_returns.
Qed.

Lemma custom_call input_image target_width target_height output_format
    metadata (t : trace) :
  exists d a,
    upscale_with_custom_dimensions_gradio E parse_scale_factor input_image
      target_width target_height output_format metadata t
    = ((t ++ d ++ [GcCollect; ForceMlxCleanup])%list, inr a)
    /\ Forall body_event d.
Proof.
  apply guarded_call.
  - apply custom_body_events.
  - intros e. apply handler_events.
  - intros e. apply handler_returns.
Qed.

Lemma body_events_no_cleanup (d : trace) :
  Forall body_event d ->
  count is_gc d = 0%nat /\ count is_mlx_cleanup d = 0%nat.
Proof.
  intros Hd; split; apply count_none;
    (eapply Forall_impl; [| exact Hd]); intros ev [[Hg Hm] _]; assumption.
Qed.

End UpscaleFacts.

(** ** What a computation returns *)

Section ReturnFacts.

Context {A B : Type}.

Lemma returns_ret (R : A -> Prop) (a : A) : R a -> returns R (ret a).
Proof. intros H t a' [= <-]. exact H. Qed.

Lemma returns_bind (R : B -> Prop) (m : M A) (k : A -> M B) :
  (forall a, (exists t, snd (m t) = inr a) -> returns R (k a)) ->
  returns R (bind m k).
Proof.
  intros Hk t b. unfold bind.
  destruct (m t) as [t' [e | a]] eqn:Hm; simpl; [discriminate |].
  apply Hk. exists t. now rewrite Hm.
Qed.

Lemma returns_try_except (R : A -> Prop) (m : M A) (h : exn -> M A) :
  returns R m -> (forall e, returns R (h e)) -> returns R (try_except m h).
Proof.
  intros Hm Hh t a. unfold try_except.
  destruct (m t) as [t' [e | a']] eqn:Hmt.
  - apply Hh.
  - intros H. apply (Hm t). now rewrite Hmt.
Qed.

Lemma returns_try_finally (R : A -> Prop) (m : M A) (fin : M unit) :
  returns R m -> returns R (try_finally m fin).
Proof.
  intros Hm t a. unfold try_finally.
  destruct (m t) as [t' r] eqn:Hmt.
  destruct (fin t') as [t'' [e | u]]; simpl; [discriminate |].
  intros ->. apply (Hm t). now rewrite Hmt.
Qed.

End ReturnFacts.

Ltac returns_auto :=
  repeat
    (first
       [ apply returns_try_finally
       | apply returns_try_except; [| intros ?]
       | apply returns_bind; intros ? ?
       | match goal with
         | |- returns _ (match ?x with _ => _ end) => destruct x eqn:?
         | |- returns _ (if ?b then _ else _) => destruct b eqn:?
         end
       | apply returns_ret ]).

Section ResultFacts.

Variable E : env.
Variable parse_scale_factor : pyval -> Z -> res Z.

Lemma upscale_image_gradio_failure input_image upscale_factor
    output_format metadata :
  returns failure_says_Error
    (upscale_image_gradio E input_image upscale_factor output_format
       metadata).
Proof.
  unfold upscale_image_gradio, upscale_image_gradio_body.
  returns_auto; unfold failure_says_Error; simpl;
    first [intros _; reflexivity | intros Hfail; discriminate Hfail].
Qed.

Lemma custom_failure input_image target_width target_height output_format
    metadata :
  returns failure_says_Error
    (upscale_with_custom_dimensions_gradio E parse_scale_factor input_image
       target_width target_height output_format metadata).
Proof.
  unfold upscale_with_custom_dimensions_gradio,
    upscale_with_custom_dimensions_gradio_body.
  returns_auto; unfold failure_says_Error; simpl;
    first [intros _; reflexivity | intros Hfail; discriminate Hfail].
Qed.

End ResultFacts.

(** ** The batch loop *)

Section BatchFacts.

Variable E : env.

(** The loop with its two accumulators computes the outcomes of the
    items, one after the other. *)
Lemma batch_loop_outcomes (items : list (option string)) :
  forall total idx upscale_factor output_format metadata
         upscaled_images errors t,
    batch_loop E total idx items upscale_factor output_format metadata
      upscaled_images errors t
    = (snd (batch_outcomes E total idx items upscale_factor output_format
              metadata t),
       inr ((upscaled_images
             ++ successes
                  (fst (batch_outcomes E total idx items upscale_factor
                          output_format metadata t)))%list,
            (errors
             ++ failures idx
                  (fst (batch_outcomes E total idx items upscale_factor
                          output_format metadata t)))%list)).
Proof.
  induction items as [| image_path rest IH]; intros;
    cbn [batch_loop batch_outcomes].
  - unfold ret. cbn [fst snd successes failures]. now rewrite !app_nil_r.
  - unfold bind at 1. unfold try_except, bind, emit.
    destruct (upscale_image_gradio_call E image_path upscale_factor
                output_format metadata
                (t ++ [Print ("Processing image " ++ PyString.of_Z (idx + 1)
                              ++ "/" ++ PyString.of_Z total)])%list)
      as [d [[upscaled message] [Hcall _]]].
    rewrite Hcall. cbn [fst snd].
    destruct upscaled as [img |]; unfold ret; cbn [fst snd]; rewrite IH;
      destruct (batch_outcomes E total (idx + 1) rest upscale_factor
                  output_format metadata _) as [outcomes t3];
      cbn [fst snd successes failures]; now rewrite <- app_assoc.
Qed.

(** Every item is handled, and each one runs the cleanup once. *)
Lemma batch_outcomes_trace (items : list (option string)) :
  forall total idx upscale_factor output_format metadata t,
  exists d,
    snd (batch_outcomes E total idx items upscale_factor output_format
           metadata t) = (t ++ d)%list
    /\ count is_gc d = List.length items
    /\ count is_mlx_cleanup d = List.length items
    /\ Forall (upscale_factor_in supported) d
    /\ List.length
         (fst (batch_outcomes E total idx items upscale_factor
                 output_format metadata t)) = List.length items.
Proof.
  induction items as [| image_path rest IH]; intros;
    cbn [batch_outcomes].
  - exists []. cbn [fst snd]. rewrite app_nil_r. repeat split; constructor.
  - destruct (upscale_image_gradio_call E image_path upscale_factor
                output_format metadata
                (t ++ [Print ("Processing image " ++ PyString.of_Z (idx + 1)
                              ++ "/" ++ PyString.of_Z total)])%list)
      as [d [a [Hcall Hd]]].
    rewrite Hcall.
    destruct (IH total (idx + 1) upscale_factor output_format metadata
                ((t ++ [Print ("Processing image "
                               ++ PyString.of_Z (idx + 1) ++ "/"
                               ++ PyString.of_Z total)])
                 ++ d ++ [GcCollect; ForceMlxCleanup])%list)
      as [d' [Ht [Hgc [Hmlx [Hup Hlen]]]]].
    destruct (batch_outcomes E total (idx + 1) rest upscale_factor
                output_format metadata _) as [outcomes t3].
    cbn [fst snd List.length] in *. subst t3.
    exists ([Print ("Processing image " ++ PyString.of_Z (idx + 1) ++ "/"
                    ++ PyString.of_Z total)]
            ++ (d ++ [GcCollect; ForceMlxCleanup]) ++ d')%list.
    destruct (body_events_no_cleanup d Hd) as [Hg0 Hm0].
    repeat split.
    + now rewrite <- !app_assoc.
    + rewrite !count_app, Hg0, Hgc. reflexivity.
    + rewrite !count_app, Hm0, Hmlx. reflexivity.
    + apply Forall_app; split;
        [constructor; [intros ? ? ?; discriminate | constructor] |].
      apply Forall_app; split; [| exact Hup].
      apply Forall_app; split.
      * eapply Forall_impl; [| exact Hd]. now intros ev [_ H].
      * constructor; [intros ? ? ?; discriminate |].
        constructor; [intros ? ? ?; discriminate | constructor].
    + now rewrite Hlen.
Qed.

(** The batch entry point on a list with at least one item. *)
Lemma batch_upscale_gradio_items (items : list (option string))
    upscale_factor output_format metadata t :
  items <> [] ->
  batch_upscale_gradio E (Some items) upscale_factor output_format
    metadata t
  = (snd (batch_outcomes E (Z.of_nat (List.length items)) 0 items
            upscale_factor output_format metadata t),
     inr (batch_summary
            (successes
               (fst (batch_outcomes E (Z.of_nat (List.length items)) 0 items
                       upscale_factor output_format metadata t)))
            (failures 0
               (fst (batch_outcomes E (Z.of_nat (List.length items)) 0 items
                       upscale_factor output_format metadata t))))).
Proof.
  intros Hne. destruct items as [| i0 rest]; [contradiction |].
  unfold batch_upscale_gradio, try_except, bind.
  rewrite batch_loop_outcomes. reflexivity.
Qed.

End BatchFacts.

(** ** Strings of the messages *)

Lemma string_app_assoc (a b c : string) : (a ++ b) ++ c = a ++ b ++ c.
Proof. induction a as [| x a IH]; simpl; [reflexivity | now rewrite IH]. Qed.

Lemma string_app_nil_r (a : string) : a ++ EmptyString = a.
Proof. induction a as [| x a IH]; simpl; [reflexivity | now rewrite IH]. Qed.

Lemma mentions_self (s : string) : mentions s s.
Proof. exists EmptyString, EmptyString. now rewrite string_app_nil_r. Qed.

Lemma mentions_left (pre s part : string) :
  mentions s part -> mentions (pre ++ s) part.
Proof.
  intros [p [q ->]]. exists (pre ++ p), q. now rewrite string_app_assoc.
Qed.

Lemma mentions_right (s post part : string) :
  mentions s part -> mentions (s ++ post) part.
Proof.
  intros [p [q ->]]. exists p, (q ++ post).
  now rewrite !string_app_assoc.
Qed.

Lemma mentions_join (sep : string) (l : list string) (x : string) :
  In x l -> mentions (PyString.join sep l) x.
Proof.
  induction l as [| y l IH]; intros Hin; [contradiction |].
  destruct Hin as [-> | Hin].
  - destruct l as [| z l]; simpl; [apply mentions_self |].
    apply mentions_right, mentions_self.
  - destruct l as [| z l]; [contradiction |].
    change (PyString.join sep (y :: z :: l))
      with (y ++ sep ++ PyString.join sep (z :: l)).
    apply mentions_left, mentions_left, IH, Hin.
Qed.

Lemma prefix_app (p s : string) : String.prefix p (p ++ s) = true.
Proof.
  induction p as [| c p IH]; simpl; [now destruct s |].
  destruct (ascii_dec c c) as [_ | Hc]; [exact IH | now elim Hc].
Qed.

Lemma prefix_refl (p : string) : String.prefix p p = true.
Proof.
  rewrite <- (string_app_nil_r p) at 2. apply prefix_app.
Qed.

(** A failed outcome at place [k] is listed under position [k + 1]. *)
Lemma failures_nth (outcomes : list (option image * string)) :
  forall idx k message,
    nth_error outcomes k = Some (None, message) ->
    In (item_error (idx + Z.of_nat k) message) (failures idx outcomes).
Proof.
  induction outcomes as [| [[img |] m] rest IH]; intros idx k message Hk.
  - now destruct k.
  - destruct k as [| k]; [discriminate |].
    cbn [nth_error] in Hk. cbn [failures].
    replace (idx + Z.of_nat (S k)) with ((idx + 1) + Z.of_nat k) by lia.
    now apply IH.
  - destruct k as [| k]; cbn [nth_error] in Hk; cbn [failures].
    + injection Hk as ->. left. f_equal. change (Z.of_nat 0) with 0. lia.
    + right. replace (idx + Z.of_nat (S k)) with ((idx + 1) + Z.of_nat k)
        by lia.
      now apply IH.
Qed.

(** The summary lists every recorded error. *)
Lemma batch_summary_mentions (imgs : list image) (errors : list string)
    (x : string) :
  In x errors -> mentions (snd (batch_summary imgs errors)) x.
Proof.
  intros Hin. unfold batch_summary.
  destruct imgs as [| i imgs]; cbn [snd].
  - rewrite <- !string_app_assoc. apply mentions_left, mentions_join, Hin.
  - destruct errors as [| e errors]; [contradiction |].
    rewrite <- !string_app_assoc. apply mentions_left, mentions_join, Hin.
Qed.

(** ** The requested factor *)

Lemma given_Some (p : string) :
  PyString.truthy p = true -> given (Some p) = Some p.
Proof. intros H. unfold given. now rewrite H. Qed.

Lemma lstrip_by_all (space f : ascii -> bool) (s : string) :
  PyString.all f s = true -> PyString.all f (PyString.lstrip_by space s) = true.
Proof.
  induction s as [| c s IH]; cbn [PyString.lstrip_by PyString.all];
    [reflexivity |].
  intros H. apply andb_true_iff in H. destruct H as [Hc Hs].
  destruct (space c); [now apply IH |].
  cbn [PyString.all]. now rewrite Hc, Hs.
Qed.

Lemma rstrip_by_all (space f : ascii -> bool) (s : string) :
  PyString.all f s = true -> PyString.all f (PyString.rstrip_by space s) = true.
Proof.
  induction s as [| c s IH]; cbn [PyString.rstrip_by PyString.all];
    [reflexivity |].
  intros H. apply andb_true_iff in H. destruct H as [Hc Hs].
  specialize (IH Hs).
  destruct (PyString.rstrip_by space s) as [| d r].
  - destruct (space c); cbn [PyString.all]; [reflexivity | now rewrite Hc].
  - cbn [PyString.all] in *. now rewrite Hc, IH.
Qed.

(** A text that [strip] empties is made of whitespace. *)
Lemma strip_empty_all (s : string) :
  PyString.strip s = EmptyString -> PyString.all PyString.isspace s = true.
Proof.
  unfold PyString.strip, PyString.strip_by.
  induction s as [| c s IH]; [reflexivity |].
  cbn [PyString.lstrip_by PyString.all].
  destruct (PyString.isspace c) eqn:Hc; [exact IH |].
  cbn [PyString.rstrip_by].
  destruct (PyString.rstrip_by PyString.isspace s); rewrite ?Hc; discriminate.
Qed.

(** The error of [int] quotes no more than the first 200 characters of
    the [repr] of its argument: for 250 blanks the text has 240
    characters. *)
Lemma int_of_long_blank :
  exists text,
    PyParse.int_of_string (string_of_list_ascii (repeat " "%char 250))
    = inl (Exn ValueError text)
    /\ String.length text = 240%nat.
Proof. eexists. split; vm_compute; reflexivity. Qed.

(** [int] refuses a text made of whitespace: what is left of it once
    the whitespace of a number is skipped is empty or starts with a
    character that is neither a sign nor a digit. *)
Lemma int_of_blank_string (s : string) :
  PyString.strip s = EmptyString ->
  PyParse.int_of_string s
  = inl (Exn ValueError
           ("invalid literal for int() with base 10: "
            ++ PyString.take 200 (PyString.repr s))).
Proof.
  intros H. apply strip_empty_all in H.
  unfold PyParse.int_of_string, PyString.strip_by.
  pose proof (rstrip_by_all PyString.isspace_number PyString.isspace _
                (lstrip_by_all PyString.isspace_number PyString.isspace _ H))
    as Hall.
  destruct (PyString.rstrip_by PyString.isspace_number
              (PyString.lstrip_by PyString.isspace_number s)) as [| c t];
    [reflexivity |].
  cbn [PyString.all] in Hall. apply andb_true_iff in Hall.
  destruct Hall as [Hc _].
  assert (Hkind : PyString.isdigit c = false
                  /\ Ascii.eqb c "_" = false
                  /\ c <> "-"%char /\ c <> "+"%char).
  { destruct c as [[|] [|] [|] [|] [|] [|] [|] [|]];
      try discriminate Hc; repeat split; discriminate. }
  destruct Hkind as [Hd [Hu [Hm Hp]]].
  cbn [PyParse.drop_underscores]. rewrite Hu.
  replace (Ascii.eqb zero "_") with false by reflexivity.
  cbn [andb].
  destruct (PyParse.drop_underscores c t) as [u |]; [| reflexivity].
  cbn [option_map].
  assert (Hsign : PyParse.sign (String c u) = (false, String c u)).
  { unfold PyParse.sign.
    destruct c as [[|] [|] [|] [|] [|] [|] [|] [|]]; try reflexivity;
      [now elim Hm | now elim Hp]. }
  rewrite Hsign. cbn [PyParse.digits]. rewrite Hd. reflexivity.
Qed.

(** The four requests of the specification. *)
Lemma resolve_factor_examples :
  resolve_factor (PyStr "2x") = inr 2
  /\ resolve_factor (PyStr "3") = inr 3
  /\ resolve_factor (PyStr "4.0") = inr 4
  /\ resolve_factor (PyStr "5x") = inr 5
  /\ supported_factor 5 = false.
Proof. repeat split; vm_compute; reflexivity. Qed.

(** [float] raises nothing but [ValueError]. *)
Lemma float_of_string_error (s : string) (e : exn) :
  PyParse.float_of_string s = inl e -> is_ValueError e = true.
Proof.
  unfold PyParse.float_of_string.
  destruct (PyParse.drop_underscores zero _) as [u |];
    [destruct (PyParse.number u) |]; intros H; now inversion H.
Qed.

(** A text with something else than whitespace in it that [float]
    refuses stands for the factor 2. *)
Lemma resolve_factor_unparsable (s : string) (e : exn) :
  PyString.truthy (PyString.strip s) = true ->
  PyParse.float_of_string
    (if PyString.endswith (PyString.lower (PyString.strip s)) "x"
     then PyString.replace "x" EmptyString (PyString.lower (PyString.strip s))
     else s) = inl e ->
  resolve_factor (PyStr s) = inr 2.
Proof.
  intros Hs Hf. unfold resolve_factor. rewrite Hs.
  assert (He : is_ValueError e = true)
    by (eapply float_of_string_error; exact Hf).
  destruct (PyString.endswith (PyString.lower (PyString.strip s)) "x");
    rewrite Hf; cbn [bind_res except_ValueError]; now rewrite He.
Qed.

(** A request outside 2, 3 and 4 ends the call before the upscaler. *)
Lemma unsupported_factor_call (E : env) (p : string) (upscale_factor : pyval)
    (output_format : string) (metadata : bool) (t : trace) (orig : image)
    (n : Z) :
  PyString.truthy p = true ->
  image_open E (t ++ [ImageOpen p])%list p = inr orig ->
  resolve_factor upscale_factor = inr n ->
  ~ supported n ->
  upscale_image_gradio E (Some p) upscale_factor output_format metadata t
  = ((t ++ [ImageOpen p; GcCollect; ForceMlxCleanup])%list,
     inr (None, "Error: Upscale factor must be 2, 3, or 4")).
Proof.
  intros Hp Hopen Hres Hn.
  assert (Hs : supported_factor n = false).
  { destruct (supported_factor n) eqn:Hs; [| reflexivity].
    now apply supported_factor_spec in Hs. }
  unfold upscale_image_gradio. rewrite try_finally_cleanup.
  unfold try_except, upscale_image_gradio_body.
  rewrite (given_Some p Hp).
  unfold open_image, bind, emit, ask, lift. rewrite Hopen, Hres, Hs.
  cbn [negb fst snd ret]. unfold ret. cbn [fst snd].
  now rewrite <- app_assoc.
Qed.

(** A request that [int] refuses ends the call in the handler. *)
Lemma refused_factor_call (E : env) (p : string) (upscale_factor : pyval)
    (output_format : string) (metadata : bool) (t : trace) (orig : image)
    (e : exn) :
  PyString.truthy p = true ->
  image_open E (t ++ [ImageOpen p])%list p = inr orig ->
  resolve_factor upscale_factor = inl e ->
  upscale_image_gradio E (Some p) upscale_factor output_format metadata t
  = ((t ++ [ImageOpen p; Print ("Error in upscaling: " ++ exn_str e);
            PrintExc; GcCollect; ForceMlxCleanup])%list,
     inr (None, "Error: " ++ exn_str e)).
Proof.
  intros Hp Hopen Hres.
  unfold upscale_image_gradio. rewrite try_finally_cleanup.
  unfold try_except, upscale_image_gradio_body.
  rewrite (given_Some p Hp).
  unfold open_image, bind, emit, ask, lift. rewrite Hopen, Hres.
  unfold ret. cbn [fst snd].
  now rewrite <- !app_assoc.
Qed.

(** ** The handlers of the Dreambooth tab *)

Section PairedUpdates.

Import Dreambooth.
Context {X : Type}.
Variables g h : X -> update.

(** The list built by [extend] one pair at a time. *)
Lemma fold_extend (l : list X) :
  forall acc,
    fold_left (fun updates x => extend updates (g x) (h x)) l acc
    = (acc ++ flat_map (fun x => [g x; h x]) l)%list.
Proof.
  induction l as [| x l IH]; intros acc; simpl.
  - now rewrite app_nil_r.
  - rewrite IH. unfold extend. now rewrite <- app_assoc.
Qed.

Lemma length_pairs (l : list X) :
  List.length (flat_map (fun x => [g x; h x]) l) = (2 * List.length l)%nat.
Proof. induction l as [| x l IH]; simpl; [reflexivity | rewrite IH; lia]. Qed.

Lemma nth_error_pairs (l : list X) :
  forall i,
    nth_error (flat_map (fun x => [g x; h x]) l) (2 * i)
    = option_map g (nth_error l i)
    /\ nth_error (flat_map (fun x => [g x; h x]) l) (2 * i + 1)
       = option_map h (nth_error l i).
Proof.
  induction l as [| x l IH]; intros i.
  - destruct i; simpl; [auto |].
    replace (i + S (i + 0))%nat with (S (2 * i)) by lia.
    replace (i + S (i + 0) + 1)%nat with (S (2 * i + 1)) by lia.
    split; reflexivity.
  - destruct i as [| i]; [split; reflexivity |].
    replace (2 * S i)%nat with (S (S (2 * i))) by lia.
    replace (S (S (2 * i)) + 1)%nat with (S (S (2 * i + 1))) by lia.
    cbn [flat_map app nth_error]. apply IH.
Qed.

End PairedUpdates.

Lemma show_images_pairs (fs : list Dreambooth.file) :
  fs <> [] ->
  Dreambooth.show_images (Some fs)
  = (flat_map
       (fun f => [Dreambooth.Update (Some (Dreambooth.name f)) true;
                  Dreambooth.Update (Some EmptyString) true])
       (firstn 20 fs)
     ++ flat_map
          (fun _ : nat =>
             [Dreambooth.Update None false;
              Dreambooth.Update (Some EmptyString) false])
          (seq 0 (20 - List.length (firstn 20 fs))))%list.
Proof.
  intros Hne. destruct fs as [| f0 fs]; [contradiction |].
  unfold Dreambooth.show_images.
  rewrite (fold_extend
             (fun _ : nat => Dreambooth.Update None false)
             (fun _ : nat => Dreambooth.Update (Some EmptyString) false)).
  rewrite (fold_extend
             (fun f => Dreambooth.Update (Some (Dreambooth.name f)) true)
             (fun _ => Dreambooth.Update (Some EmptyString) true)).
  reflexivity.
Qed.

(** ** The effective scale and its factor *)

Lemma lit_2_5_value :
  lit_2_5 = S754_finite false 5629499534213120 (-51)
  /\ 2 * 5629499534213120 = 5 * 2 ^ 51.
Proof. split; vm_compute; reflexivity. Qed.

Lemma lit_3_5_value :
  lit_3_5 = S754_finite false 7881299347898368 (-51)
  /\ 2 * 7881299347898368 = 7 * 2 ^ 51.
Proof. split; vm_compute; reflexivity. Qed.

Lemma SFcompare_swap (a b : spec_float) :
  SFcompare b a = option_map CompOpp (SFcompare a b).
Proof.
  destruct a as [sa | sa | | sa ma ea], b as [sb | sb | | sb mb eb];
    try destruct sa; try destruct sb; try reflexivity; simpl;
    rewrite (Z.compare_antisym ea eb);
    destruct (ea ?= eb); simpl; try reflexivity;
    rewrite (Pos.compare_cont_antisym ma mb Eq); simpl;
    now rewrite ?CompOpp_involutive.
Qed.

Lemma ltb_not_leb (a b : spec_float) :
  PyFloat.ltb a b = true -> PyFloat.leb b a = false.
Proof.
  unfold PyFloat.ltb, PyFloat.leb, SFltb, SFleb.
  rewrite (SFcompare_swap a b).
  destruct (SFcompare a b) as [[| |] |]; simpl; congruence.
Qed.

(** What lies above 3.5 lies above 2.5. *)
Lemma above_3_5_above_2_5 (es : spec_float) :
  PyFloat.ltb lit_3_5 es = true -> PyFloat.ltb lit_2_5 es = true.
Proof.
  rewrite (proj1 lit_2_5_value), (proj1 lit_3_5_value).
  unfold PyFloat.ltb, SFltb.
  destruct es as [s | s | | s m e]; try destruct s; cbn [SFcompare];
    try congruence.
  destruct (-51 ?= e) eqn:He; try congruence.
  change (Pos.compare_cont Eq 7881299347898368 m)
    with (7881299347898368 ?= m)%positive.
  change (Pos.compare_cont Eq 5629499534213120 m)
    with (5629499534213120 ?= m)%positive.
  destruct (7881299347898368 ?= m)%positive eqn:Hm; try (intros; discriminate).
  intros _.
  assert (Hlt : (7881299347898368 < m)%positive) by exact Hm.
  assert (H25 : (5629499534213120 < m)%positive) by lia.
  unfold Pos.lt in H25. now rewrite H25.
Qed.

Lemma nearest_factor_buckets (es : spec_float) :
  (PyFloat.leb es lit_2_5 = true -> nearest_factor es = 2)
  /\ (PyFloat.ltb lit_2_5 es = true -> PyFloat.leb es lit_3_5 = true ->
      nearest_factor es = 3)
  /\ (PyFloat.ltb lit_3_5 es = true -> nearest_factor es = 4).
Proof.
  unfold nearest_factor. split; [| split].
  - now intros ->.
  - intros H1 H2. now rewrite (ltb_not_leb _ _ H1), H2.
  - intros H.
    now rewrite (ltb_not_leb _ _ (above_3_5_above_2_5 es H)),
      (ltb_not_leb _ _ H).
Qed.

(** The quotient of two positive integers is a float, unless it is too
    large for one. *)
Lemma truediv_positive (a b : Z) :
  0 < a -> 0 < b ->
  (exists f, PyFloat.truediv a b = inr f)
  \/ PyFloat.truediv a b
     = inl (Exn OverflowError
              "integer division result too large for a float").
Proof.
  intros Ha Hb. destruct a as [| n | n]; try lia.
  destruct b as [| d | d]; try lia.
  unfold PyFloat.truediv.
  destruct (PyFloat.of_ratio _ n d); eauto.
Qed.

(** ** Where the values of a call come from *)

Lemma emits_bind_from {A B} (P : event -> Prop) (m : M A) (k : A -> M B) :
  emits P m ->
  (forall a, (exists t, snd (m t) = inr a) -> emits P (k a)) ->
  emits P (bind m k).
Proof.
  intros Hm Hk t. unfold bind.
  destruct (Hm t) as [d [Ht Hd]].
  destruct (m t) as [t' [e | a]] eqn:Hmt; simpl in Ht; subst t'.
  - exists d; auto.
  - assert (Ha : exists t0, snd (m t0) = inr a)
      by (exists t; now rewrite Hmt).
    destruct (Hk a Ha (t ++ d)%list) as [d' [Ht' Hd']].
    exists (d ++ d')%list. rewrite Ht', app_assoc. split; [reflexivity |].
    apply Forall_app; auto.
Qed.

Lemma emits_with_cleanup {A} (P : event -> Prop) (m : M A) :
  P GcCollect -> P ForceMlxCleanup ->
  emits P m -> emits P (try_finally m cleanup).
Proof.
  intros Hg Hc Hm t. rewrite try_finally_cleanup.
  destruct (Hm t) as [d [Ht Hd]]. cbn [fst].
  exists (d ++ [GcCollect; ForceMlxCleanup])%list.
  rewrite Ht, <- app_assoc. split; [reflexivity |].
  apply Forall_app; split; [exact Hd |]. repeat constructor; assumption.
Qed.

Section Provenance.

Variable E : env.

Lemma open_image_from (p : string) (orig : image) :
  (exists t, snd (open_image E p t) = inr orig) ->
  exists t0, image_open E t0 p = inr orig.
Proof. intros [t Ht]. now exists (t ++ [ImageOpen p])%list. Qed.

Lemma lift_from {A} (r : res A) (a : A) :
  (exists t : trace, snd (lift r t) = inr a) -> r = inr a.
Proof. now intros [t Ht]. Qed.

Lemma unix_time_from (ts : Z) :
  (exists t, snd (unix_time E t) = inr ts) -> unix_time_value E ts.
Proof. intros [t Ht]. now exists t. Qed.

(** A resize that returns: the two sides are C integers of at least
    one pixel, and the image has them. *)
Lemma image_resize_ok (sample : image -> Z -> Z -> res (list Z))
    (img r : image) (w h : Z) :
  image_resize sample img w h = inr r ->
  (1 <= w <= 2 ^ 31 - 1 /\ 1 <= h <= 2 ^ 31 - 1)
  /\ exists data, sample img w h = inr data /\ r = Image w h data.
Proof.
  unfold image_resize, c_int. intros H.
  destruct ((w <? - 2 ^ 63) || (2 ^ 63 - 1 <? w)); [discriminate H |].
  destruct (Z.ltb_spec w (- 2 ^ 31)); [discriminate H |].
  destruct (Z.ltb_spec (2 ^ 31 - 1) w); [discriminate H |].
  cbn [bind_res] in H.
  destruct ((h <? - 2 ^ 63) || (2 ^ 63 - 1 <? h)); [discriminate H |].
  destruct (Z.ltb_spec h (- 2 ^ 31)); [discriminate H |].
  destruct (Z.ltb_spec (2 ^ 31 - 1) h); [discriminate H |].
  cbn [bind_res] in H.
  destruct (Z.ltb_spec w 1); [discriminate H |].
  destruct (Z.ltb_spec h 1); [discriminate H |].
  cbn [orb] in H.
  destruct (sample img w h) as [e | data]; [discriminate H |].
  injection H as <-. split; [lia |]. exists data. auto.
Qed.

(** The image after [fit_to_target] has the target size. *)
Lemma fit_to_target_size (upscaled : image) (fw fh : Z) (img : image) :
  (exists t, snd (fit_to_target E upscaled fw fh t) = inr img) ->
  width img = fw /\ height img = fh.
Proof.
  intros [t Ht]. unfold fit_to_target in Ht.
  destruct (width upscaled =? fw) eqn:Hw;
    destruct (height upscaled =? fh) eqn:Hh;
    cbn [negb orb] in Ht.
  1: { injection Ht as <-. split; now apply Z.eqb_eq. }
  all: unfold bind, emit, lift in Ht; cbn [snd] in Ht;
    apply image_resize_ok in Ht; destruct Ht as [_ [data [_ ->]]];
    split; reflexivity.
Qed.

End Provenance.

Section CustomFacts.

Variable E : env.
Variable parse_scale_factor : pyval -> Z -> res Z.

Ltac other_event := intros ? ? ?; discriminate.

(** Every call of the upscaler made for custom dimensions is given
    the factor of the effective scale. *)
Lemma custom_upscale_events input_image target_width target_height
    output_format metadata :
  emits
    (upscale_by_effective_scale E parse_scale_factor input_image
       target_width target_height)
    (upscale_with_custom_dimensions_gradio E parse_scale_factor input_image
       target_width target_height output_format metadata).
Proof.
  unfold upscale_with_custom_dimensions_gradio.
  apply emits_with_cleanup; [other_event | other_event |].
  apply emits_try_except; [| intros e; emits_auto; other_event].
  unfold upscale_with_custom_dimensions_gradio_body.
  destruct (given input_image) as [p |] eqn:Hp; [| apply emits_ret].
  apply emits_bind_from;
    [unfold open_image; emits_auto; other_event | intros orig Horig].
  apply open_image_from in Horig. destruct Horig as [t0 Horig].
  apply emits_bind_from; [apply emits_lift | intros fw Hfw].
  apply lift_from in Hfw.
  apply emits_bind_from; [apply emits_lift | intros fh Hfh].
  apply lift_from in Hfh.
  apply emits_bind_from; [apply emits_lift | intros es Hes].
  apply lift_from in Hes.
  unfold unix_time, save_image, dump_json, fit_to_target.
  emits_auto; try other_event.
  intros img f [= _ <-]. exists orig, fw, fh, es.
  split; [| split; [exact Hes | reflexivity]].
  split; [exists p, t0; split; [exact Hp | exact Horig] |].
  split; assumption.
Qed.

(** Every file saved for custom dimensions is named after the target
    size, which is the size of the image saved. *)
Lemma custom_save_events input_image target_width target_height
    output_format metadata :
  emits
    (save_by_size E parse_scale_factor input_image target_width
       target_height output_format)
    (upscale_with_custom_dimensions_gradio E parse_scale_factor input_image
       target_width target_height output_format metadata).
Proof.
  unfold upscale_with_custom_dimensions_gradio.
  apply emits_with_cleanup; [other_event | other_event |].
  apply emits_try_except; [| intros e; emits_auto; other_event].
  unfold upscale_with_custom_dimensions_gradio_body.
  destruct (given input_image) as [p |] eqn:Hp; [| apply emits_ret].
  apply emits_bind_from;
    [unfold open_image; emits_auto; other_event | intros orig Horig].
  apply open_image_from in Horig. destruct Horig as [t0 Horig].
  apply emits_bind_from; [apply emits_lift | intros fw Hfw].
  apply lift_from in Hfw.
  apply emits_bind_from; [apply emits_lift | intros fh Hfh].
  apply lift_from in Hfh.
  apply emits_bind; [apply emits_lift | intros es].
  apply emits_bind; [apply emits_emit; other_event | intros _].
  apply emits_bind;
    [unfold upscale_image; emits_auto; other_event | intros upscaled].
  destruct upscaled as [upscaled_image |]; [| apply emits_ret].
  apply emits_bind_from;
    [unfold fit_to_target; emits_auto; other_event | intros img Himg].
  apply fit_to_target_size in Himg. destruct Himg as [Hw Hh].
  apply emits_bind_from;
    [unfold unix_time; emits_auto | intros ts Hts].
  apply unix_time_from in Hts.
  destruct (format_kwargs output_format) as [ext kw] eqn:Hfmt.
  unfold save_image, dump_json.
  emits_auto; try other_event.
  intros img' path kw' [= <- <- <-]. exists orig, ts.
  rewrite Hw, Hh, Hfmt.
  split; [| split; [exact Hts | split; [reflexivity | reflexivity]]].
  split; [exists p, t0; split; [exact Hp | exact Horig] |].
  split; assumption.
Qed.

(** What a call for custom dimensions returns with an image. *)
Lemma custom_returns_target_size input_image target_width target_height
    output_format metadata :
  returns
    (fun r =>
       forall img, fst r = Some img ->
       exists orig,
         resolved_sizes E parse_scale_factor input_image target_width
           target_height orig (width img) (height img))
    (upscale_with_custom_dimensions_gradio E parse_scale_factor input_image
       target_width target_height output_format metadata).
Proof.
  unfold upscale_with_custom_dimensions_gradio.
  apply returns_try_finally.
  apply returns_try_except;
    [| intros e; returns_auto; intros img Himg; discriminate Himg].
  unfold upscale_with_custom_dimensions_gradio_body.
  destruct (given input_image) as [p |] eqn:Hp;
    [| apply returns_ret; intros img Himg; discriminate Himg].
  apply returns_bind; intros orig Horig.
  apply open_image_from in Horig. destruct Horig as [t0 Horig].
  apply returns_bind; intros fw Hfw. apply lift_from in Hfw.
  apply returns_bind; intros fh Hfh. apply lift_from in Hfh.
  apply returns_bind; intros es _.
  apply returns_bind; intros _ _.
  apply returns_bind; intros upscaled _.
  destruct upscaled as [upscaled_image |];
    [| apply returns_ret; intros img Himg; discriminate Himg].
  apply returns_bind; intros fitted Hfit.
  apply fit_to_target_size in Hfit. destruct Hfit as [Hw Hh].
  returns_auto.
  intros img [= <-]. exists orig. rewrite Hw, Hh.
  split; [exists p, t0; split; [exact Hp | exact Horig] |].
  split; assumption.
Qed.

End CustomFacts.

(** ** Runs that return *)

Section RunFacts.

Context {A B : Type}.

Lemma runs_bind_inv (m : M A) (k : A -> M B) t t'' b :
  runs (bind m k) t t'' b ->
  exists t' a, runs m t t' a /\ runs (k a) t' t'' b.
Proof.
  unfold runs, bind. destruct (m t) as [t' [e | a]]; intros H;
    [discriminate | eauto].
Qed.

Lemma runs_ret_inv (x : A) t t' a : runs (ret x) t t' a -> t' = t /\ a = x.
Proof. unfold runs, ret. now intros [= -> ->]. Qed.

Lemma runs_lift_inv (r : res A) t t' a :
  runs (lift r) t t' a -> t' = t /\ r = inr a.
Proof. unfold runs, lift. now intros [= -> ->]. Qed.

Lemma runs_ask_inv (f : trace -> res A) t t' a :
  runs (ask f) t t' a -> t' = t /\ f t = inr a.
Proof. unfold runs, ask. now intros [= -> ->]. Qed.

Lemma runs_ask_val_inv (f : trace -> A) t t' a :
  runs (ask_val f) t t' a -> t' = t /\ a = f t.
Proof. unfold runs, ask_val. now intros [= -> ->]. Qed.

Lemma runs_try_except_inv (m : M A) (h : exn -> M A) t t' a :
  runs (try_except m h) t t' a ->
  runs m t t' a \/ exists t1 e, m t = (t1, inl e) /\ runs (h e) t1 t' a.
Proof.
  unfold runs, try_except. destruct (m t) as [t1 [e | a1]]; intros H.
  - right. eauto.
  - now left.
Qed.

Lemma runs_cleanup_inv (m : M A) t t' a :
  runs (try_finally m cleanup) t t' a ->
  exists t1, runs m t t1 a /\ t' = (t1 ++ [GcCollect; ForceMlxCleanup])%list.
Proof.
  unfold runs. rewrite try_finally_cleanup.
  destruct (m t) as [t1 r]. cbn [fst snd]. intros [= <- ->]. eauto.
Qed.

End RunFacts.

Lemma runs_emit_inv (ev : event) t t' u :
  runs (emit ev) t t' u -> t' = (t ++ [ev])%list.
Proof. unfold runs, emit. now intros [= <-]. Qed.

Lemma runs_ask_ok_inv (f : trace -> option exn) t t' u :
  runs (ask_ok f) t t' u -> t' = t /\ f t = None.
Proof.
  unfold runs, ask_ok. destruct (f t); intros H; [discriminate |].
  now injection H as <-.
Qed.

(** Takes a run of a sequence apart at its first step. *)
Tactic Notation "run_step" hyp(H) "as" ident(t1) ident(a1) ident(H1) :=
  apply runs_bind_inv in H; destruct H as [t1 [a1 [H1 H]]].

Section SuccessFacts.

Variable E : env.
Variable parse_scale_factor : pyval -> Z -> res Z.

(** A call of [upscale_image] that returns an image has opened the
    file, converted it and handed it to the upscaler, with the factor
    it was given. *)
Lemma upscale_image_success (p : string) (f : Z) t t' (upscaled : image) :
  runs (upscale_image E p f) t t' (Some upscaled) ->
  exists opened image,
    image_open E (t ++ [ImageOpen p])%list p = inr opened
    /\ convert_rgb E (t ++ [ImageOpen p])%list opened = inr image
    /\ upscaler_upscale E (t ++ [ImageOpen p; Upscale image f])%list image f
       = inr upscaled
    /\ t' = (t ++ [ImageOpen p; Upscale image f])%list.
Proof.
  intros H. unfold upscale_image in H.
  apply runs_try_except_inv in H. destruct H as [H | [t1 [e [_ H]]]].
  - run_step H as t1 u1 Himport.
    apply runs_ask_ok_inv in Himport. destruct Himport as [-> _].
    run_step H as t2 u2 Hev. apply runs_emit_inv in Hev. subst t2.
    run_step H as t3 opened Hopen.
    apply runs_ask_inv in Hopen. destruct Hopen as [-> Hopen].
    run_step H as t4 image Hconv.
    apply runs_ask_inv in Hconv. destruct Hconv as [-> Hconv].
    run_step H as t5 u5 Hnew.
    apply runs_ask_ok_inv in Hnew. destruct Hnew as [-> _].
    run_step H as t6 u6 Hev. apply runs_emit_inv in Hev. subst t6.
    run_step H as t7 up Hup.
    apply runs_ask_inv in Hup. destruct Hup as [-> Hup].
    apply runs_ret_inv in H. destruct H as [-> [= ->]].
    rewrite <- app_assoc in Hup |- *. cbn [app] in Hup |- *.
    exists opened, image. auto.
  - run_step H as t2 u2 Hev. run_step H as t3 u3 Hev'.
    apply runs_ret_inv in H. destruct H as [_ H]. discriminate H.
Qed.

Lemma runs_extends {A} (m : M A) t t' a :
  emits (fun _ => True) m -> runs m t t' a -> exists d, t' = (t ++ d)%list.
Proof.
  intros Hm H. destruct (Hm t) as [d [Hd _]].
  unfold runs in H. rewrite H in Hd. now exists d.
Qed.

Lemma runs_returns {A} (R : A -> Prop) (m : M A) t t' a :
  returns R m -> runs m t t' a -> R a.
Proof. intros Hm H. apply (Hm t). unfold runs in H. now rewrite H. Qed.

(** A call of [fit_to_target] that returns: the image is kept when it
    has the target size, and resized to it otherwise. *)
Lemma fit_to_target_success (upscaled : image) (fw fh : Z) t t' img :
  runs (fit_to_target E upscaled fw fh) t t' img ->
  (width upscaled = fw /\ height upscaled = fh /\ img = upscaled
   /\ t' = t)
  \/ ((width upscaled <> fw \/ height upscaled <> fh)
      /\ (exists data,
             resample E upscaled fw fh = inr data
             /\ img = Image fw fh data)
      /\ t' = (t ++ [Resize upscaled fw fh])%list).
Proof.
  intros H. unfold fit_to_target in H.
  destruct (width upscaled =? fw) eqn:Hw;
    destruct (height upscaled =? fh) eqn:Hh; cbn [negb orb] in H.
  1: { apply runs_ret_inv in H. destruct H as [-> ->].
       left. repeat split; now apply Z.eqb_eq. }
  all: right; run_step H as t1 u1 Hev; apply runs_emit_inv in Hev; subst t1;
    apply runs_lift_inv in H; destruct H as [-> H];
    apply image_resize_ok in H; destruct H as [_ [data [Hdata ->]]];
    (split; [| split; [exists data; auto | reflexivity]]);
    apply Z.eqb_neq in Hw || apply Z.eqb_neq in Hh; auto.
Qed.

End SuccessFacts.

(** Every file saved by [upscale_image_gradio] is named after the
    resolved factor and the time. *)
Lemma plain_save_events (E : env) input_image upscale_factor output_format
    metadata :
  emits (save_by_factor E upscale_factor output_format)
    (upscale_image_gradio E input_image upscale_factor output_format
       metadata).
Proof.
  unfold upscale_image_gradio.
  apply emits_with_cleanup; [intros ? ? ?; discriminate .. |].
  apply emits_try_except;
    [| intros e; emits_auto; intros ? ? ?; discriminate].
  unfold upscale_image_gradio_body.
  destruct (given input_image) as [p |] eqn:Hp; [| apply emits_ret].
  apply emits_bind;
    [unfold open_image; emits_auto; intros ? ? ?; discriminate
    | intros orig].
  apply emits_bind_from; [apply emits_lift | intros f Hf].
  apply lift_from in Hf.
  destruct (supported_factor f) eqn:Hsup; cbn [negb]; [| apply emits_ret].
  apply supported_factor_spec in Hsup.
  apply emits_bind; [apply emits_emit; intros ? ? ?; discriminate | intros _].
  apply emits_bind;
    [unfold upscale_image; emits_auto; intros ? ? ?; discriminate
    | intros upscaled].
  destruct upscaled as [upscaled_image |]; [| apply emits_ret].
  apply emits_bind_from; [unfold unix_time; emits_auto | intros ts Hts].
  apply unix_time_from in Hts.
  destruct (format_kwargs output_format) as [ext kw] eqn:Hfmt.
  unfold save_image, dump_json, open_image.
  emits_auto; try (intros ? ? ?; discriminate).
  intros img path kw' [= <- <- <-]. exists f, ts.
  rewrite Hfmt. repeat split; assumption.
Qed.

(** ** The file names can be read back *)

Lemma uint_string_chars (c : ascii) (u : Decimal.uint) :
  PyString.isdigit c = false ->
  PyString.contains c (NilEmpty.string_of_uint u) = false.
Proof.
  intros Hc. induction u; cbn [NilEmpty.string_of_uint PyString.contains];
    [reflexivity | ..];
    rewrite IHu, orb_false_r;
    match goal with
    | |- Ascii.eqb ?d c = false =>
        destruct (Ascii.eqb_spec d c) as [<- |]; [discriminate Hc | reflexivity]
    end.
Qed.

(** [str(n)] is made of digits and, maybe, a minus sign. *)
Lemma of_Z_chars (c : ascii) (n : Z) :
  PyString.isdigit c = false -> c <> "-"%char ->
  PyString.contains c (PyString.of_Z n) = false.
Proof.
  intros Hc Hm. unfold PyString.of_Z, NilZero.string_of_int.
  assert (Hu : forall u,
             PyString.contains c (NilZero.string_of_uint u) = false).
  { intros u. unfold NilZero.string_of_uint.
    destruct u; try apply (uint_string_chars c _ Hc).
    cbn [PyString.contains]. rewrite orb_false_r.
    destruct (Ascii.eqb_spec "0" c) as [<- |];
      [discriminate Hc | reflexivity]. }
  destruct (Z.to_int n) as [u | u]; [apply Hu |].
  cbn [PyString.contains]. rewrite Hu, orb_false_r.
  destruct (Ascii.eqb_spec "-" c) as [<- |]; [now elim Hm | reflexivity].
Qed.

Lemma of_Z_inj (n n' : Z) : PyString.of_Z n = PyString.of_Z n' -> n = n'.
Proof.
  unfold PyString.of_Z. intros H. apply DecimalZ.to_int_inj.
  assert (Hnn : forall z, Z.to_int z <> Decimal.Pos Decimal.Nil
                          /\ Z.to_int z <> Decimal.Neg Decimal.Nil).
  { intros [| q | q]; split; try discriminate; cbn; intros [= Hq];
      now apply DecimalPos.Unsigned.to_uint_nonnil in Hq. }
  destruct (Hnn n) as [Hp Hn], (Hnn n') as [Hp' Hn'].
  pose proof (NilZero.isi _ Hp Hn) as Hi.
  pose proof (NilZero.isi _ Hp' Hn') as Hi'.
  rewrite H in Hi. rewrite Hi in Hi'. now injection Hi'.
Qed.

(** A text is cut in one way only at the first occurrence of [c]. *)
Lemma cut_at_char (c : ascii) (a a' b b' : string) :
  PyString.contains c a = false -> PyString.contains c a' = false ->
  a ++ String c b = a' ++ String c b' -> a = a' /\ b = b'.
Proof.
  revert a'. induction a as [| x a IH]; intros [| x' a'] Ha Ha' H;
    cbn [append PyString.contains] in *.
  - now injection H.
  - injection H as <- _. now rewrite Ascii.eqb_refl in Ha'.
  - injection H as -> _. now rewrite Ascii.eqb_refl in Ha.
  - injection H as -> H.
    apply orb_false_iff in Ha, Ha'.
    destruct (IH a' (proj2 Ha) (proj2 Ha') H) as [-> ->]. auto.
Qed.

Lemma upscaled_stem_inj (f ts f' ts' : Z) :
  upscaled_stem f ts = upscaled_stem f' ts' -> f = f' /\ ts = ts'.
Proof.
  unfold upscaled_stem. intros H.
  change ("upscaled_" ++ PyString.of_Z f ++ "x_" ++ PyString.of_Z ts)
    with ("upscaled_"
          ++ (PyString.of_Z f ++ String "x" ("_" ++ PyString.of_Z ts))) in H.
  change ("upscaled_" ++ PyString.of_Z f' ++ "x_" ++ PyString.of_Z ts')
    with ("upscaled_"
          ++ (PyString.of_Z f' ++ String "x" ("_" ++ PyString.of_Z ts')))
    in H.
  cbn [append] in H. injection H as H.
  apply cut_at_char in H; try (apply of_Z_chars; [reflexivity | discriminate]).
  destruct H as [Hf Hts]. injection Hts as Hts.
  split; now apply of_Z_inj.
Qed.

Lemma custom_stem_inj (w h ts w' h' ts' : Z) :
  custom_stem w h ts = custom_stem w' h' ts' ->
  w = w' /\ h = h' /\ ts = ts'.
Proof.
  unfold custom_stem. intros H.
  change ("upscaled_custom_" ++ PyString.of_Z w ++ "x" ++ PyString.of_Z h
          ++ "_" ++ PyString.of_Z ts)
    with ("upscaled_custom_"
          ++ (PyString.of_Z w
              ++ String "x" (PyString.of_Z h
                             ++ String "_" (PyString.of_Z ts)))) in H.
  change ("upscaled_custom_" ++ PyString.of_Z w' ++ "x" ++ PyString.of_Z h'
          ++ "_" ++ PyString.of_Z ts')
    with ("upscaled_custom_"
          ++ (PyString.of_Z w'
              ++ String "x" (PyString.of_Z h'
                             ++ String "_" (PyString.of_Z ts')))) in H.
  cbn [append] in H. injection H as H.
  apply cut_at_char in H; try (apply of_Z_chars; [reflexivity | discriminate]).
  destruct H as [Hw H].
  apply cut_at_char in H; try (apply of_Z_chars; [reflexivity | discriminate]).
  destruct H as [Hh Hts].
  repeat split; now apply of_Z_inj.
Qed.

(** ** The quotient of two sizes, rounded to binary64 *)

(** [digits2_pos p] is the number of bits of [p]. *)
Lemma digits2_bounds (p : positive) :
  2 ^ (Zpos (digits2_pos p) - 1) <= Zpos p < 2 ^ Zpos (digits2_pos p).
Proof.
  induction p as [p IH | p IH |]; cbn [digits2_pos].
  - rewrite Pos2Z.inj_succ.
    replace (Z.succ (Zpos (digits2_pos p)) - 1)
      with (Z.succ (Zpos (digits2_pos p) - 1)) by lia.
    rewrite !Z.pow_succ_r by lia. lia.
  - rewrite Pos2Z.inj_succ.
    replace (Z.succ (Zpos (digits2_pos p)) - 1)
      with (Z.succ (Zpos (digits2_pos p) - 1)) by lia.
    rewrite !Z.pow_succ_r by lia. lia.
  - cbn. lia.
Qed.

Lemma Zdigits2_unique (q k : Z) :
  0 < k -> 2 ^ (k - 1) <= q < 2 ^ k -> Zdigits2 q = k.
Proof.
  intros Hk [Hlo Hhi].
  assert (0 < q) by (pose proof (Z.pow_pos_nonneg 2 (k - 1)); lia).
  destruct q as [| p | p]; try lia.
  cbn [Zdigits2]. pose proof (digits2_bounds p) as [Hl Hh].
  set (D := Zpos (digits2_pos p)) in *.
  destruct (Z.lt_trichotomy D k) as [Hlt | [Heq | Hgt]]; [| exact Heq |].
  - assert (2 ^ D <= 2 ^ (k - 1)) by (apply Z.pow_le_mono_r; lia). lia.
  - assert (2 ^ k <= 2 ^ (D - 1)) by (apply Z.pow_le_mono_r; lia). lia.
Qed.

Lemma div_eucl_div_mod (a b : Z) : Z.div_eucl a b = (a / b, a mod b).
Proof. unfold Z.div, Z.modulo. now destruct (Z.div_eucl a b). Qed.

(** Where the remainder [r] stands between two steps of the quotient. *)
Lemma new_location_spec (d r : Z) :
  0 < d -> 0 <= r < d ->
  new_location d r = if r =? 0 then loc_Exact else loc_Inexact (2 * r ?= d).
Proof.
  intros Hd Hr. unfold new_location, new_location_even, new_location_odd.
  destruct (Z.even d) eqn:Hev; [reflexivity |].
  destruct (r =? 0); [reflexivity |]. f_equal.
  assert (Hodd : Z.odd d = true) by (rewrite <- Z.negb_even, Hev; reflexivity).
  apply Z.odd_spec in Hodd. destruct Hodd as [k Hk].
  destruct (Z.compare_spec (2 * r + 1) d), (Z.compare_spec (2 * r) d);
    try reflexivity; lia.
Qed.

Lemma shr_1_pos (q : Z) (rb sb : bool) :
  0 < q ->
  shr_1 (Build_shr_record q rb sb)
  = Build_shr_record (q / 2) (Z.odd q) (rb || sb).
Proof.
  intros Hq. destruct q as [| p | p]; try lia.
  destruct p as [p | p |]; cbn [shr_1].
  - f_equal. rewrite Pos2Z.inj_xI. 
    replace (2 * Zpos p + 1) with (1 + Zpos p * 2) by lia.
    rewrite Z.div_add by lia. reflexivity.
  - f_equal. rewrite Pos2Z.inj_xO. 
    replace (2 * Zpos p) with (Zpos p * 2) by lia.
    now rewrite Z.div_mul by lia.
  - reflexivity.
Qed.

Lemma round_nearest_even_cases (m : Z) (l : location) :
  round_nearest_even m l = m \/ round_nearest_even m l = m + 1.
Proof.
  unfold round_nearest_even. destruct l as [| []]; auto.
  destruct (Z.even m); auto.
Qed.

Lemma loc_record_loc (m : Z) (l : location) :
  shr_m (shr_record_of_loc m l) = m
  /\ loc_of_shr_record (shr_record_of_loc m l) = l.
Proof. destruct l as [| []]; split; reflexivity. Qed.

Lemma fexp_normal (x : Z) : -1021 <= x -> fexp 53 1024 x = x - 53.
Proof. unfold fexp, emin. lia. Qed.

(** The second step: a mantissa of 53 bits, or [2 ^ 53], is put in place. *)
Lemma shr_fexp_rounded (m1 e : Z) :
  2 ^ 52 <= m1 <= 2 ^ 53 -> -1074 <= e <= 970 ->
  match shr_m (fst (shr_fexp 53 1024 m1 e loc_Exact)) with
  | Z0 => S754_zero false
  | Zpos m =>
      if snd (shr_fexp 53 1024 m1 e loc_Exact) <=? 1024 - 53
      then S754_finite false m (snd (shr_fexp 53 1024 m1 e loc_Exact))
      else S754_infinity false
  | Zneg _ => S754_nan
  end
  = if m1 <? 2 ^ 53 then S754_finite false (Z.to_pos m1) e
    else S754_finite false (Z.to_pos (2 ^ 52)) (e + 1).
Proof.
  intros [Hlo Hhi] He. unfold shr_fexp.
  destruct (Z.ltb_spec m1 (2 ^ 53)) as [Hlt | Hge].
  - rewrite (Zdigits2_unique m1 53) by (change (53 - 1) with 52; lia).
    rewrite fexp_normal by lia.
    replace (53 + e - 53 - e) with 0 by lia.
    cbn [shr fst snd shr_record_of_loc shr_m].
    destruct m1 as [| p | p]; try lia.
    replace (e <=? 1024 - 53) with true by (symmetry; apply Z.leb_le; lia).
    reflexivity.
  - assert (m1 = 2 ^ 53) by lia. subst m1.
    rewrite (Zdigits2_unique (2 ^ 53) 54) by (change (54 - 1) with 53; lia).
    rewrite fexp_normal by lia.
    replace (54 + e - 53 - e) with 1 by lia.
    cbn [shr iter_pos fst snd shr_record_of_loc].
    rewrite shr_1_pos by lia. cbn [shr_m].
    change (2 ^ 53 / 2) with (2 ^ 52).
    replace (e + 1 <=? 1024 - 53) with true by (symmetry; apply Z.leb_le; lia).
    reflexivity.
Qed.

(** A quotient of 53 bits is rounded where it stands. *)
Lemma round_aux_53 (q e : Z) (l : location) :
  2 ^ 52 <= q < 2 ^ 53 -> -1074 <= e <= 970 ->
  binary_round_aux 53 1024 false q e l = round53 q l e.
Proof.
  intros Hq He. unfold binary_round_aux, round53.
  assert (Hs : shr_fexp 53 1024 q e l = (shr_record_of_loc q l, e)).
  { unfold shr_fexp.
    rewrite (Zdigits2_unique q 53) by (change (53 - 1) with 52; lia).
    rewrite fexp_normal by lia.
    replace (53 + e - 53 - e) with 0 by lia. reflexivity. }
  rewrite Hs. destruct (loc_record_loc q l) as [-> ->].
  pose proof (round_nearest_even_cases q l) as Hc.
  set (m1 := round_nearest_even q l) in *.
  pose proof (shr_fexp_rounded m1 e ltac:(lia) He) as Hr.
  destruct (shr_fexp 53 1024 m1 e loc_Exact) as [mrs e2].
  exact Hr.
Qed.

(** A quotient of 54 bits loses its last bit, then is rounded. *)
Lemma round_aux_54 (q e : Z) (l : location) :
  2 ^ 53 <= q < 2 ^ 54 -> -1075 <= e <= 969 ->
  binary_round_aux 53 1024 false q e l
  = round53 (q / 2)
      (loc_of_shr_record
         (shr_1 (shr_record_of_loc q l)))
      (e + 1).
Proof.
  intros Hq He. unfold binary_round_aux, round53.
  assert (Hs : shr_fexp 53 1024 q e l = (shr_1 (shr_record_of_loc q l), e + 1)).
  { unfold shr_fexp.
    rewrite (Zdigits2_unique q 54) by (change (54 - 1) with 53; lia).
    rewrite fexp_normal by lia.
    replace (54 + e - 53 - e) with 1 by lia. reflexivity. }
  rewrite Hs.
  assert (Hm : shr_m (shr_1 (shr_record_of_loc q l)) = q / 2).
  { destruct l as [| []]; cbn [shr_record_of_loc]; rewrite shr_1_pos by lia;
      reflexivity. }
  rewrite Hm.
  assert (Hq2 : 2 ^ 52 <= q / 2 < 2 ^ 53).
  { split.
    - apply Z.div_le_lower_bound; [lia |].
      change (2 * 2 ^ 52) with (2 ^ 53). lia.
    - apply Z.div_lt_upper_bound; [lia |].
      change (2 * 2 ^ 53) with (2 ^ 54). lia. }
  pose proof (round_nearest_even_cases (q / 2)
                (loc_of_shr_record (shr_1 (shr_record_of_loc q l)))) as Hc.
  set (m1 := round_nearest_even (q / 2) _) in *.
  pose proof (shr_fexp_rounded m1 (e + 1) ltac:(lia) ltac:(lia)) as Hr.
  destruct (shr_fexp 53 1024 m1 (e + 1) loc_Exact) as [mrs e2].
  exact Hr.
Qed.

Lemma leb_finite (m m' : positive) (e e' : Z) :
  SFleb (S754_finite false m e) (S754_finite false m' e')
  = match e ?= e' with
    | Lt => true
    | Gt => false
    | Eq => (Zpos m <=? Zpos m')
    end.
Proof.
  unfold SFleb, SFcompare. destruct (e ?= e'); reflexivity.
Qed.

(** A rounded value against a bound of the binade from 2 to 4. *)
Lemma leb_round53 (m e1 M : Z) (l : location) :
  2 ^ 52 <= m < 2 ^ 53 -> 2 ^ 52 <= M < 2 ^ 53 ->
  SFleb (round53 m l e1) (S754_finite false (Z.to_pos M) (-51))
  = if e1 <? -51 then true
    else if e1 =? -51 then round_nearest_even m l <=? M
    else false.
Proof.
  intros Hm HM. unfold round53.
  pose proof (round_nearest_even_cases m l) as Hc.
  set (m1 := round_nearest_even m l) in *.
  destruct (Z.ltb_spec m1 (2 ^ 53)) as [Hlt | Hge]; rewrite leb_finite.
  - rewrite !Z2Pos.id by lia.
    destruct (Z.ltb_spec e1 (-51)), (Z.eqb_spec e1 (-51)); try lia.
    + now replace (e1 ?= -51) with Lt
        by (symmetry; apply Z.compare_lt_iff; lia).
    + subst e1. reflexivity.
    + now replace (e1 ?= -51) with Gt
        by (symmetry; apply Z.compare_gt_iff; lia).
  - rewrite !Z2Pos.id by lia.
    destruct (Z.ltb_spec e1 (-51)), (Z.eqb_spec e1 (-51)); try lia.
    + destruct (Z.compare_spec (e1 + 1) (-51)); lia.
    + subst e1. cbn [Z.compare Z.add]. symmetry. apply Z.leb_gt. lia.
    + now replace (e1 + 1 ?= -51) with Gt
        by (symmetry; apply Z.compare_gt_iff; lia).
Qed.

(** A product with an odd number is a multiple of [2 ^ k] only when the
    other factor is. *)
Lemma odd_mul_pow2 (k : nat) :
  forall x d n, Z.odd x = true -> x * d = n * 2 ^ Z.of_nat k ->
                exists d', d = d' * 2 ^ Z.of_nat k.
Proof.
  induction k as [| k IH]; intros x d n Hx H.
  - exists d. cbn. lia.
  - rewrite Nat2Z.inj_succ, Z.pow_succ_r in H by lia.
    assert (Hd : Z.even d = true).
    { destruct (Z.even d) eqn:Hev; [reflexivity |].
      assert (Z.odd (x * d) = true)
        by (rewrite Z.odd_mul, Hx, <- Z.negb_even, Hev; reflexivity).
      rewrite H in H0. rewrite Z.odd_mul in H0.
      replace (2 * 2 ^ Z.of_nat k) with (2 * (2 ^ Z.of_nat k)) in H0 by lia.
      rewrite (Z.odd_mul 2) in H0. cbn in H0.
      now rewrite andb_false_r in H0. }
    apply Z.even_spec in Hd. destruct Hd as [d1 ->].
    destruct (IH x d1 n Hx) as [d' Hd']; [lia |].
    exists d'. rewrite Nat2Z.inj_succ, Z.pow_succ_r by lia. lia.
Qed.

(** The quotient has 53 bits: it is rounded where it stands. *)
Lemma round_at_threshold_53 (n d q r a : Z) :
  0 < d < 2 ^ 51 -> 0 <= r < d -> n * 2 ^ 51 = q * d + r ->
  (round_nearest_even q (loc_of_rem d r) <=? a * 2 ^ 50) = (2 * n <=? a * d).
Proof.
  intros Hd Hr Hq.
  set (M := a * 2 ^ 50).
  assert (HM : 2 * n <= a * d <-> q * d + r <= M * d)
    by (unfold M; lia).
  pose proof (round_nearest_even_cases q (loc_of_rem d r)) as Hc.
  destruct (Z.leb_spec (2 * n) (a * d)) as [Hle | Hgt].
  - apply Z.leb_le. apply HM in Hle.
    assert (q <= M) by nia.
    destruct (Z.eq_dec q M) as [-> | Hne]; [| lia].
    assert (r = 0) by lia. subst r. cbn. lia.
  - apply Z.leb_gt.
    assert (Hgt' : M * d < q * d + r) by lia.
    assert (M <= q) by nia.
    destruct (Z.eq_dec q M) as [-> | Hne]; [| lia].
    assert (Hr50 : 2 ^ 50 <= r) by (unfold M in Hq, Hgt'; lia).
    unfold loc_of_rem.
    destruct (Z.eqb_spec r 0); [lia |].
    replace (2 * r ?= d) with Gt
      by (symmetry; apply Z.compare_gt_iff; lia).
    cbn [round_nearest_even]. lia.
Qed.

(** The quotient has 54 bits: its last bit is shifted out before the
    rounding. *)
Lemma round_at_threshold_54 (n d q r a : Z) :
  0 < d < 2 ^ 51 -> 0 <= r < d -> 0 < q -> n * 2 ^ 52 = q * d + r ->
  (round_nearest_even (q / 2)
     (loc_of_shr_record (shr_1 (shr_record_of_loc q (loc_of_rem d r))))
   <=? a * 2 ^ 50)
  = (2 * n <=? a * d).
Proof.
  intros Hd Hr Hq0 Hq.
  set (M := a * 2 ^ 50).
  assert (HM : 2 * n <= a * d <-> q * d + r <= 2 * M * d)
    by (unfold M; lia).
  assert (Hl : loc_of_shr_record
                 (shr_1 (shr_record_of_loc q (loc_of_rem d r)))
               = loc_of_shr_record
                   (Build_shr_record (q / 2) (Z.odd q) (negb (r =? 0)))).
  { unfold loc_of_rem. destruct (r =? 0); [| destruct (2 * r ?= d)];
      cbn [shr_record_of_loc]; rewrite shr_1_pos by lia; reflexivity. }
  rewrite Hl. clear Hl.
  pose proof (Z.div_mod q 2 ltac:(lia)) as Hdm.
  pose proof (Z.mod_pos_bound q 2 ltac:(lia)) as Hmod.
  assert (Hodd : Z.odd q = (q mod 2 =? 1)).
  { rewrite Zmod_odd. now destruct (Z.odd q). }
  set (m := q / 2) in *.
  destruct (Z.leb_spec (2 * n) (a * d)) as [Hle | Hgt].
  - apply Z.leb_le. apply HM in Hle.
    assert (q <= 2 * M) by nia.
    pose proof (round_nearest_even_cases m
                  (loc_of_shr_record
                     (Build_shr_record m (Z.odd q) (negb (r =? 0))))) as Hc.
    destruct (Z.eq_dec q (2 * M)) as [Heq | Hne]; [| lia].
    assert (r = 0) by nia. subst r.
    assert (q mod 2 = 0) by lia.
    rewrite Hodd. replace (q mod 2 =? 1) with false
      by (symmetry; apply Z.eqb_neq; lia).
    cbn. lia.
  - apply Z.leb_gt.
    assert (Hgt' : 2 * M * d < q * d + r) by lia.
    assert (2 * M <= q) by nia.
    pose proof (round_nearest_even_cases m
                  (loc_of_shr_record
                     (Build_shr_record m (Z.odd q) (negb (r =? 0))))) as Hc.
    destruct (Z.eq_dec q (2 * M)) as [Heq | Hne].
    { assert (2 ^ 51 <= r) by (unfold M in *; nia). lia. }
    destruct (Z.eq_dec q (2 * M + 1)) as [Heq1 | Hne1]; [| lia].
    assert (q mod 2 = 1) by lia.
    assert (m = M) by lia.
    rewrite Hodd. replace (q mod 2 =? 1) with true
      by (symmetry; apply Z.eqb_eq; lia).
    destruct (Z.eqb_spec r 0) as [-> | Hr0].
    + exfalso.
      destruct (odd_mul_pow2 52 q d n) as [d' Hd'].
      * rewrite Hodd. apply Z.eqb_eq. lia.
      * change (Z.of_nat 52) with 52. lia.
      * change (Z.of_nat 52) with 52 in Hd'.
        assert (0 < d') by nia. nia.
    + cbn [negb loc_of_shr_record round_nearest_even]. lia.
Qed.

Lemma pow2_le (a b : Z) : 0 <= a <= b -> 2 ^ a <= 2 ^ b.
Proof. intros. apply Z.pow_le_mono_r; lia. Qed.

(** The quotient, the remainder and the exponent that [of_ratio] hands
    to the rounding, for a numerator below [2 ^ 53] and a denominator
    below [2 ^ 51]. *)
Lemma of_ratio_spec (n d : positive) :
  Zpos n < 2 ^ 53 -> Zpos d < 2 ^ 51 ->
  let delta := Zpos (digits2_pos n) - Zpos (digits2_pos d) in
  let s := 53 - delta in
  let q := Zpos n * 2 ^ s / Zpos d in
  let r := (Zpos n * 2 ^ s) mod Zpos d in
  0 < s /\ 2 ^ 52 <= q < 2 ^ 54
  /\ Zpos n * 2 ^ s = q * Zpos d + r /\ 0 <= r < Zpos d
  /\ PyFloat.of_ratio false n d
     = binary_round_aux 53 1024 false q (delta - 53)
         (loc_of_rem (Zpos d) r).
Proof.
  intros Hn Hd delta s q r.
  pose proof (digits2_bounds n) as [Hn1 Hn2].
  pose proof (digits2_bounds d) as [Hd1 Hd2].
  set (D1 := Zpos (digits2_pos n)) in *.
  set (D2 := Zpos (digits2_pos d)) in *.
  assert (HD1 : 1 <= D1 <= 53).
  { split; [unfold D1; lia |].
    destruct (Z.le_gt_cases D1 53) as [H | H]; [exact H |].
    pose proof (pow2_le 53 (D1 - 1) ltac:(lia)). lia. }
  assert (HD2 : 1 <= D2 <= 51).
  { split; [unfold D2; lia |].
    destruct (Z.le_gt_cases D2 51) as [H | H]; [exact H |].
    pose proof (pow2_le 51 (D2 - 1) ltac:(lia)). lia. }
  assert (Hs : 0 < s) by (unfold s, delta; lia).
  assert (Hdm : Zpos n * 2 ^ s = q * Zpos d + r).
  { unfold q, r.
    rewrite (Z.mul_comm (Zpos n * 2 ^ s / Zpos d)). apply Z.div_mod. lia. }
  assert (Hr : 0 <= r < Zpos d) by (unfold r; apply Z.mod_pos_bound; lia).
  assert (Hq : 2 ^ 52 <= q < 2 ^ 54).
  { assert (Hp1 : 2 ^ (D1 - 1) * 2 ^ s = 2 ^ 52 * 2 ^ D2).
    { rewrite <- !Z.pow_add_r by lia. f_equal. unfold s, delta. lia. }
    assert (Hp2 : 2 ^ D1 * 2 ^ s = 2 ^ 54 * 2 ^ (D2 - 1)).
    { rewrite <- !Z.pow_add_r by lia. f_equal. unfold s, delta. lia. }
    assert (0 < 2 ^ s) by (apply Z.pow_pos_nonneg; lia).
    assert (0 < 2 ^ D2) by (apply Z.pow_pos_nonneg; lia).
    assert (0 < 2 ^ (D2 - 1)) by (apply Z.pow_pos_nonneg; lia).
    split.
    - apply Z.div_le_lower_bound; [lia |]. nia.
    - apply Z.div_lt_upper_bound; [lia |]. nia. }
  repeat (split; [assumption || lia |]).
  unfold PyFloat.of_ratio, SFdiv_core_binary, PyFloat.prec, PyFloat.emax.
  cbn [Zdigits2]. fold D1 D2.
  replace (Z.min (fexp 53 1024 (D1 + 0 - (D2 + 0))) (0 - 0)) with (delta - 53)
    by (unfold fexp, emin, delta; lia).
  replace (0 - 0 - (delta - 53)) with s by (unfold s; lia).
  destruct s as [| ps | ps] eqn:Hps; try lia.
  rewrite Z.shiftl_mul_pow2 by lia.
  rewrite div_eucl_div_mod. fold q r.
  rewrite new_location_spec by lia. reflexivity.
Qed.

(** The rounded quotient [n / d] is at most [a / 2], for [a] from 4 to
    7, exactly when [2 * n <= a * d]. *)
Lemma of_ratio_leb (n d : positive) (a : Z) :
  Zpos n < 2 ^ 53 -> Zpos d < 2 ^ 51 -> 4 <= a < 8 ->
  (exists m e, PyFloat.of_ratio false n d = S754_finite false m e)
  /\ PyFloat.leb (PyFloat.of_ratio false n d)
       (S754_finite false (Z.to_pos (a * 2 ^ 50)) (-51))
     = (2 * Zpos n <=? a * Zpos d).
Proof.
  intros Hn Hd Ha.
  destruct (of_ratio_spec n d Hn Hd) as [Hs [Hq [Hdm [Hr Heq]]]].
  pose proof (digits2_bounds n) as [Hn1 Hn2].
  pose proof (digits2_bounds d) as [Hd1 Hd2].
  set (D1 := Zpos (digits2_pos n)) in *.
  set (D2 := Zpos (digits2_pos d)) in *.
  set (delta := D1 - D2) in *.
  set (s := 53 - delta) in *.
  set (q := Zpos n * 2 ^ s / Zpos d) in *.
  set (r := (Zpos n * 2 ^ s) mod Zpos d) in *.
  assert (HD1 : 1 <= D1 <= 53).
  { split; [unfold D1; lia |].
    destruct (Z.le_gt_cases D1 53) as [H | H]; [exact H |].
    pose proof (pow2_le 53 (D1 - 1) ltac:(lia)). lia. }
  assert (HD2 : 1 <= D2 <= 51).
  { split; [unfold D2; lia |].
    destruct (Z.le_gt_cases D2 51) as [H | H]; [exact H |].
    pose proof (pow2_le 51 (D2 - 1) ltac:(lia)). lia. }
  assert (HM : 2 ^ 52 <= a * 2 ^ 50 < 2 ^ 53) by lia.
  assert (Hpos : 0 < 2 ^ s) by (apply Z.pow_pos_nonneg; lia).
  unfold PyFloat.leb. rewrite Heq.
  destruct (Z.lt_ge_cases q (2 ^ 53)) as [Hq53 | Hq54].
  - (* 53 bits *)
    rewrite round_aux_53 by (unfold delta; lia).
    split.
    { unfold round53. destruct (_ <? _); eauto. }
    rewrite leb_round53 by lia.
    destruct (Z.ltb_spec (delta - 53) (-51)) as [He | He].
    + (* below the binade of the threshold *)
      symmetry. apply Z.leb_le.
      assert (2 ^ 52 <= 2 ^ s) by (apply pow2_le; unfold s; lia).
      nia.
    + destruct (Z.eqb_spec (delta - 53) (-51)) as [He1 | He1].
      * assert (s = 51) by (unfold s; lia).
        apply round_at_threshold_53; try lia.
        replace (2 ^ 51) with (2 ^ s) by (f_equal; lia). exact Hdm.
      * symmetry. apply Z.leb_gt.
        assert (2 ^ s <= 2 ^ 50) by (apply pow2_le; unfold s; lia).
        nia.
  - (* 54 bits *)
    rewrite round_aux_54 by (unfold delta; lia).
    split.
    { unfold round53. destruct (_ <? _); eauto. }
    assert (Hq2 : 2 ^ 52 <= q / 2 < 2 ^ 53).
    { split.
      - apply Z.div_le_lower_bound; [lia |].
        change (2 * 2 ^ 52) with (2 ^ 53). lia.
      - apply Z.div_lt_upper_bound; [lia |].
        change (2 * 2 ^ 53) with (2 ^ 54). lia. }
    rewrite leb_round53 by lia.
    destruct (Z.ltb_spec (delta - 53 + 1) (-51)) as [He | He].
    + symmetry. apply Z.leb_le.
      assert (2 ^ 53 <= 2 ^ s) by (apply pow2_le; unfold s; lia).
      nia.
    + destruct (Z.eqb_spec (delta - 53 + 1) (-51)) as [He1 | He1].
      * assert (s = 52) by (unfold s; lia).
        apply round_at_threshold_54; try lia.
        replace (2 ^ 52) with (2 ^ s) by (f_equal; lia). exact Hdm.
      * symmetry. apply Z.leb_gt.
        assert (2 ^ s <= 2 ^ 51) by (apply pow2_le; unfold s; lia).
        nia.
Qed.

Lemma ltb_finite (m m' : positive) (e e' : Z) :
  SFltb (S754_finite false m e) (S754_finite false m' e')
  = match e ?= e' with
    | Lt => true
    | Gt => false
    | Eq => (Zpos m <? Zpos m')
    end.
Proof. unfold SFltb, SFcompare. destruct (e ?= e'); reflexivity. Qed.

(** The larger of two positive floats is below a bound when both are. *)
Lemma leb_max_finite (m1 m2 mc : positive) (e1 e2 ec : Z) :
  PyFloat.leb
    (PyFloat.max (S754_finite false m1 e1) (S754_finite false m2 e2))
    (S754_finite false mc ec)
  = PyFloat.leb (S754_finite false m1 e1) (S754_finite false mc ec)
    && PyFloat.leb (S754_finite false m2 e2) (S754_finite false mc ec).
Proof.
  unfold PyFloat.max, PyFloat.ltb, PyFloat.leb.
  rewrite ltb_finite.
  destruct (Z.compare_spec e1 e2) as [He | He | He];
    [destruct (Z.ltb_spec (Zpos m1) (Zpos m2)) | |];
    rewrite !leb_finite;
    destruct (Z.compare_spec e1 ec), (Z.compare_spec e2 ec);
    try lia; try reflexivity;
    try (destruct (Z.leb_spec (Zpos m1) (Zpos mc)),
           (Z.leb_spec (Zpos m2) (Zpos mc)); try reflexivity; lia);
    try (destruct (Z.leb_spec (Zpos m1) (Zpos mc)); try reflexivity; lia);
    try (destruct (Z.leb_spec (Zpos m2) (Zpos mc)); try reflexivity; lia).
Qed.

Lemma truediv_bounded (a b : Z) :
  0 < a < 2 ^ 53 -> 0 < b < 2 ^ 51 ->
  exists m e,
    PyFloat.truediv a b = inr (S754_finite false m e)
    /\ forall k, 4 <= k < 8 ->
         PyFloat.leb (S754_finite false m e)
           (S754_finite false (Z.to_pos (k * 2 ^ 50)) (-51))
         = (2 * a <=? k * b).
Proof.
  intros Ha Hb. destruct a as [| n | n]; try lia.
  destruct b as [| d | d]; try lia.
  destruct (of_ratio_leb n d 4 ltac:(lia) ltac:(lia) ltac:(lia))
    as [[m [e Hme]] _].
  exists m, e. split.
  - unfold PyFloat.truediv. cbn [Z.ltb Z.compare xorb]. now rewrite Hme.
  - intros k Hk. rewrite <- Hme.
    apply (of_ratio_leb n d k); lia.
Qed.

(** For sizes below [2 ^ 51] the factor is read off the sizes: 2 when
    neither target exceeds 2.5 times its original, 3 when neither exceeds
    3.5 times, and 4 otherwise. *)
Lemma factor_by_sizes (fw fh ow oh : Z) :
  0 < fw < 2 ^ 53 -> 0 < fh < 2 ^ 53 ->
  0 < ow < 2 ^ 51 -> 0 < oh < 2 ^ 51 ->
  exists es,
    effective_scale_of fw fh ow oh = inr es
    /\ nearest_factor es
       = if (2 * fw <=? 5 * ow) && (2 * fh <=? 5 * oh) then 2
         else if (2 * fw <=? 7 * ow) && (2 * fh <=? 7 * oh) then 3
         else 4.
Proof.
  intros Hfw Hfh How Hoh.
  destruct (truediv_bounded fw ow Hfw How) as [mx [ex [Hx Hxk]]].
  destruct (truediv_bounded fh oh Hfh Hoh) as [my [ey [Hy Hyk]]].
  unfold effective_scale_of. rewrite Hx, Hy. cbn [bind_res].
  eexists. split; [reflexivity |].
  unfold nearest_factor.
  rewrite (proj1 lit_2_5_value), (proj1 lit_3_5_value).
  change 5629499534213120%positive with (Z.to_pos (5 * 2 ^ 50)).
  change 7881299347898368%positive with (Z.to_pos (7 * 2 ^ 50)).
  rewrite !leb_max_finite.
  rewrite (Hxk 5), (Hyk 5), (Hxk 7), (Hyk 7) by lia.
  reflexivity.
Qed.

(** ** Steps of a call *)

(** The five ways a call of [upscale_image] can go: the import, the
    opening, the upscaler object or the upscaling fails, or none. *)
Lemma upscale_image_cases (E : env) (image_path : string)
    (upscale_factor : Z) (t : trace) :
  let t1 := (t ++ [ImageOpen image_path])%list in
  match import_upscaler E t with
  | Some e =>
      upscale_image E image_path upscale_factor t
      = ((t ++ upscale_image_report e)%list, inr None)
  | None =>
      match bind_res (image_open E t1 image_path) (convert_rgb E t1) with
      | inl e =>
          upscale_image E image_path upscale_factor t
          = ((t1 ++ upscale_image_report e)%list, inr None)
      | inr image =>
          match new_upscaler E t1 with
          | Some e =>
              upscale_image E image_path upscale_factor t
              = ((t1 ++ upscale_image_report e)%list, inr None)
          | None =>
              let t2 := (t1 ++ [Upscale image upscale_factor])%list in
              match upscaler_upscale E t2 image upscale_factor with
              | inl e =>
                  upscale_image E image_path upscale_factor t
                  = ((t2 ++ upscale_image_report e)%list, inr None)
              | inr upscaled =>
                  upscale_image E image_path upscale_factor t
                  = (t2, inr (Some upscaled))
              end
          end
      end
  end.
Proof.
  intros t1. subst t1.
  unfold upscale_image, try_except, bind, ask_ok, emit, ask, ret,
    upscale_image_report.
  destruct (import_upscaler E t) as [e |];
    [now rewrite <- !app_assoc |].
  destruct (image_open E (t ++ [ImageOpen image_path])%list image_path)
    as [e | opened]; cbn [bind_res]; [now rewrite <- !app_assoc |].
  destruct (convert_rgb E (t ++ [ImageOpen image_path])%list opened)
    as [e | image]; [now rewrite <- !app_assoc |].
  destruct (new_upscaler E (t ++ [ImageOpen image_path])%list) as [e |];
    [now rewrite <- !app_assoc |].
  destruct (upscaler_upscale E _ image upscale_factor) as [e | upscaled];
    [now rewrite <- !app_assoc | reflexivity].
Qed.

Lemma upscale_image_outcome (E : env) (image_path : string)
    (upscale_factor : Z) (t : trace) :
  exists t' r,
    upscale_image E image_path upscale_factor t = (t', inr r)
    /\ match r with
       | Some upscaled =>
           exists image,
             t' = (t ++ [ImageOpen image_path;
                         Upscale image upscale_factor])%list
             /\ upscaler_upscale E t' image upscale_factor = inr upscaled
       | None =>
           exists e d,
             t' = (t ++ d ++ upscale_image_report e)%list
             /\ (d = [] \/ d = [ImageOpen image_path]
                 \/ exists image,
                      d = [ImageOpen image_path; Upscale image upscale_factor]
                      /\ upscaler_upscale E (t ++ d)%list image upscale_factor
                         = inl e)
       end.
Proof.
  pose proof (upscale_image_cases E image_path upscale_factor t) as H.
  cbv zeta in H.
  destruct (import_upscaler E t) as [e |].
  { eexists _, None. split; [exact H |]. exists e, []. auto. }
  destruct (bind_res _ _) as [e | image].
  { eexists _, None. split; [exact H |]. exists e, [ImageOpen image_path].
    rewrite <- app_assoc. auto. }
  destruct (new_upscaler E _) as [e |].
  { eexists _, None. split; [exact H |]. exists e, [ImageOpen image_path].
    rewrite <- app_assoc. auto. }
  destruct (upscaler_upscale E _ image upscale_factor) as [e | upscaled] eqn:Hup.
  - eexists _, None. split; [exact H |].
    exists e, [ImageOpen image_path; Upscale image upscale_factor].
    rewrite <- !app_assoc in *. cbn [app] in *. split; [reflexivity |].
    right; right. exists image. auto.
  - eexists _, (Some upscaled). split; [exact H |]. exists image.
    rewrite <- !app_assoc in *. cbn [app] in *. auto.
Qed.

(** A first step that returns can be taken out of the [try] blocks. *)
Lemma guarded_step {A B} (m : M A) (k : A -> M B) (h : exn -> M B)
    (fin : M unit) t t1 a :
  runs m t t1 a ->
  try_finally (try_except (bind m k) h) fin t
  = try_finally (try_except (k a) h) fin t1.
Proof.
  unfold runs, try_finally, try_except, bind. intros ->. reflexivity.
Qed.

(** A first step that raises goes to the handler. *)
Lemma guarded_raise {A B} (m : M A) (k : A -> M B) (h : exn -> M B)
    (fin : M unit) t t1 e :
  m t = (t1, inl e) ->
  try_finally (try_except (bind m k) h) fin t
  = try_finally (h e) fin t1.
Proof.
  unfold try_finally, try_except, bind. intros ->. reflexivity.
Qed.

Lemma runs_emit (ev : event) t : runs (emit ev) t (t ++ [ev])%list tt.
Proof. reflexivity. Qed.

Lemma runs_open_image (E : env) (p : string) t (img : image) :
  image_open E (t ++ [ImageOpen p])%list p = inr img ->
  runs (open_image E p) t (t ++ [ImageOpen p])%list img.
Proof. intros H. unfold runs, open_image, bind, emit, ask. now rewrite H. Qed.

Lemma runs_unix_time (E : env) t (ts : Z) :
  PyFloat.to_int (time_time E t) = inr ts -> runs (unix_time E) t t ts.
Proof. intros H. unfold runs, unix_time, bind, ask_val, lift. now rewrite H. Qed.

Lemma runs_save_image (E : env) (img : image) (path : string)
    (kw : save_kwargs) t :
  image_save E (t ++ [Save img path kw])%list img path kw = None ->
  runs (save_image E img path kw) t (t ++ [Save img path kw])%list tt.
Proof.
  intros H. unfold runs, save_image, bind, emit, ask_ok. now rewrite H.
Qed.

Lemma runs_lift {A} (r : res A) (a : A) t : r = inr a -> runs (lift r) t t a.
Proof. intros ->. reflexivity. Qed.

Lemma guarded_ret {A} (a : A) (h : exn -> M A) t :
  try_finally (try_except (ret a) h) cleanup t
  = ((t ++ [GcCollect; ForceMlxCleanup])%list, inr a).
Proof. rewrite try_finally_cleanup. reflexivity. Qed.

Lemma app_two {A} (l : list A) (x y : A) :
  (l ++ [x; y])%list = ((l ++ [x]) ++ [y])%list.
Proof. now rewrite <- app_assoc. Qed.

Lemma bind_step {A B} (m : M A) (k : A -> M B) t t1 a :
  runs m t t1 a -> bind m k t = k a t1.
Proof. unfold runs, bind. intros ->. reflexivity. Qed.

Lemma bind_raise {A B} (m : M A) (k : A -> M B) t t1 e :
  m t = (t1, inl e) -> bind m k t = (t1, inl e).
Proof. unfold bind. intros ->. reflexivity. Qed.

(** The handlers of the two entry points, with their [finally]. *)
Lemma handler_run {A} (s : string) (a : A) t :
  try_finally (emit (Print s) ;;; emit PrintExc ;;; ret a) cleanup t
  = ((t ++ [Print s; PrintExc; GcCollect; ForceMlxCleanup])%list, inr a).
Proof.
  rewrite try_finally_cleanup. unfold bind, emit, ret. cbn [fst snd].
  now rewrite <- !app_assoc.
Qed.

Lemma raises_open_image (E : env) (p : string) t (e : exn) :
  image_open E (t ++ [ImageOpen p])%list p = inl e ->
  open_image E p t = ((t ++ [ImageOpen p])%list, inl e).
Proof. intros H. unfold open_image, bind, emit, ask. now rewrite H. Qed.

Lemma raises_dump_json (E : env) (path : string) (d : list (string * pyval))
    t (e : exn) :
  json_dump E (t ++ [JsonDump path d])%list path d = Some e ->
  dump_json E path d t = ((t ++ [JsonDump path d])%list, inl e).
Proof. intros H. unfold dump_json, bind, emit, ask_ok. now rewrite H. Qed.

Lemma runs_emits {A} (P : event -> Prop) (m : M A) t t' a :
  emits P m -> runs m t t' a ->
  exists d, t' = (t ++ d)%list /\ Forall P d.
Proof.
  intros Hm H. destruct (Hm t) as [d [Hd HP]].
  unfold runs in H. rewrite H in Hd. now exists d.
Qed.

(** Whatever follows a first step inside the [try] blocks, the events of
    that step stay in the trace. *)
Lemma guarded_extends {A B} (m : M A) (k : A -> M B) (h : exn -> M B) :
  (forall a, emits (fun _ => True) (k a)) ->
  (forall e, emits (fun _ => True) (h e)) ->
  forall t, exists d,
    fst (try_finally (try_except (bind m k) h) cleanup t)
    = (fst (m t) ++ d)%list.
Proof.
  intros Hk Hh t. rewrite try_finally_cleanup. cbn [fst].
  unfold try_except, bind. destruct (m t) as [t1 [e | a]]; cbn [fst].
  - destruct (Hh e t1) as [d [Hd _]]. rewrite Hd.
    exists (d ++ [GcCollect; ForceMlxCleanup])%list. now rewrite <- app_assoc.
  - destruct (Hk a t1) as [d [Hd _]].
    destruct (k a t1) as [t2 [e | b]]; cbn [fst] in Hd; subst t2.
    + destruct (Hh e (t1 ++ d)%list) as [d' [Hd' _]]. rewrite Hd'.
      exists ((d ++ d') ++ [GcCollect; ForceMlxCleanup])%list.
      now rewrite <- !app_assoc.
    + cbn [fst]. exists (d ++ [GcCollect; ForceMlxCleanup])%list.
      now rewrite <- app_assoc.
Qed.

(** When the import, the opening and the upscaler object succeed,
    [upscale_image] reaches the upscaler with the factor it was
    given. *)
Lemma upscale_image_reaches (E : env) (p : string) (f : Z) (t : trace)
    (opened image : image) :
  import_upscaler E t = None ->
  image_open E (t ++ [ImageOpen p])%list p = inr opened ->
  convert_rgb E (t ++ [ImageOpen p])%list opened = inr image ->
  new_upscaler E (t ++ [ImageOpen p])%list = None ->
  exists d,
    fst (upscale_image E p f t)
    = (t ++ [ImageOpen p; Upscale image f] ++ d)%list.
Proof.
  intros Himport Hopen Hconv Hnew.
  pose proof (upscale_image_cases E p f t) as H. cbv zeta in H.
  rewrite Himport, Hopen in H. cbn [bind_res] in H.
  rewrite Hconv, Hnew in H.
  destruct (upscaler_upscale E _ image f) as [e | upscaled]; rewrite H;
    cbn [fst]; repeat (rewrite <- app_assoc; cbn [app]); eexists;
    reflexivity.
Qed.

Ltac resize_cases :=
  split; [| split; [| split]]; intros; first [reflexivity | lia].

(** A resize to a size with a side below one pixel fails: with PIL's
    own error when the two sides are C integers, with the error of the
    conversion of the first side that is none otherwise. *)
Lemma image_resize_small (sample : image -> Z -> Z -> res (list Z))
    (img : image) (w h : Z) :
  w < 1 \/ h < 1 ->
  exists e,
    image_resize sample img w h = inl e
    /\ (- 2 ^ 31 <= w <= 2 ^ 31 - 1 -> - 2 ^ 31 <= h <= 2 ^ 31 - 1 ->
        e = Exn ValueError "height and width must be > 0")
    /\ (- 2 ^ 63 <= w < - 2 ^ 31
        \/ (- 2 ^ 31 <= w <= 2 ^ 31 - 1 /\ - 2 ^ 63 <= h < - 2 ^ 31) ->
        e = Exn OverflowError "signed integer is less than minimum")
    /\ (2 ^ 31 - 1 < w <= 2 ^ 63 - 1
        \/ (- 2 ^ 31 <= w <= 2 ^ 31 - 1 /\ 2 ^ 31 - 1 < h <= 2 ^ 63 - 1) ->
        e = Exn OverflowError "signed integer is greater than maximum")
    /\ ((w < - 2 ^ 63 \/ 2 ^ 63 - 1 < w)
        \/ (- 2 ^ 31 <= w <= 2 ^ 31 - 1
            /\ (h < - 2 ^ 63 \/ 2 ^ 63 - 1 < h)) ->
        e = Exn OverflowError "Python int too large to convert to C long").
Proof.
  intros Hsmall. unfold image_resize, c_int.
  destruct (Z.ltb_spec w (- 2 ^ 63)); cbn [orb bind_res];
    [eexists; split; [reflexivity |]; resize_cases |].
  destruct (Z.ltb_spec (2 ^ 63 - 1) w); cbn [orb bind_res];
    [eexists; split; [reflexivity |]; resize_cases |].
  destruct (Z.ltb_spec w (- 2 ^ 31)); cbn [bind_res];
    [eexists; split; [reflexivity |]; resize_cases |].
  destruct (Z.ltb_spec (2 ^ 31 - 1) w); cbn [bind_res];
    [eexists; split; [reflexivity |]; resize_cases |].
  destruct (Z.ltb_spec h (- 2 ^ 63)); cbn [orb bind_res];
    [eexists; split; [reflexivity |]; resize_cases |].
  destruct (Z.ltb_spec (2 ^ 63 - 1) h); cbn [orb bind_res];
    [eexists; split; [reflexivity |]; resize_cases |].
  destruct (Z.ltb_spec h (- 2 ^ 31)); cbn [bind_res];
    [eexists; split; [reflexivity |]; resize_cases |].
  destruct (Z.ltb_spec (2 ^ 31 - 1) h); cbn [bind_res];
    [eexists; split; [reflexivity |]; resize_cases |].
  assert (Hlt : (w <? 1) || (h <? 1) = true)
    by (apply orb_true_iff; rewrite !Z.ltb_lt; exact Hsmall).
  rewrite Hlt. eexists. split; [reflexivity |]. resize_cases.
Qed.

Section CustomSteps.

Variable E : env.
Variable parse_scale_factor : pyval -> Z -> res Z.

(** A call for custom dimensions whose sizes resolve hands the factor
    chosen for the effective scale to [upscale_image], and keeps the
    events of that call. *)
Lemma custom_reaches_upscaler (p : string) (target_width target_height : pyval)
    (output_format : string) (metadata : bool) (t : trace) (orig : image)
    (fw fh : Z) (es : spec_float) :
  PyString.truthy p = true ->
  image_open E (t ++ [ImageOpen p])%list p = inr orig ->
  parse_scale_factor target_width (width orig) = inr fw ->
  parse_scale_factor target_height (height orig) = inr fh ->
  effective_scale_of fw fh (width orig) (height orig) = inr es ->
  exists d,
    fst (upscale_with_custom_dimensions_gradio E parse_scale_factor (Some p)
           target_width target_height output_format metadata t)
    = (fst (upscale_image E p (nearest_factor es)
              (t ++ [ImageOpen p;
                     Print ("Upscaling image with factor "
                            ++ PyString.of_Z (nearest_factor es)
                            ++ "x to target "
                            ++ PyString.of_Z fw ++ "x"
                            ++ PyString.of_Z fh)])%list)
       ++ d)%list.
Proof.
  intros Hp Hopen Hfw Hfh Hes.
  unfold upscale_with_custom_dimensions_gradio,
    upscale_with_custom_dimensions_gradio_body.
  rewrite (given_Some p Hp).
  rewrite (guarded_step _ _ _ _ _ _ _ (runs_open_image E p t orig Hopen)).
  cbv zeta.
  rewrite (guarded_step _ _ _ _ _ _ _ (runs_lift _ fw _ Hfw)).
  rewrite (guarded_step _ _ _ _ _ _ _ (runs_lift _ fh _ Hfh)).
  rewrite (guarded_step _ _ _ _ _ _ _ (runs_lift _ es _ Hes)).
  rewrite (guarded_step _ _ _ _ _ _ _ (runs_emit _ _)).
  rewrite <- app_assoc. cbn [app].
  apply guarded_extends.
  - intros upscaled. unfold fit_to_target, unix_time, save_image, dump_json.
    emits_auto; exact I.
  - intros e. emits_auto; exact I.
Qed.

(** A call for custom dimensions whose effective scale can not be
    computed ends in the handler, before any factor is chosen. *)
Lemma custom_without_scale (p : string) (target_width target_height : pyval)
    (output_format : string) (metadata : bool) (t : trace) (orig : image)
    (fw fh : Z) (e : exn) :
  PyString.truthy p = true ->
  image_open E (t ++ [ImageOpen p])%list p = inr orig ->
  parse_scale_factor target_width (width orig) = inr fw ->
  parse_scale_factor target_height (height orig) = inr fh ->
  effective_scale_of fw fh (width orig) (height orig) = inl e ->
  upscale_with_custom_dimensions_gradio E parse_scale_factor (Some p)
    target_width target_height output_format metadata t
  = ((t ++ [ImageOpen p;
            Print ("Error in custom upscaling: " ++ exn_str e);
            PrintExc; GcCollect; ForceMlxCleanup])%list,
     inr (None, "Error: " ++ exn_str e)).
Proof.
  intros Hp Hopen Hfw Hfh Hes.
  unfold upscale_with_custom_dimensions_gradio,
    upscale_with_custom_dimensions_gradio_body.
  rewrite (given_Some p Hp).
  rewrite (guarded_step _ _ _ _ _ _ _ (runs_open_image E p t orig Hopen)).
  cbv zeta.
  rewrite (guarded_step _ _ _ _ _ _ _ (runs_lift _ fw _ Hfw)).
  rewrite (guarded_step _ _ _ _ _ _ _ (runs_lift _ fh _ Hfh)).
  rewrite Hes.
  rewrite (guarded_raise _ _ _ _ _ _ e (eq_refl : lift (inl e) _ = _)).
  rewrite handler_run. now rewrite <- app_assoc.
Qed.

(** What a call for custom dimensions that returns an image has gone
    through. *)
Lemma custom_success input_image target_width target_height output_format
    metadata t t' img message :
  runs
    (upscale_with_custom_dimensions_gradio E parse_scale_factor input_image
       target_width target_height output_format metadata)
    t t' (Some img, message) ->
  exists p orig fw fh es opened image upscaled rest,
    let factor := nearest_factor es in
    let start :=
      [ImageOpen p;
       Print ("Upscaling image with factor " ++ PyString.of_Z factor
              ++ "x to target " ++ PyString.of_Z fw ++ "x"
              ++ PyString.of_Z fh);
       ImageOpen p] in
    given input_image = Some p
    /\ image_open E (t ++ [ImageOpen p])%list p = inr orig
    /\ parse_scale_factor target_width (width orig) = inr fw
    /\ parse_scale_factor target_height (height orig) = inr fh
    /\ effective_scale_of fw fh (width orig) (height orig) = inr es
    /\ image_open E (t ++ start)%list p = inr opened
    /\ convert_rgb E (t ++ start)%list opened = inr image
    /\ upscaler_upscale E (t ++ start ++ [Upscale image factor])%list image
         factor = inr upscaled
    /\ width img = fw /\ height img = fh
    /\ ((width upscaled = fw /\ height upscaled = fh /\ img = upscaled
         /\ t' = (t ++ start ++ [Upscale image factor] ++ rest)%list)
        \/ ((width upscaled <> fw \/ height upscaled <> fh)
            /\ (exists data,
                   resample E upscaled fw fh = inr data
                   /\ img = Image fw fh data)
            /\ t' = (t ++ start
                     ++ [Upscale image factor; Resize upscaled fw fh]
                     ++ rest)%list))
    /\ Forall (fun ev => is_upscale ev = false /\ is_resize ev = false) rest.
Proof.
  intros H. unfold upscale_with_custom_dimensions_gradio in H.
  apply runs_cleanup_inv in H. destruct H as [tb [H ->]].
  apply runs_try_except_inv in H. destruct H as [H | [t1 [e [_ H]]]].
  2: { run_step H as t2 u2 Hev. run_step H as t3 u3 Hev'.
       apply runs_ret_inv in H. destruct H as [_ H]. discriminate H. }
  unfold upscale_with_custom_dimensions_gradio_body in H.
  destruct (given input_image) as [p |] eqn:Hp;
    [| apply runs_ret_inv in H; destruct H as [_ H]; discriminate H].
  run_step H as t1 orig Hopen. unfold open_image in Hopen.
  run_step Hopen as t0 u0 Hev. apply runs_emit_inv in Hev. subst t0.
  apply runs_ask_inv in Hopen. destruct Hopen as [-> Hopen].
  cbv zeta in H.
  run_step H as t2 fw Hfw. apply runs_lift_inv in Hfw.
  destruct Hfw as [-> Hfw].
  run_step H as t3 fh Hfh. apply runs_lift_inv in Hfh.
  destruct Hfh as [-> Hfh].
  run_step H as t4 es Hes. apply runs_lift_inv in Hes.
  destruct Hes as [-> Hes].
  run_step H as t5 u5 Hev. apply runs_emit_inv in Hev. subst t5.
  run_step H as t6 upscaled Hup.
  destruct upscaled as [upscaled |];
    [| apply runs_ret_inv in H; destruct H as [_ H]; discriminate H].
  apply upscale_image_success in Hup.
  destruct Hup as [opened [image [Hopened [Hconv [Hup Ht6]]]]].
  repeat (rewrite <- app_assoc in Hopened; cbn [app] in Hopened).
  repeat (rewrite <- app_assoc in Hconv; cbn [app] in Hconv).
  repeat (rewrite <- app_assoc in Hup; cbn [app] in Hup).
  repeat (rewrite <- app_assoc in Ht6; cbn [app] in Ht6).
  run_step H as t7 fitted Hfit.
  apply fit_to_target_success in Hfit.
  match type of H with
  | runs ?m _ _ _ =>
      assert (Himg : returns (fun r => fst r = Some fitted) m)
        by (unfold unix_time, save_image, dump_json; returns_auto;
            reflexivity);
      assert (Hext : emits
                       (fun ev => is_upscale ev = false
                                  /\ is_resize ev = false) m)
        by (unfold unix_time, save_image, dump_json; emits_auto;
            split; reflexivity)
  end.
  apply (runs_returns _ _ _ _ _ Himg) in H as Hfst.
  apply (runs_emits _ _ _ _ _ Hext) in H as [d [-> Hd]].
  cbn [fst] in Hfst. injection Hfst as <-.
  assert (Hrest : Forall (fun ev => is_upscale ev = false
                                    /\ is_resize ev = false)
                    (d ++ [GcCollect; ForceMlxCleanup])%list)
    by (apply Forall_app; split; [exact Hd | repeat constructor]).
  exists p, orig, fw, fh, es, opened, image, upscaled,
    (d ++ [GcCollect; ForceMlxCleanup])%list.
  cbv zeta.
  split; [reflexivity |]. do 7 (split; [assumption |]).
  destruct Hfit as [[Hw [Hh [-> ->]]] | [Hne [[data [Hdata ->]] ->]]];
    subst t6.
  - split; [exact Hw |]. split; [exact Hh |]. split; [| exact Hrest].
    left. split; [exact Hw |]. split; [exact Hh |]. split; [reflexivity |].
    repeat (rewrite <- app_assoc; cbn [app]). reflexivity.
  - split; [reflexivity |]. split; [reflexivity |]. split; [| exact Hrest].
    right. split; [exact Hne |]. split; [exists data; auto |].
    repeat (rewrite <- app_assoc; cbn [app]). reflexivity.
Qed.

End CustomSteps.


(** * The properties of the specification *)

(** C1, where the code departs from it.  A text of whitespace only is a
    text that cannot be read as a number, and yet it does not stand for
    the factor 2: it goes to [int], which refuses it, and the call ends
    in the handler without upscaling. *)
Theorem C1_blank_factor_is_refused (E : env) (p s : string)
    (output_format : string) (metadata : bool) (t : trace) (orig : image) :
  s <> EmptyString ->
  PyString.strip s = EmptyString ->
  PyString.truthy p = true ->
  image_open E (t ++ [ImageOpen p])%list p = inr orig ->
  resolve_factor (PyStr s)
  = inl (Exn ValueError
           ("invalid literal for int() with base 10: "
            ++ PyString.take 200 (PyString.repr s)))
  /\ upscale_image_gradio E (Some p) (PyStr s) output_format metadata t
     = ((t ++ [ImageOpen p;
               Print ("Error in upscaling: "
                      ++ "invalid literal for int() with base 10: "
                      ++ PyString.take 200 (PyString.repr s));
               PrintExc; GcCollect; ForceMlxCleanup])%list,
        inr (None,
             "Error: " ++ "invalid literal for int() with base 10: "
             ++ PyString.take 200 (PyString.repr s))).
Proof.
  intros Hs Hblank Hp Hopen.
  assert (Hres : resolve_factor (PyStr s)
                 = inl (Exn ValueError
                          ("invalid literal for int() with base 10: "
                           ++ PyString.take 200 (PyString.repr s)))).
  { unfold resolve_factor. rewrite Hblank. cbn [PyString.truthy].
    unfold PyVal.truthy, PyVal.to_int.
    destruct s as [| c s']; [now elim Hs |]. cbn [PyString.truthy].
    now apply int_of_blank_string. }
  split; [exact Hres |].
  now rewrite (refused_factor_call E p (PyStr s) output_format metadata t
                 orig _ Hp Hopen Hres).
Qed.

Lemma C1_blank_factor_is_refused_witness :
  " " <> EmptyString
  /\ PyString.strip " " = EmptyString
  /\ PyString.truthy "a.png" = true
  /\ image_open Sample.world [ImageOpen "a.png"] "a.png"
     = inr (Image 100 100 [])
  /\ resolve_factor (PyStr " ")
     = inl (Exn ValueError "invalid literal for int() with base 10: ' '")
  /\ upscale_image_gradio Sample.world (Some "a.png") (PyStr " ") "PNG" false
       []
     = ([ImageOpen "a.png";
         Print
           "Error in upscaling: invalid literal for int() with base 10: ' '";
         PrintExc; GcCollect; ForceMlxCleanup],
        inr (None, "Error: invalid literal for int() with base 10: ' '")).
Proof.
  split; [discriminate |]. split; [reflexivity |]. split; [reflexivity |].
  split; [reflexivity |].
  exact (C1_blank_factor_is_refused Sample.world "a.png" " " "PNG" false []
           (Image 100 100 []) ltac:(discriminate) eq_refl eq_refl eq_refl).
Defined.

(** C2, as the code has it.  Every call of the external upscaler made by
    [upscale_image_gradio] or by [upscale_with_custom_dimensions_gradio]
    is given a factor among 2, 3 and 4.  In the second the factor is the
    one chosen for the effective scale, which always is among them.  In
    the first nothing is clamped: a request that resolves to another
    number ends the call with an error result before the upscaler is
    reached. *)
Theorem C2_upscaler_factor_supported (E : env)
    (parse_scale_factor : pyval -> Z -> res Z) :
  (forall input_image upscale_factor output_format metadata,
      emits (upscale_factor_in supported)
        (upscale_image_gradio E input_image upscale_factor output_format
           metadata))
  /\ (forall input_image target_width target_height output_format metadata,
         emits (upscale_factor_in supported)
           (upscale_with_custom_dimensions_gradio E parse_scale_factor
              input_image target_width target_height output_format metadata))
  /\ (forall effective_scale, supported (nearest_factor effective_scale))
  /\ (forall p upscale_factor output_format metadata t orig n,
         PyString.truthy p = true ->
         image_open E (t ++ [ImageOpen p])%list p = inr orig ->
         resolve_factor upscale_factor = inr n ->
         ~ supported n ->
         upscale_image_gradio E (Some p) upscale_factor output_format
           metadata t
         = ((t ++ [ImageOpen p; GcCollect; ForceMlxCleanup])%list,
            inr (None, "Error: Upscale factor must be 2, 3, or 4"))).
Proof.
  assert (Hcleanup : forall d,
             Forall body_event d ->
             Forall (upscale_factor_in supported)
               (d ++ [GcCollect; ForceMlxCleanup])%list).
  { intros d Hd. apply Forall_app; split.
    - eapply Forall_impl; [| exact Hd]. now intros ev [_ H].
    - constructor; [intros ? ? ?; discriminate |].
      constructor; [intros ? ? ?; discriminate | constructor]. }
  split; [| split; [| split]].
  - intros. intros t.
    destruct (upscale_image_gradio_call E input_image upscale_factor
                output_format metadata t) as [d [a [Hcall Hd]]].
    exists (d ++ [GcCollect; ForceMlxCleanup])%list. rewrite Hcall. auto.
  - intros. intros t.
    destruct (custom_call E parse_scale_factor input_image target_width
                target_height output_format metadata t)
      as [d [a [Hcall Hd]]].
    exists (d ++ [GcCollect; ForceMlxCleanup])%list. rewrite Hcall. auto.
  - apply nearest_factor_supported.
  - intros. eapply unsupported_factor_call; eauto.
Qed.

Lemma C2_upscaler_factor_supported_witness :
  PyString.truthy "a.png" = true
  /\ image_open Sample.world [ImageOpen "a.png"] "a.png"
     = inr (Image 100 100 [])
  /\ resolve_factor (PyStr "5x") = inr 5
  /\ ~ supported 5
  /\ upscale_image_gradio Sample.world (Some "a.png") (PyStr "5x") "PNG"
       false []
     = ([ImageOpen "a.png"; GcCollect; ForceMlxCleanup],
        inr (None, "Error: Upscale factor must be 2, 3, or 4")).
Proof.
  assert (H5 : ~ supported 5) by (intros [H | [H | H]]; discriminate H).
  split; [reflexivity |]. split; [reflexivity |].
  split; [vm_compute; reflexivity |]. split; [exact H5 |].
  apply (proj2 (proj2 (proj2 (C2_upscaler_factor_supported Sample.world
                                Sample.pixels_or_original)))
           "a.png" (PyStr "5x") "PNG" false [] (Image 100 100 []) 5);
    [reflexivity | reflexivity | vm_compute; reflexivity | exact H5].
Defined.

(** C2 as stated fails on [upscale_image_gradio]: the request "5x"
    resolves to 5, which is not clamped to 4; the upscaler is not called
    at all and the call returns an error result. *)
Lemma C2_unsupported_factor_skips_upscaler :
  resolve_factor (PyStr "5x") = inr 5
  /\ count is_upscale
       (fst (upscale_image_gradio Sample.world (Some "a.png") (PyStr "5x")
               "PNG" false [])) = 0%nat
  /\ snd (upscale_image_gradio Sample.world (Some "a.png") (PyStr "5x")
            "PNG" false [])
     = inr (None, "Error: Upscale factor must be 2, 3, or 4").
Proof. repeat split; vm_compute; reflexivity. Qed.

(** C3, as the code has it.  For positive sizes the two ratios are
    floats, unless a quotient is too large for one, and the effective
    scale is the larger of the two.  The factor chosen for an effective
    scale is 2 up to 2.5, 3 above 2.5 and up to 3.5, and 4 above 3.5;
    for targets below [2 ^ 53] and originals below [2 ^ 51] the
    effective scale exists and the rounding of the quotients does not
    show, so that the factor is 2 when neither target exceeds 2.5 times
    its original, 3 when neither exceeds 3.5 times, and 4 otherwise.
    [upscale_with_custom_dimensions_gradio] computes this scale from
    the sizes it resolved, prints the factor chosen for it and hands
    that factor to [upscale_image], which calls the upscaler with it;
    no call of the upscaler is made with another factor.  When the
    effective scale can not be computed, as for a target so large that
    its quotient is no float, no factor is chosen: the call ends with
    the error of the division. *)
Theorem C3_effective_scale_buckets (E : env)
    (parse_scale_factor : pyval -> Z -> res Z) :
  (forall final_width final_height original_width original_height,
      0 < final_width -> 0 < final_height ->
      0 < original_width -> 0 < original_height ->
      (exists scale_x scale_y,
          PyFloat.truediv final_width original_width = inr scale_x
          /\ PyFloat.truediv final_height original_height = inr scale_y
          /\ effective_scale_of final_width final_height original_width
               original_height = inr (PyFloat.max scale_x scale_y))
      \/ effective_scale_of final_width final_height original_width
           original_height
         = inl (Exn OverflowError
                  "integer division result too large for a float"))
  /\ (forall effective_scale,
         (PyFloat.leb effective_scale lit_2_5 = true ->
          nearest_factor effective_scale = 2)
         /\ (PyFloat.ltb lit_2_5 effective_scale = true ->
             PyFloat.leb effective_scale lit_3_5 = true ->
             nearest_factor effective_scale = 3)
         /\ (PyFloat.ltb lit_3_5 effective_scale = true ->
             nearest_factor effective_scale = 4))
  /\ (forall final_width final_height original_width original_height,
         0 < final_width < 2 ^ 53 -> 0 < final_height < 2 ^ 53 ->
         0 < original_width < 2 ^ 51 -> 0 < original_height < 2 ^ 51 ->
         exists effective_scale,
           effective_scale_of final_width final_height original_width
             original_height = inr effective_scale
           /\ nearest_factor effective_scale
              = if (2 * final_width <=? 5 * original_width)
                   && (2 * final_height <=? 5 * original_height)
                then 2
                else if (2 * final_width <=? 7 * original_width)
                        && (2 * final_height <=? 7 * original_height)
                     then 3
                     else 4)
  /\ (forall input_image target_width target_height output_format metadata,
         emits
           (upscale_by_effective_scale E parse_scale_factor input_image
              target_width target_height)
           (upscale_with_custom_dimensions_gradio E parse_scale_factor
              input_image target_width target_height output_format
              metadata))
  /\ (forall p target_width target_height output_format metadata t orig
             final_width final_height effective_scale,
         PyString.truthy p = true ->
         image_open E (t ++ [ImageOpen p])%list p = inr orig ->
         parse_scale_factor target_width (width orig) = inr final_width ->
         parse_scale_factor target_height (height orig) = inr final_height ->
         effective_scale_of final_width final_height (width orig)
           (height orig) = inr effective_scale ->
         let upscale_factor_int := nearest_factor effective_scale in
         let t1 :=
           (t ++ [ImageOpen p;
                  Print ("Upscaling image with factor "
                         ++ PyString.of_Z upscale_factor_int
                         ++ "x to target "
                         ++ PyString.of_Z final_width ++ "x"
                         ++ PyString.of_Z final_height)])%list in
         (exists d,
             fst (upscale_with_custom_dimensions_gradio E parse_scale_factor
                    (Some p) target_width target_height output_format
                    metadata t)
             = (fst (upscale_image E p upscale_factor_int t1) ++ d)%list)
         /\ (forall opened image,
                import_upscaler E t1 = None ->
                image_open E (t1 ++ [ImageOpen p])%list p = inr opened ->
                convert_rgb E (t1 ++ [ImageOpen p])%list opened = inr image ->
                new_upscaler E (t1 ++ [ImageOpen p])%list = None ->
                exists d,
                  fst (upscale_with_custom_dimensions_gradio E
                         parse_scale_factor (Some p) target_width
                         target_height output_format metadata t)
                  = (t1 ++ [ImageOpen p; Upscale image upscale_factor_int]
                     ++ d)%list))
  /\ (forall p target_width target_height output_format metadata t orig
             final_width final_height e,
         PyString.truthy p = true ->
         image_open E (t ++ [ImageOpen p])%list p = inr orig ->
         parse_scale_factor target_width (width orig) = inr final_width ->
         parse_scale_factor target_height (height orig) = inr final_height ->
         effective_scale_of final_width final_height (width orig)
           (height orig) = inl e ->
         upscale_with_custom_dimensions_gradio E parse_scale_factor (Some p)
           target_width target_height output_format metadata t
         = ((t ++ [ImageOpen p;
                   Print ("Error in custom upscaling: " ++ exn_str e);
                   PrintExc; GcCollect; ForceMlxCleanup])%list,
            inr (None, "Error: " ++ exn_str e))).
Proof.
  split; [| split; [| split; [| split; [| split]]]].
  - intros fw fh ow oh Hfw Hfh How Hoh. unfold effective_scale_of.
    destruct (truediv_positive fw ow Hfw How)
      as [[sx Hx] | Hx]; rewrite Hx; cbn [bind_res]; [| now right].
    destruct (truediv_positive fh oh Hfh Hoh)
      as [[sy Hy] | Hy]; rewrite Hy; cbn [bind_res]; [| now right].
    left. exists sx, sy. auto.
  - apply nearest_factor_buckets.
  - intros. apply factor_by_sizes; assumption.
  - intros. apply custom_upscale_events.
  - intros p target_width target_height output_format metadata t orig fw fh
      es Hp Hopen Hfw Hfh Hes factor t1.
    destruct (custom_reaches_upscaler E parse_scale_factor p target_width
                target_height output_format metadata t orig fw fh es
                Hp Hopen Hfw Hfh Hes) as [d Hd].
    split; [exists d; exact Hd |].
    intros opened image Himport Hopened Hconv Hnew.
    destruct (upscale_image_reaches E p factor t1 opened image
                Himport Hopened Hconv Hnew) as [d0 Hd0].
    exists (d0 ++ d)%list. rewrite Hd. fold factor. fold t1. rewrite Hd0.
    now rewrite <- !app_assoc.
  - intros. now apply (custom_without_scale E parse_scale_factor p
                         target_width target_height output_format metadata
                         t orig final_width final_height e).
Qed.

Lemma C3_effective_scale_buckets_witness :
  (0 < 250 < 2 ^ 53 /\ 0 < 300 < 2 ^ 53 /\ 0 < 100 < 2 ^ 51)
  /\ effective_scale_of 250 300 100 100
     = inr (S754_finite false 6755399441055744 (-51))
  /\ PyFloat.ltb lit_2_5 (S754_finite false 6755399441055744 (-51)) = true
  /\ PyFloat.leb (S754_finite false 6755399441055744 (-51)) lit_3_5 = true
  /\ nearest_factor (S754_finite false 6755399441055744 (-51)) = 3
  /\ (exists effective_scale,
         effective_scale_of 250 300 100 100 = inr effective_scale
         /\ nearest_factor effective_scale
            = if (2 * 250 <=? 5 * 100) && (2 * 300 <=? 5 * 100) then 2
              else if (2 * 250 <=? 7 * 100) && (2 * 300 <=? 7 * 100) then 3
              else 4)
  /\ exists d,
       fst (upscale_with_custom_dimensions_gradio Sample.world
              Sample.pixels_or_original (Some "a.png") (PyInt 250)
              (PyInt 300) "PNG" false [])
       = ([ImageOpen "a.png";
           Print "Upscaling image with factor 3x to target 250x300";
           ImageOpen "a.png"; Upscale (Image 100 100 []) 3] ++ d)%list.
Proof.
  assert (H250 : 0 < 250 < 2 ^ 53) by (split; reflexivity).
  assert (H300 : 0 < 300 < 2 ^ 53) by (split; reflexivity).
  assert (H100 : 0 < 100 < 2 ^ 51) by (split; reflexivity).
  destruct (C3_effective_scale_buckets Sample.world Sample.pixels_or_original)
    as [_ [Hbuckets [Hsizes [_ [Hcall _]]]]].
  split; [auto |]. do 3 (split; [reflexivity |]).
  destruct (Hbuckets (S754_finite false 6755399441055744 (-51)))
    as [_ [Hthree _]].
  split; [apply Hthree; reflexivity |].
  split; [apply Hsizes; assumption |].
  destruct (Hcall "a.png" (PyInt 250) (PyInt 300) "PNG" false []
              (Image 100 100 []) 250 300
              (S754_finite false 6755399441055744 (-51))
              eq_refl eq_refl eq_refl eq_refl eq_refl) as [_ Hreach].
  exact (Hreach (Image 100 100 []) (Image 100 100 [])
           eq_refl eq_refl eq_refl eq_refl).
Defined.

(** C3 as stated fails for a target whose quotient is no float: with an
    original of 100 by 100 and the target width [10 ^ 400], all sizes
    are positive and yet there is no effective scale and no factor; the
    division raises, the upscaler is not called and the call returns an
    error. *)
Lemma C3_quotient_too_large_for_a_float :
  0 < 10 ^ 400
  /\ Sample.pixels_or_original (PyInt (10 ^ 400)) 100 = inr (10 ^ 400)
  /\ effective_scale_of (10 ^ 400) 300 100 100
     = inl (Exn OverflowError "integer division result too large for a float")
  /\ upscale_with_custom_dimensions_gradio Sample.world
       Sample.pixels_or_original (Some "a.png") (PyInt (10 ^ 400))
       (PyInt 300) "PNG" false []
     = ([ImageOpen "a.png";
         Print
           "Error in custom upscaling: integer division result too large for a float";
         PrintExc; GcCollect; ForceMlxCleanup],
        inr (None, "Error: integer division result too large for a float")).
Proof. repeat split; vm_compute; reflexivity. Qed.

(** C4.  A call of [upscale_with_custom_dimensions_gradio] that returns
    an image has opened the original, resolved the two target sizes
    against it, and called the upscaler, once, on the converted input
    with the factor of the effective scale.  When what the upscaler
    returned has the resolved width and height, it is the image
    returned, and nothing is resized.  Otherwise that output is resized,
    once, to the resolved width and height, and the result of the resize
    is the image returned.  Either way the image returned has exactly
    the resolved width and height.  For an original of 100 by 100 and
    the resolved targets 250 and 300 the effective scale is 3.0, the
    factor is 3 and the image returned is 250 by 300. *)
Theorem C4_custom_result_has_target_size (E : env)
    (parse_scale_factor : pyval -> Z -> res Z)
    (input_image : option string) (target_width target_height : pyval)
    (output_format : string) (metadata : bool) (t t' : trace)
    (img : image) (message : string) :
  runs
    (upscale_with_custom_dimensions_gradio E parse_scale_factor input_image
       target_width target_height output_format metadata)
    t t' (Some img, message) ->
  exists p orig final_width final_height effective_scale opened image
         upscaled rest,
    let upscale_factor_int := nearest_factor effective_scale in
    let start :=
      [ImageOpen p;
       Print ("Upscaling image with factor "
              ++ PyString.of_Z upscale_factor_int
              ++ "x to target " ++ PyString.of_Z final_width ++ "x"
              ++ PyString.of_Z final_height);
       ImageOpen p] in
    given input_image = Some p
    /\ image_open E (t ++ [ImageOpen p])%list p = inr orig
    /\ parse_scale_factor target_width (width orig) = inr final_width
    /\ parse_scale_factor target_height (height orig) = inr final_height
    /\ effective_scale_of final_width final_height (width orig) (height orig)
       = inr effective_scale
    /\ image_open E (t ++ start)%list p = inr opened
    /\ convert_rgb E (t ++ start)%list opened = inr image
    /\ upscaler_upscale E
         (t ++ start ++ [Upscale image upscale_factor_int])%list image
         upscale_factor_int = inr upscaled
    /\ width img = final_width /\ height img = final_height
    /\ ((width upscaled = final_width /\ height upscaled = final_height
         /\ img = upscaled
         /\ t' = (t ++ start ++ [Upscale image upscale_factor_int]
                  ++ rest)%list)
        \/ ((width upscaled <> final_width \/ height upscaled <> final_height)
            /\ (exists data,
                   resample E upscaled final_width final_height = inr data
                   /\ img = Image final_width final_height data)
            /\ t' = (t ++ start
                     ++ [Upscale image upscale_factor_int;
                         Resize upscaled final_width final_height]
                     ++ rest)%list))
    /\ Forall (fun ev => is_upscale ev = false /\ is_resize ev = false) rest
    /\ (width orig = 100 -> height orig = 100 ->
        final_width = 250 -> final_height = 300 ->
        effective_scale = S754_finite false 6755399441055744 (-51)
        /\ upscale_factor_int = 3
        /\ width img = 250 /\ height img = 300).
Proof.
  intros H. apply custom_success in H.
  destruct H as [p [orig [fw [fh [es [opened [image [upscaled [rest H]]]]]]]]].
  exists p, orig, fw, fh, es, opened, image, upscaled, rest.
  cbv zeta in H |- *.
  destruct H as [Hp [Hopen [Hfw [Hfh [Hes [Hopened [Hconv [Hup [Hw [Hh
                   [Hfit Hrest]]]]]]]]]]].
  do 11 (split; [assumption |]).
  split; [exact Hrest |].
  intros How Hoh -> ->. rewrite How, Hoh in Hes.
  vm_compute in Hes. injection Hes as <-.
  repeat split; assumption.
Qed.

Lemma C4_custom_result_has_target_size_witness :
  runs
    (upscale_with_custom_dimensions_gradio Sample.world
       Sample.pixels_or_original (Some "a.png") (PyInt 250) (PyInt 300)
       "PNG" false)
    [] Sample.custom_trace
    (Some (Image 250 300 []), "Successfully upscaled image to 250x300")
  /\ exists upscaled data,
       upscaler_upscale Sample.world
         [ImageOpen "a.png";
          Print "Upscaling image with factor 3x to target 250x300";
          ImageOpen "a.png"; Upscale (Image 100 100 []) 3]
         (Image 100 100 []) 3 = inr upscaled
       /\ (width upscaled <> 250 \/ height upscaled <> 300)
       /\ resample Sample.world upscaled 250 300 = inr data
       /\ Image 250 300 [] = Image 250 300 data
       /\ In (Resize upscaled 250 300) Sample.custom_trace.
Proof.
  assert (Hrun :
            runs
              (upscale_with_custom_dimensions_gradio Sample.world
                 Sample.pixels_or_original (Some "a.png") (PyInt 250)
                 (PyInt 300) "PNG" false)
              [] Sample.custom_trace
              (Some (Image 250 300 []),
               "Successfully upscaled image to 250x300"))
    by (vm_compute; reflexivity).
  split; [exact Hrun |].
  destruct (C4_custom_result_has_target_size Sample.world
              Sample.pixels_or_original (Some "a.png") (PyInt 250)
              (PyInt 300) "PNG" false [] Sample.custom_trace
              (Image 250 300 []) "Successfully upscaled image to 250x300"
              Hrun)
    as [p [orig [fw [fh [es [opened [image [upscaled [rest H]]]]]]]]].
  cbv zeta in H.
  destruct H as [Hp [Hopen [Hfw [Hfh [Hes [Hopened [Hconv [Hup [Hw [Hh
                   [Hfit [Hrest Hex]]]]]]]]]]]].
  injection Hp as <-.
  injection Hopen as <-. injection Hfw as <-. injection Hfh as <-.
  injection Hopened as <-. injection Hconv as <-.
  destruct (Hex eq_refl eq_refl eq_refl eq_refl) as [-> _].
  injection Hup as <-.
  destruct Hfit as [[Hw' _] | [Hne [[data [Hdata Himg]] Ht]]];
    [discriminate Hw' |].
  exists (Image 300 300 []), data.
  split; [reflexivity |]. split; [exact Hne |]. split; [exact Hdata |].
  split; [exact Himg |].
  cbn. auto 10.
Defined.

(** C5, as the code has it.  Every file saved by [upscale_image_gradio]
    is named "upscaled_", the factor, "x_", the unix time, a dot and the
    extension; the size of the image is no part of the name.  Every file
    saved by [upscale_with_custom_dimensions_gradio] is named
    "upscaled_custom_", the width, "x", the height, "_", the unix time, a
    dot and the extension, where width and height are those of the image
    saved; the factor is no part of the name.  The numbers in a name can
    be read back from it.  PNG is saved without a quality argument, JPEG
    with quality 95, and every other format as WebP with quality 95. *)
Theorem C5_saved_file_names (E : env)
    (parse_scale_factor : pyval -> Z -> res Z) :
  (forall input_image upscale_factor output_format metadata,
      emits (save_by_factor E upscale_factor output_format)
        (upscale_image_gradio E input_image upscale_factor output_format
           metadata))
  /\ (forall input_image target_width target_height output_format metadata,
         emits
           (save_by_size E parse_scale_factor input_image target_width
              target_height output_format)
           (upscale_with_custom_dimensions_gradio E parse_scale_factor
              input_image target_width target_height output_format
              metadata))
  /\ (forall f ts,
         upscaled_stem f ts
         = "upscaled_" ++ PyString.of_Z f ++ "x_" ++ PyString.of_Z ts)
  /\ (forall w h ts,
         custom_stem w h ts
         = "upscaled_custom_" ++ PyString.of_Z w ++ "x" ++ PyString.of_Z h
           ++ "_" ++ PyString.of_Z ts)
  /\ (forall f ts f' ts',
         upscaled_stem f ts = upscaled_stem f' ts' -> f = f' /\ ts = ts')
  /\ (forall w h ts w' h' ts',
         custom_stem w h ts = custom_stem w' h' ts' ->
         w = w' /\ h = h' /\ ts = ts')
  /\ format_kwargs "PNG" = ("png", SaveKwargs "PNG" None)
  /\ format_kwargs "JPEG" = ("jpg", SaveKwargs "JPEG" (Some 95))
  /\ format_kwargs "WebP" = ("webp", SaveKwargs "WebP" (Some 95))
  /\ (forall output_format,
         output_format = "PNG" \/ output_format = "JPEG"
         \/ format_kwargs output_format
            = ("webp", SaveKwargs "WebP" (Some 95))).
Proof.
  split; [intros; apply plain_save_events |].
  split; [intros; apply custom_save_events |].
  split; [reflexivity |]. split; [reflexivity |].
  split; [apply upscaled_stem_inj |].
  split; [apply custom_stem_inj |].
  repeat (split; [reflexivity |]).
  intros output_format. unfold format_kwargs.
  destruct (String.eqb_spec output_format "PNG"); [now left |].
  destruct (String.eqb_spec output_format "JPEG"); [now right; left |].
  now right; right.
Qed.

Lemma C5_saved_file_names_witness :
  (upscaled_stem 2 1700000000 = upscaled_stem (1 + 1) (17 * 100000000)
   /\ 2 = 1 + 1 /\ 1700000000 = 17 * 100000000)
  /\ (custom_stem 250 300 1700000000
      = custom_stem (25 * 10) (3 * 100) (17 * 100000000)
      /\ 250 = 25 * 10 /\ 300 = 3 * 100 /\ 1700000000 = 17 * 100000000).
Proof.
  destruct (C5_saved_file_names Sample.world Sample.pixels_or_original)
    as [_ [_ [_ [_ [Hplain [Hcustom _]]]]]].
  split.
  - split; [reflexivity |].
    apply (Hplain 2 1700000000 (1 + 1) (17 * 100000000)). reflexivity.
  - split; [reflexivity |].
    apply (Hcustom 250 300 1700000000 (25 * 10) (3 * 100) (17 * 100000000)).
    reflexivity.
Defined.

(** C5 as stated fails on both entry points.  Two calls of
    [upscale_image_gradio] that save images of different sizes write the
    same file name, so the name does not hold the size.  Two calls of
    [upscale_with_custom_dimensions_gradio] that use different factors
    write the same file name, so the name does not hold the factor. *)
Lemma C5_file_name_misses_size_or_factor :
  filter is_save
    (fst (upscale_image_gradio Sample.world (Some "a.png") (PyInt 2) "PNG"
            false []))
  = [Save (Image 200 200 []) "/app/output/upscaled_2x_1700000000.png"
       (SaveKwargs "PNG" None)]
  /\ filter is_save
       (fst (upscale_image_gradio Sample.small_world (Some "a.png") (PyInt 2)
               "PNG" false []))
     = [Save (Image 100 100 []) "/app/output/upscaled_2x_1700000000.png"
          (SaveKwargs "PNG" None)]
  /\ filter (fun ev => is_upscale ev || is_save ev)
       (fst (upscale_with_custom_dimensions_gradio Sample.world
               Sample.pixels_or_original (Some "a.png") (PyInt 250)
               (PyInt 300) "PNG" false []))
     = [Upscale (Image 100 100 []) 3;
        Save (Image 250 300 [])
          "/app/output/upscaled_custom_250x300_1700000000.png"
          (SaveKwargs "PNG" None)]
  /\ filter (fun ev => is_upscale ev || is_save ev)
       (fst (upscale_with_custom_dimensions_gradio Sample.small_world
               Sample.pixels_or_original (Some "a.png") (PyInt 250)
               (PyInt 300) "PNG" false []))
     = [Upscale (Image 50 50 []) 4;
        Save (Image 250 300 [])
          "/app/output/upscaled_custom_250x300_1700000000.png"
          (SaveKwargs "PNG" None)].
Proof. repeat split; vm_compute; reflexivity. Qed.


(** C6.  [batch_upscale_gradio] handles the items of a non-empty batch
    one after the other, each on the trace its predecessor left.  Every
    item is handled, whatever happened to the ones before.  The images
    returned are those of the items that succeeded, in order.  An item
    that fails at place [k] (counted from 0) is recorded as
    "Image k+1: message", and the final message contains that text.
    When an item succeeded the final message starts with the number of
    successes.  For three items of which the second fails, the result
    holds the two images and the summary reports "Image 2". *)
Theorem C6_batch_collects_item_failures (E : env)
    (items : list (option string)) (upscale_factor : pyval)
    (output_format : string) (metadata : bool) (t : trace) :
  items <> [] ->
  let run :=
    batch_outcomes E (Z.of_nat (List.length items)) 0 items upscale_factor
      output_format metadata t in
  let outcomes := fst run in
  let result := batch_summary (successes outcomes) (failures 0 outcomes) in
  batch_upscale_gradio E (Some items) upscale_factor output_format metadata t
  = (snd run, inr result)
  /\ List.length outcomes = List.length items
  /\ fst result = successes outcomes
  /\ (forall k message,
        nth_error outcomes k = Some (None, message) ->
        mentions (snd result)
          ("Image " ++ PyString.of_Z (Z.of_nat k + 1) ++ ": " ++ message))
  /\ (successes outcomes <> [] ->
      String.prefix
        ("Successfully upscaled "
         ++ PyString.of_Z (Z.of_nat (List.length (successes outcomes)))
         ++ " image(s)")
        (snd result) = true)
  /\ (forall i1 m1 m2 i3 m3,
        outcomes = [(Some i1, m1); (None, m2); (Some i3, m3)] ->
        result
        = ([i1; i3],
           "Successfully upscaled 2 image(s)" ++ nl ++ nl ++ "Errors:" ++ nl
           ++ "Image 2: " ++ m2)).
Proof.
  intros Hne run outcomes result.
  split; [apply batch_upscale_gradio_items, Hne |].
  split.
  { destruct (batch_outcomes_trace E items (Z.of_nat (List.length items)) 0
                upscale_factor output_format metadata t)
      as [d [_ [_ [_ [_ Hlen]]]]].
    exact Hlen. }
  split.
  { unfold result, batch_summary. now destruct (successes outcomes). }
  split.
  { intros k message Hk. apply batch_summary_mentions.
    apply (failures_nth outcomes 0 k message Hk). }
  split.
  { intros Hs. unfold result, batch_summary.
    destruct (successes outcomes) as [| i imgs] eqn:Hi; [now elim Hs |].
    cbn [snd].
    destruct (failures 0 outcomes); [apply prefix_refl | apply prefix_app]. }
  intros i1 m1 m2 i3 m3 Ho. unfold result. rewrite Ho. reflexivity.
Qed.

Lemma C6_batch_collects_item_failures_witness :
  [Some "a.png"; Some "missing.png"; Some "c.png"] <> []
  /\ snd (batch_upscale_gradio Sample.world
            (Some [Some "a.png"; Some "missing.png"; Some "c.png"])
            (PyInt 2) "PNG" false [])
     = inr ([Image 200 200 []; Image 200 200 []],
            "Successfully upscaled 2 image(s)" ++ nl ++ nl ++ "Errors:" ++ nl
            ++ "Image 2: Error: No such file: missing.png").
Proof.
  split; [discriminate |].
  destruct (C6_batch_collects_item_failures Sample.world
              [Some "a.png"; Some "missing.png"; Some "c.png"]
              (PyInt 2) "PNG" false [] ltac:(discriminate)) as [Hrun _].
  rewrite Hrun. vm_compute. reflexivity.
Defined.

(** C7, as the code has it.  A call of [upscale_image_gradio] or of
    [upscale_with_custom_dimensions_gradio] runs the cleanup (the
    garbage collection, then the MLX cache purge) exactly once, on every
    path.  [batch_upscale_gradio] has no cleanup of its own: a call runs
    the cleanup once for each item of the batch, and not at all for a
    missing batch. *)
Theorem C7_cleanup_once_per_image (E : env)
    (parse_scale_factor : pyval -> Z -> res Z) :
  (forall input_image upscale_factor output_format metadata t,
      exists d,
        fst (upscale_image_gradio E input_image upscale_factor output_format
               metadata t) = (t ++ d)%list
        /\ count is_gc d = 1%nat /\ count is_mlx_cleanup d = 1%nat)
  /\ (forall input_image target_width target_height output_format metadata t,
         exists d,
           fst (upscale_with_custom_dimensions_gradio E parse_scale_factor
                  input_image target_width target_height output_format
                  metadata t) = (t ++ d)%list
           /\ count is_gc d = 1%nat /\ count is_mlx_cleanup d = 1%nat)
  /\ (forall items upscale_factor output_format metadata t,
         exists d,
           fst (batch_upscale_gradio E (Some items) upscale_factor
                  output_format metadata t) = (t ++ d)%list
           /\ count is_gc d = List.length items
           /\ count is_mlx_cleanup d = List.length items)
  /\ (forall upscale_factor output_format metadata t,
         fst (batch_upscale_gradio E None upscale_factor output_format
                metadata t) = t).
Proof.
  split; [| split; [| split]].
  - intros.
    destruct (upscale_image_gradio_call E input_image upscale_factor
                output_format metadata t) as [d [a [Hcall Hd]]].
    destruct (body_events_no_cleanup d Hd) as [Hg Hm].
    exists (d ++ [GcCollect; ForceMlxCleanup])%list. rewrite Hcall.
    rewrite !count_app, Hg, Hm. repeat split.
  - intros.
    destruct (custom_call E parse_scale_factor input_image target_width
                target_height output_format metadata t)
      as [d [a [Hcall Hd]]].
    destruct (body_events_no_cleanup d Hd) as [Hg Hm].
    exists (d ++ [GcCollect; ForceMlxCleanup])%list. rewrite Hcall.
    rewrite !count_app, Hg, Hm. repeat split.
  - intros. destruct items as [| i0 rest].
    + exists []. cbn. rewrite app_nil_r. repeat split.
    + rewrite batch_upscale_gradio_items by discriminate.
      destruct (batch_outcomes_trace E (i0 :: rest)
                  (Z.of_nat (List.length (i0 :: rest))) 0 upscale_factor
                  output_format metadata t)
        as [d [Ht [Hg [Hm _]]]].
      exists d. cbn [fst]. auto.
  - reflexivity.
Qed.

(** C7 as stated fails on the batch entry point: an empty batch runs no
    cleanup, a batch of three runs it three times. *)
Lemma C7_batch_cleanup_is_per_item :
  count is_mlx_cleanup
    (fst (batch_upscale_gradio Sample.world (Some []) (PyInt 2) "PNG" false
            [])) <> 1%nat
  /\ count is_mlx_cleanup
       (fst (batch_upscale_gradio Sample.world
               (Some [Some "a.png"; Some "missing.png"; Some "c.png"])
               (PyInt 2) "PNG" false [])) = 3%nat
  /\ count is_gc
       (fst (batch_upscale_gradio Sample.world
               (Some [Some "a.png"; Some "missing.png"; Some "c.png"])
               (PyInt 2) "PNG" false [])) = 3%nat.
Proof. split; [| split]; vm_compute; [discriminate | reflexivity ..]. Qed.

(** C8, as the code has it.  No entry point raises.  A call of
    [upscale_image_gradio] or [upscale_with_custom_dimensions_gradio]
    that returns no image returns a message that begins with "Error";
    without an input image the result is
    [(None, "Error: Input image is required")].  [batch_upscale_gradio]
    answers a missing or empty batch with
    [([], "Error: No images provided")]; on a batch with items it returns
    the summary of the outcomes, which for a batch without any success is
    the empty list with a message that begins with
    "Failed to upscale any images". *)
Theorem C8_entry_points_return_errors (E : env)
    (parse_scale_factor : pyval -> Z -> res Z) :
  (forall input_image upscale_factor output_format metadata t,
      exists r,
        snd (upscale_image_gradio E input_image upscale_factor output_format
               metadata t) = inr r
        /\ failure_says_Error r)
  /\ (forall input_image target_width target_height output_format metadata t,
         exists r,
           snd (upscale_with_custom_dimensions_gradio E parse_scale_factor
                  input_image target_width target_height output_format
                  metadata t) = inr r
           /\ failure_says_Error r)
  /\ (forall upscale_factor output_format metadata t,
         snd (upscale_image_gradio E None upscale_factor output_format
                metadata t)
         = inr (None, "Error: Input image is required")
         /\ snd (upscale_image_gradio E (Some EmptyString) upscale_factor
                   output_format metadata t)
            = inr (None, "Error: Input image is required"))
  /\ (forall target_width target_height output_format metadata t,
         snd (upscale_with_custom_dimensions_gradio E parse_scale_factor None
                target_width target_height output_format metadata t)
         = inr (None, "Error: Input image is required"))
  /\ (forall upscale_factor output_format metadata t,
         batch_upscale_gradio E None upscale_factor output_format metadata t
         = (t, inr ([], "Error: No images provided"))
         /\ batch_upscale_gradio E (Some []) upscale_factor output_format
              metadata t
            = (t, inr ([], "Error: No images provided")))
  /\ (forall input_images upscale_factor output_format metadata t,
         exists r,
           snd (batch_upscale_gradio E input_images upscale_factor
                  output_format metadata t) = inr r
           /\ (r = ([], "Error: No images provided")
               \/ exists outcomes,
                    r = batch_summary (successes outcomes)
                          (failures 0 outcomes)))
  /\ (forall errors,
         batch_summary [] errors
         = ([], "Failed to upscale any images" ++ nl ++ nl
                ++ PyString.join nl errors)).
Proof.
  split; [| split; [| split; [| split; [| split; [| split]]]]].
  - intros.
    destruct (upscale_image_gradio_call E input_image upscale_factor
                output_format metadata t) as [d [r [Hcall _]]].
    exists r. split; [now rewrite Hcall |].
    apply (upscale_image_gradio_failure E input_image upscale_factor
             output_format metadata t).
    now rewrite Hcall.
  - intros.
    destruct (custom_call E parse_scale_factor input_image target_width
                target_height output_format metadata t)
      as [d [r [Hcall _]]].
    exists r. split; [now rewrite Hcall |].
    apply (custom_failure E parse_scale_factor input_image target_width
             target_height output_format metadata t).
    now rewrite Hcall.
  - intros; split; reflexivity.
  - intros; reflexivity.
  - intros; split; reflexivity.
  - intros. destruct input_images as [[| i0 rest] |].
    + eexists; split; [reflexivity | now left].
    + rewrite batch_upscale_gradio_items by discriminate.
      eexists; split; [reflexivity |]. right. eexists. reflexivity.
    + eexists; split; [reflexivity | now left].
  - reflexivity.
Qed.

(** C8 as stated fails on the batch entry point: when the only item of a
    batch fails, the result is the empty list, and its message does not
    begin with "Error". *)
Lemma C8_batch_failure_not_under_Error :
  exists message,
    snd (batch_upscale_gradio Sample.world (Some [Some "missing.png"])
           (PyInt 2) "PNG" false [])
    = inr ([], message)
    /\ String.prefix "Error" message = false.
Proof. eexists. split; vm_compute; reflexivity. Qed.

(** C9, where the code departs from it.  Both check boxes run the same
    handler on the same two values, and the handler does not know which
    box was set: whenever both are enabled it keeps
    [transformer_blocks_enabled] and disables [single_blocks_enabled].
    So a user who enables "Enable Single Transformer Blocks" while
    "Enable Transformer Blocks" is enabled sees the box just set go back
    to disabled, and the other one stay enabled.  With at most one box
    enabled both values are left as they are. *)
Theorem C9_single_toggle_is_undone :
  Dreambooth.user_sets Dreambooth.SingleBox true
    (Dreambooth.Blocks true false)
  = Dreambooth.Blocks true false
  /\ Dreambooth.get_box Dreambooth.SingleBox
       (Dreambooth.user_sets Dreambooth.SingleBox true
          (Dreambooth.Blocks true false)) = false
  /\ Dreambooth.user_sets Dreambooth.TransformerBox true
       (Dreambooth.Blocks false true)
     = Dreambooth.Blocks true false
  /\ (forall c, Dreambooth.on_change c (Dreambooth.Blocks true true)
                = Dreambooth.Blocks true false)
  /\ (forall c single,
         Dreambooth.on_change c (Dreambooth.Blocks false single)
         = Dreambooth.Blocks false single)
  /\ (forall c transformer,
         Dreambooth.on_change c (Dreambooth.Blocks transformer false)
         = Dreambooth.Blocks transformer false).
Proof.
  repeat split; try reflexivity.
  intros c [|]; reflexivity.
Qed.

(** C10.  [show_images] always returns 40 updates.  Without files, or
    with an empty list, all 40 hide their widget.  With files, the slot
    of each of the first 20 files shows the file and an empty, visible
    caption; every slot after the last file is hidden, its caption
    emptied; files after the twentieth have no effect on the result. *)
Theorem C10_show_images_forty_updates :
  (forall files, List.length (Dreambooth.show_images files) = 40%nat)
  /\ Dreambooth.show_images None
     = repeat (Dreambooth.Update None false) 40
  /\ Dreambooth.show_images (Some [])
     = repeat (Dreambooth.Update None false) 40
  /\ (forall fs i f,
         (i < 20)%nat -> nth_error fs i = Some f ->
         nth_error (Dreambooth.show_images (Some fs)) (2 * i)
         = Some (Dreambooth.Update (Some (Dreambooth.name f)) true)
         /\ nth_error (Dreambooth.show_images (Some fs)) (2 * i + 1)
            = Some (Dreambooth.Update (Some EmptyString) true))
  /\ (forall fs i,
         fs <> [] -> (List.length fs <= i < 20)%nat ->
         nth_error (Dreambooth.show_images (Some fs)) (2 * i)
         = Some (Dreambooth.Update None false)
         /\ nth_error (Dreambooth.show_images (Some fs)) (2 * i + 1)
            = Some (Dreambooth.Update (Some EmptyString) false))
  /\ (forall fs,
         fs <> [] ->
         Dreambooth.show_images (Some fs)
         = Dreambooth.show_images (Some (firstn 20 fs))).
Proof.
  split; [| split; [| split; [| split; [| split]]]].
  - intros [[| f0 fs] |]; try reflexivity.
    rewrite show_images_pairs by discriminate.
    rewrite length_app, !length_pairs, length_seq.
    assert (List.length (firstn 20 (f0 :: fs)) <= 20)%nat
      by (rewrite length_firstn; lia).
    lia.
  - reflexivity.
  - reflexivity.
  - intros fs i f Hi Hf.
    assert (Hne : fs <> []) by (intros ->; now destruct i).
    rewrite show_images_pairs by exact Hne.
    assert (Hfi : nth_error (firstn 20 fs) i = Some f)
      by (rewrite nth_error_firstn; destruct (Nat.ltb_spec i 20);
          [exact Hf | lia]).
    assert (Hlen : (i < List.length (firstn 20 fs))%nat)
      by (apply nth_error_Some; now rewrite Hfi).
    destruct (nth_error_pairs
                (fun f => Dreambooth.Update (Some (Dreambooth.name f)) true)
                (fun _ => Dreambooth.Update (Some EmptyString) true)
                (firstn 20 fs) i) as [H0 H1].
    rewrite !nth_error_app1 by (rewrite length_pairs; lia).
    rewrite H0, H1, Hfi. split; reflexivity.
  - intros fs i Hne [Hlo Hhi].
    rewrite show_images_pairs by exact Hne.
    assert (Hall : firstn 20 fs = fs) by (apply firstn_all2; lia).
    rewrite Hall.
    destruct (nth_error_pairs
                (fun _ : nat => Dreambooth.Update None false)
                (fun _ : nat => Dreambooth.Update (Some EmptyString) false)
                (seq 0 (20 - List.length fs)) (i - List.length fs))
      as [H0 H1].
    assert (Hseq : nth_error (seq 0 (20 - List.length fs))
                     (i - List.length fs)
                   = Some (i - List.length fs)%nat).
    { rewrite nth_error_seq.
      destruct (Nat.ltb_spec (i - List.length fs) (20 - List.length fs));
        [reflexivity | lia]. }
    rewrite !nth_error_app2 by (rewrite length_pairs; lia).
    rewrite length_pairs.
    replace (2 * i - 2 * List.length fs)%nat
      with (2 * (i - List.length fs))%nat by lia.
    replace (2 * i + 1 - 2 * List.length fs)%nat
      with (2 * (i - List.length fs) + 1)%nat by lia.
    rewrite H0, H1, Hseq. split; reflexivity.
  - intros fs Hne.
    assert (Hne' : firstn 20 fs <> [])
      by (destruct fs; [contradiction | discriminate]).
    rewrite (show_images_pairs fs Hne), (show_images_pairs _ Hne').
    now rewrite firstn_firstn.
Qed.

Lemma C10_show_images_forty_updates_witness :
  ((1 < 20)%nat
   /\ nth_error [Dreambooth.File "a.png"; Dreambooth.File "b.png"] 1
      = Some (Dreambooth.File "b.png")
   /\ nth_error
        (Dreambooth.show_images
           (Some [Dreambooth.File "a.png"; Dreambooth.File "b.png"])) (2 * 1)
      = Some (Dreambooth.Update (Some "b.png") true)
   /\ nth_error
        (Dreambooth.show_images
           (Some [Dreambooth.File "a.png"; Dreambooth.File "b.png"]))
        (2 * 1 + 1)
      = Some (Dreambooth.Update (Some EmptyString) true))
  /\ ([Dreambooth.File "a.png"; Dreambooth.File "b.png"] <> []
      /\ (List.length [Dreambooth.File "a.png"; Dreambooth.File "b.png"]
          <= 7 < 20)%nat
      /\ nth_error
           (Dreambooth.show_images
              (Some [Dreambooth.File "a.png"; Dreambooth.File "b.png"]))
           (2 * 7)
         = Some (Dreambooth.Update None false)
      /\ nth_error
           (Dreambooth.show_images
              (Some [Dreambooth.File "a.png"; Dreambooth.File "b.png"]))
           (2 * 7 + 1)
         = Some (Dreambooth.Update (Some EmptyString) false))
  /\ (repeat (Dreambooth.File "c.png") 25 <> []
      /\ Dreambooth.show_images (Some (repeat (Dreambooth.File "c.png") 25))
         = Dreambooth.show_images
             (Some (firstn 20 (repeat (Dreambooth.File "c.png") 25)))).
Proof.
  destruct C10_show_images_forty_updates as [_ [_ [_ [Hshown [Hhidden Hcut]]]]].
  split; [| split].
  - split; [lia |]. split; [reflexivity |].
    apply (Hshown [Dreambooth.File "a.png"; Dreambooth.File "b.png"] 1%nat
             (Dreambooth.File "b.png")); [lia | reflexivity].
  - split; [discriminate |]. split; [simpl; lia |].
    apply (Hhidden [Dreambooth.File "a.png"; Dreambooth.File "b.png"] 7%nat);
      [discriminate | simpl; lia].
  - split; [discriminate |].
    apply (Hcut (repeat (Dreambooth.File "c.png") 25)). discriminate.
Defined.

(** * Further properties of the code *)

(** ** The widgets of the Dreambooth tab *)

Lemma add_row_slots (a b : nat) (pairs : list Dreambooth.widget) :
  Dreambooth.add_row pairs a b
  = (pairs ++ flat_map Dreambooth.slot (seq a (b - a)))%list.
Proof.
  unfold Dreambooth.add_row. generalize (seq a (b - a)). intros l.
  revert pairs.
  induction l as [| i l IH]; intros pairs; cbn [fold_left flat_map].
  - now rewrite app_nil_r.
  - rewrite IH. now rewrite <- app_assoc.
Qed.

(** The five rows build what one loop over the 20 slots would. *)
Lemma image_caption_pairs_slots :
  Dreambooth.image_caption_pairs = flat_map Dreambooth.slot (seq 0 20).
Proof.
  unfold Dreambooth.image_caption_pairs. rewrite !add_row_slots.
  cbn [app]. rewrite <- !app_assoc, <- !flat_map_app. reflexivity.
Qed.

(** The second of every two elements, whatever the length. *)
Lemma second_of_pairs_spec {A} (l : list A) :
  Dreambooth.second_of_pairs l = Dreambooth.every_second (tl l).
Proof.
  unfold Dreambooth.second_of_pairs.
  assert (H : forall n (l : list A), (List.length l <= n)%nat ->
              map snd
                (combine (Dreambooth.every_second l)
                   (Dreambooth.every_second (tl l)))
              = Dreambooth.every_second (tl l)).
  { induction n as [| n IH]; intros l0 Hl.
    - destruct l0; [reflexivity | cbn in Hl; lia].
    - destruct l0 as [| x [| y l1]]; try reflexivity.
      cbn [Dreambooth.every_second tl combine map snd].
      destruct l1 as [| z l2]; [reflexivity |].
      cbn [Dreambooth.every_second tl combine map snd].
      f_equal.
      specialize (IH (z :: l2)). cbn [tl] in IH. apply IH.
      cbn in Hl |- *. lia. }
  apply (H (List.length l)). lia.
Qed.

Lemma second_of_slots (l : list nat) :
  Dreambooth.every_second (tl (flat_map Dreambooth.slot l))
  = map (fun i =>
           Dreambooth.TextboxWidget
             ("Caption " ++ PyString.of_Z (Z.of_nat i + 1)) true false 3 true)
      l.
Proof.
  induction l as [| i l IH]; [reflexivity |].
  cbn [flat_map Dreambooth.slot app tl]. destruct l as [| j l].
  - reflexivity.
  - cbn [flat_map Dreambooth.slot app Dreambooth.every_second map] in *.
    f_equal. exact IH.
Qed.

Lemma show_images_length (files : option (list Dreambooth.file)) :
  List.length (Dreambooth.show_images files) = 40%nat.
Proof.
  destruct files as [[| f0 fs] |]; try reflexivity.
  rewrite show_images_pairs by discriminate.
  rewrite length_app, !length_pairs, length_seq.
  assert (List.length (firstn 20 (f0 :: fs)) <= 20)%nat
    by (rewrite length_firstn; lia).
  lia.
Qed.

Lemma user_sets_exclusive (c : Dreambooth.checkbox) (v : bool)
    (st : Dreambooth.blocks) :
  Dreambooth.transformer_blocks_enabled (Dreambooth.user_sets c v st)
  && Dreambooth.single_blocks_enabled (Dreambooth.user_sets c v st) = false.
Proof. destruct c, v, st as [[|] [|]]; reflexivity. Qed.

Lemma user_session_last (changes : list (Dreambooth.checkbox * bool))
    (c : Dreambooth.checkbox) (v : bool) (st : Dreambooth.blocks) :
  Dreambooth.user_session (changes ++ [(c, v)]) st
  = Dreambooth.user_sets c v (Dreambooth.user_session changes st).
Proof. unfold Dreambooth.user_session. now rewrite fold_left_app. Qed.

(** X1.  [on_start_training] hands every text that the training run
    yields to the page, as it is and in order, each with the debug
    location the tab was built with.  When the run raises, one more
    update follows, made of "Error: " with the text of the exception and
    of "Failed to save debug config", and nothing after it.  The handler
    itself never raises. *)
Theorem X1_training_progress_is_relayed (dir : string)
    (generator : Dreambooth.gen string) :
  Dreambooth.yields (Dreambooth.on_start_training dir generator)
  = (map
       (fun progress =>
          Dreambooth.ProgressUpdate progress (Dreambooth.debug_dir_value dir))
       (Dreambooth.yields generator)
     ++ match Dreambooth.ending generator with
        | Some e =>
            [Dreambooth.ProgressUpdate ("Error: " ++ exn_str e)
               "Failed to save debug config"]
        | None => []
        end)%list
  /\ Dreambooth.ending (Dreambooth.on_start_training dir generator) = None.
Proof.
  induction generator as [| e | progress rest IH];
    cbn [Dreambooth.on_start_training Dreambooth.yields Dreambooth.ending
         map app]; [auto | auto |].
  destruct IH as [IHy IHe]. rewrite IHy. auto.
Qed.

(** X2.  The five rows of the tab put the same 40 widgets into
    [image_caption_pairs] as one loop over the slots 0 to 19 would: for
    each slot a hidden image, then a hidden text box labelled with
    "Caption" and the number of the slot counted from 1.  [show_images]
    returns one update for each of them.  Zipping the two slices of a
    list and taking the second part of each pair gives every second
    element of the list, so the captions handed to the training run are
    the 20 text boxes, in the order of the slots. *)
Theorem X2_caption_boxes_are_every_second_widget :
  Dreambooth.image_caption_pairs = flat_map Dreambooth.slot (seq 0 20)
  /\ (forall files,
         List.length (Dreambooth.show_images files)
         = List.length Dreambooth.image_caption_pairs)
  /\ (forall (A : Type) (l : list A),
         Dreambooth.second_of_pairs l = Dreambooth.every_second (tl l))
  /\ Dreambooth.second_of_pairs Dreambooth.image_caption_pairs
     = map (fun i =>
              Dreambooth.TextboxWidget
                ("Caption " ++ PyString.of_Z (Z.of_nat i + 1)) true false 3
                true)
         (seq 0 20).
Proof.
  split; [apply image_caption_pairs_slots |].
  split.
  { intros files. rewrite show_images_length. reflexivity. }
  split; [intros A l; apply second_of_pairs_spec |].
  rewrite second_of_pairs_spec, image_caption_pairs_slots.
  apply second_of_slots.
Qed.

(** X3.  The tab starts with both check boxes ticked.  After any change
    made by the user, whatever came before, the two are never both
    ticked.  The handler never alters "Enable Transformer Blocks": the
    value the user gives it stands, while a tick of "Enable Single
    Transformer Blocks" stands only when the other box is not ticked.
    Running the handler again on its own result changes nothing. *)
Theorem X3_check_boxes_after_a_change :
  Dreambooth.transformer_blocks_enabled Dreambooth.initial_blocks
  && Dreambooth.single_blocks_enabled Dreambooth.initial_blocks = true
  /\ (forall changes c v st,
         let st' := Dreambooth.user_session (changes ++ [(c, v)]) st in
         Dreambooth.transformer_blocks_enabled st'
         && Dreambooth.single_blocks_enabled st' = false)
  /\ (forall c st,
         Dreambooth.transformer_blocks_enabled (Dreambooth.on_change c st)
         = Dreambooth.transformer_blocks_enabled st)
  /\ (forall v st,
         Dreambooth.get_box Dreambooth.TransformerBox
           (Dreambooth.user_sets Dreambooth.TransformerBox v st) = v)
  /\ (forall v st,
         Dreambooth.get_box Dreambooth.SingleBox
           (Dreambooth.user_sets Dreambooth.SingleBox v st)
         = v && negb (Dreambooth.transformer_blocks_enabled st))
  /\ (forall c c' st,
         Dreambooth.on_change c (Dreambooth.on_change c' st)
         = Dreambooth.on_change c' st).
Proof.
  split; [reflexivity |].
  split.
  { intros changes c v st st'. unfold st'. rewrite user_session_last.
    apply user_sets_exclusive. }
  split; [intros c [[|] [|]]; reflexivity |].
  split; [intros [|] [[|] [|]]; reflexivity |].
  split; [intros [|] [[|] [|]]; reflexivity |].
  intros c c' [[|] [|]]; reflexivity.
Qed.

(** ** [upscale_image] and the runs that return an image *)

(** X4.  [upscale_image] never raises.  When it returns an image, it has
    opened the file and called the upscaler once, with the factor it
    was given, and the image is what the upscaler returned; nothing was
    printed.  When it returns [None], its last two events are the print
    of "Error upscaling image: " with the text of the exception and the
    traceback, and before them it has got no further than the call of
    the upscaler that raised. *)
Theorem X4_upscale_image_never_raises (E : env) (image_path : string)
    (upscale_factor : Z) (t : trace) :
  exists t' r,
    upscale_image E image_path upscale_factor t = (t', inr r)
    /\ match r with
       | Some upscaled =>
           exists image,
             t' = (t ++ [ImageOpen image_path;
                         Upscale image upscale_factor])%list
             /\ upscaler_upscale E t' image upscale_factor = inr upscaled
       | None =>
           exists e d,
             t' = (t ++ d ++ upscale_image_report e)%list
             /\ (d = [] \/ d = [ImageOpen image_path]
                 \/ exists image,
                      d = [ImageOpen image_path; Upscale image upscale_factor]
                      /\ upscaler_upscale E (t ++ d)%list image upscale_factor
                         = inl e)
       end.
Proof. apply upscale_image_outcome. Qed.

Section PlainSuccess.

Variable E : env.

(** What a call of [upscale_image_gradio] that returns an image has
    gone through. *)
Lemma plain_success_inv (input_image : option string)
    (upscale_factor : pyval) (output_format : string) (metadata : bool)
    (t t' : trace) (img : image) (message : string) :
  runs
    (upscale_image_gradio E input_image upscale_factor output_format metadata)
    t t' (Some img, message) ->
  exists p orig f image ts sidecar,
    let start :=
      [ImageOpen p;
       Print ("Upscaling image with factor " ++ PyString.of_Z f ++ "x");
       ImageOpen p; Upscale image f] in
    let stem := upscaled_stem f ts in
    let output_path :=
      PyPath.join (OUTPUT_DIR E)
        (stem ++ "." ++ fst (format_kwargs output_format)) in
    let kw := snd (format_kwargs output_format) in
    given input_image = Some p
    /\ image_open E (t ++ [ImageOpen p])%list p = inr orig
    /\ resolve_factor upscale_factor = inr f
    /\ supported_factor f = true
    /\ upscale_image E p f
         (t ++ [ImageOpen p;
                Print ("Upscaling image with factor " ++ PyString.of_Z f
                       ++ "x")])%list
       = ((t ++ start)%list, inr (Some img))
    /\ upscaler_upscale E (t ++ start)%list image f = inr img
    /\ PyFloat.to_int (time_time E (t ++ start)%list) = inr ts
    /\ image_save E (t ++ start ++ [Save img output_path kw])%list img
         output_path kw = None
    /\ t' = (t ++ start ++ [Save img output_path kw] ++ sidecar
             ++ [Print ("Upscaled image saved to " ++ output_path);
                 GcCollect; ForceMlxCleanup])%list
    /\ (if metadata then
          exists original ctime,
            sidecar
            = [ImageOpen p;
               JsonDump (PyPath.join (OUTPUT_DIR E) (stem ++ ".json"))
                 (plain_metadata original img f output_format ctime p)]
        else sidecar = [])
    /\ message
       = "Successfully upscaled image " ++ PyString.of_Z f ++ "x to "
         ++ PyString.of_Z (width img) ++ "x" ++ PyString.of_Z (height img).
Proof.
  intros H. unfold upscale_image_gradio in H.
  apply runs_cleanup_inv in H. destruct H as [tb [H ->]].
  apply runs_try_except_inv in H. destruct H as [H | [t1 [e [_ H]]]].
  2: { run_step H as t2 u2 Hev. run_step H as t3 u3 Hev'.
       apply runs_ret_inv in H. destruct H as [_ H]. discriminate H. }
  unfold upscale_image_gradio_body in H.
  destruct (given input_image) as [p |] eqn:Hp;
    [| apply runs_ret_inv in H; destruct H as [_ H]; discriminate H].
  run_step H as t1 orig Hopen. unfold open_image in Hopen.
  run_step Hopen as t0 u0 Hev. apply runs_emit_inv in Hev. subst t0.
  apply runs_ask_inv in Hopen. destruct Hopen as [-> Hopen].
  run_step H as t2 f Hf. apply runs_lift_inv in Hf. destruct Hf as [-> Hf].
  destruct (supported_factor f) eqn:Hsup; cbn [negb] in H;
    [| apply runs_ret_inv in H; destruct H as [_ H]; discriminate H].
  run_step H as t3 u3 Hev. apply runs_emit_inv in Hev. subst t3.
  run_step H as t4 upscaled Hup.
  destruct upscaled as [upscaled |];
    [| apply runs_ret_inv in H; destruct H as [_ H]; discriminate H].
  pose proof Hup as Hrun.
  apply upscale_image_success in Hup.
  destruct Hup as [opened [image [_ [_ [Hup ->]]]]].
  run_step H as t5 ts Hts. unfold unix_time in Hts.
  run_step Hts as t6 now Hnow. apply runs_ask_val_inv in Hnow.
  destruct Hnow as [-> ->]. apply runs_lift_inv in Hts.
  destruct Hts as [-> Hts].
  destruct (format_kwargs output_format) as [ext kw] eqn:Hfmt.
  run_step H as t7 u7 Hsave. unfold save_image in Hsave.
  run_step Hsave as t8 u8 Hev. apply runs_emit_inv in Hev. subst t8.
  apply runs_ask_ok_inv in Hsave. destruct Hsave as [-> Hsave].
  run_step H as t9 u9 Hmeta.
  run_step H as t10 u10 Hev. apply runs_emit_inv in Hev. subst t10.
  apply runs_ret_inv in H. destruct H as [-> [= <- ->]].
  unfold runs in Hrun.
  repeat (rewrite <- app_assoc in Hsave; cbn [app] in Hsave).
  repeat (rewrite <- app_assoc in Hup; cbn [app] in Hup).
  repeat (rewrite <- app_assoc in Hts; cbn [app] in Hts).
  repeat (rewrite <- app_assoc in Hrun; cbn [app] in Hrun).
  destruct metadata.
  - run_step Hmeta as t11 original Hre. unfold open_image in Hre.
    run_step Hre as t12 u12 Hev. apply runs_emit_inv in Hev. subst t12.
    apply runs_ask_inv in Hre. destruct Hre as [-> _].
    run_step Hmeta as t13 ctime Hct. apply runs_ask_val_inv in Hct.
    destruct Hct as [-> _].
    unfold dump_json in Hmeta.
    run_step Hmeta as t14 u14 Hev. apply runs_emit_inv in Hev. subst t14.
    apply runs_ask_ok_inv in Hmeta. destruct Hmeta as [-> _].
    exists p, orig, f, image, ts,
      [ImageOpen p;
       JsonDump (PyPath.join (OUTPUT_DIR E) (upscaled_stem f ts ++ ".json"))
         (plain_metadata original img f output_format ctime p)].
    cbv zeta. cbn [fst snd app].
    do 8 (split; [assumption || reflexivity |]).
    split; [| split; [exists original, ctime; reflexivity | reflexivity]].
    rewrite <- !app_assoc. reflexivity.
  - apply runs_ret_inv in Hmeta. destruct Hmeta as [-> _].
    exists p, orig, f, image, ts, []. cbv zeta. cbn [fst snd app].
    do 8 (split; [assumption || reflexivity |]).
    split; [| split; reflexivity].
    rewrite <- !app_assoc. reflexivity.
Qed.

(** X5.  A call of [upscale_image_gradio] that returns an image has
    done exactly this, in this order: it opened the input, printed the
    factor, let [upscale_image] open the input again and call the
    upscaler with the resolved factor, which is 2, 3 or 4, saved the
    image the upscaler returned under "upscaled_", the factor, "x_", the
    time and the extension, with metadata opened the input a third time
    and wrote the metadata next to the image under the same name with
    the extension json, printed where the image was saved and ran the
    cleanup.  The image returned is the one saved, and the message names
    the factor and the size of that image. *)
Theorem X5_plain_success (input_image : option string)
    (upscale_factor : pyval) (output_format : string) (metadata : bool)
    (t t' : trace) (img : image) (message : string) :
  runs
    (upscale_image_gradio E input_image upscale_factor output_format metadata)
    t t' (Some img, message) ->
  exists p f image ts sidecar,
    let start :=
      [ImageOpen p;
       Print ("Upscaling image with factor " ++ PyString.of_Z f ++ "x");
       ImageOpen p; Upscale image f] in
    let stem := upscaled_stem f ts in
    let output_path :=
      PyPath.join (OUTPUT_DIR E)
        (stem ++ "." ++ fst (format_kwargs output_format)) in
    given input_image = Some p
    /\ resolve_factor upscale_factor = inr f
    /\ supported f
    /\ upscaler_upscale E (t ++ start)%list image f = inr img
    /\ PyFloat.to_int (time_time E (t ++ start)%list) = inr ts
    /\ t' = (t ++ start
             ++ [Save img output_path (snd (format_kwargs output_format))]
             ++ sidecar
             ++ [Print ("Upscaled image saved to " ++ output_path);
                 GcCollect; ForceMlxCleanup])%list
    /\ (if metadata then
          exists original ctime,
            sidecar
            = [ImageOpen p;
               JsonDump (PyPath.join (OUTPUT_DIR E) (stem ++ ".json"))
                 (plain_metadata original img f output_format ctime p)]
        else sidecar = [])
    /\ message
       = "Successfully upscaled image " ++ PyString.of_Z f ++ "x to "
         ++ PyString.of_Z (width img) ++ "x" ++ PyString.of_Z (height img).
Proof.
  intros H. apply plain_success_inv in H.
  destruct H as [p [orig [f [image [ts [sidecar H]]]]]]. cbv zeta in H.
  destruct H as [Hp [_ [Hf [Hsup [_ [Hup [Hts [_ [Ht [Hside Hmsg]]]]]]]]]].
  exists p, f, image, ts, sidecar. cbv zeta.
  apply supported_factor_spec in Hsup. auto 10.
Qed.

End PlainSuccess.

Lemma X5_plain_success_witness :
  runs
    (upscale_image_gradio Sample.world (Some "a.png") (PyStr "2x") "JPEG"
       true)
    [] Sample.plain_trace
    (Some (Image 200 200 []), "Successfully upscaled image 2x to 200x200")
  /\ exists p f,
       given (Some "a.png") = Some p
       /\ resolve_factor (PyStr "2x") = inr f
       /\ supported f.
Proof.
  assert (Hrun :
            runs
              (upscale_image_gradio Sample.world (Some "a.png") (PyStr "2x")
                 "JPEG" true)
              [] Sample.plain_trace
              (Some (Image 200 200 []),
               "Successfully upscaled image 2x to 200x200"))
    by (vm_compute; reflexivity).
  split; [exact Hrun |].
  destruct (X5_plain_success Sample.world (Some "a.png") (PyStr "2x") "JPEG"
              true [] Sample.plain_trace (Image 200 200 [])
              "Successfully upscaled image 2x to 200x200" Hrun)
    as [p [f [image [ts [sidecar H]]]]].
  cbv zeta in H. destruct H as [Hp [Hf [Hsup _]]].
  exists p, f. auto.
Defined.

(** ** How often a call reaches the upscaler and the disk *)

Section AtMost.

Context {A B : Type}.
Variable f : event -> bool.

Lemma at_most_quiet (m : M A) :
  emits (fun ev => f ev = false) m -> at_most f 0 m.
Proof.
  intros Hm t. destruct (Hm t) as [d [Ht Hd]]. exists d.
  split; [exact Ht |]. now rewrite (count_none f d Hd).
Qed.

Lemma at_most_weaken (n n' : nat) (m : M A) :
  (n <= n')%nat -> at_most f n m -> at_most f n' m.
Proof.
  intros Hn Hm t. destruct (Hm t) as [d [Ht Hd]]. exists d.
  split; [exact Ht | lia].
Qed.

Lemma at_most_bind (a b : nat) (m : M A) (k : A -> M B) :
  at_most f a m -> (forall x, at_most f b (k x)) ->
  at_most f (a + b) (bind m k).
Proof.
  intros Hm Hk t. unfold bind.
  destruct (Hm t) as [d [Ht Hd]].
  destruct (m t) as [t' [e | x]]; cbn [fst] in Ht; subst t'.
  - exists d. split; [reflexivity | lia].
  - destruct (Hk x (t ++ d)%list) as [d' [Ht' Hd']].
    exists (d ++ d')%list. rewrite Ht', app_assoc, count_app.
    split; [reflexivity | lia].
Qed.

Lemma at_most_try_except (a b : nat) (m : M A) (h : exn -> M A) :
  at_most f a m -> (forall e, at_most f b (h e)) ->
  at_most f (a + b) (try_except m h).
Proof.
  intros Hm Hh t. unfold try_except.
  destruct (Hm t) as [d [Ht Hd]].
  destruct (m t) as [t' [e | x]]; cbn [fst] in Ht; subst t'.
  - destruct (Hh e (t ++ d)%list) as [d' [Ht' Hd']].
    exists (d ++ d')%list. rewrite Ht', app_assoc, count_app.
    split; [reflexivity | lia].
  - exists d. split; [reflexivity | lia].
Qed.

Lemma at_most_cleanup (n : nat) (m : M A) :
  f GcCollect = false -> f ForceMlxCleanup = false ->
  at_most f n m -> at_most f n (try_finally m cleanup).
Proof.
  intros Hg Hc Hm t. rewrite try_finally_cleanup.
  destruct (Hm t) as [d [Ht Hd]]. cbn [fst].
  exists (d ++ [GcCollect; ForceMlxCleanup])%list.
  rewrite Ht, <- app_assoc, count_app. split; [reflexivity |].
  unfold count at 2. cbn [filter]. rewrite Hg, Hc. cbn [List.length]. lia.
Qed.

End AtMost.

Lemma at_most_emit (f : event -> bool) (ev : event) : at_most f 1 (emit ev).
Proof.
  intros t. exists [ev]. split; [reflexivity |].
  unfold count. cbn [filter]. destruct (f ev); cbn [List.length]; lia.
Qed.

(** Settles [at_most f 0 m] for a computation none of whose events is
    selected by [f]. *)
Ltac quiet :=
  apply at_most_quiet;
  unfold open_image, unix_time, save_image, dump_json, fit_to_target,
    upscale_image;
  emits_auto; reflexivity.

Section Counts.

Variable E : env.
Variable parse_scale_factor : pyval -> Z -> res Z.

Lemma upscale_image_one_call (p : string) (factor : Z) :
  at_most is_upscale 1 (upscale_image E p factor).
Proof.
  unfold upscale_image.
  apply (at_most_try_except _ 1 0); [| intros e; quiet].
  apply (at_most_bind _ 0 1); [quiet | intros _].
  apply (at_most_bind _ 0 1); [quiet | intros _].
  apply (at_most_bind _ 0 1); [quiet | intros opened].
  apply (at_most_bind _ 0 1); [quiet | intros image].
  apply (at_most_bind _ 0 1); [quiet | intros _].
  apply (at_most_bind _ 1 0); [apply at_most_emit | intros _].
  quiet.
Qed.

Lemma plain_one_upscale input_image upscale_factor output_format metadata :
  at_most is_upscale 1
    (upscale_image_gradio E input_image upscale_factor output_format
       metadata).
Proof.
  unfold upscale_image_gradio.
  apply at_most_cleanup; [reflexivity | reflexivity |].
  apply (at_most_try_except _ 1 0); [| intros e; quiet].
  unfold upscale_image_gradio_body.
  destruct (given input_image) as [p |];
    [| apply (at_most_weaken _ 0 1); [lia | quiet]].
  apply (at_most_bind _ 0 1); [quiet | intros orig].
  apply (at_most_bind _ 0 1); [quiet | intros factor].
  destruct (negb (supported_factor factor));
    [apply (at_most_weaken _ 0 1); [lia | quiet] |].
  apply (at_most_bind _ 0 1); [quiet | intros _].
  apply (at_most_bind _ 1 0); [apply upscale_image_one_call | intros up].
  quiet.
Qed.

Lemma plain_one_save input_image upscale_factor output_format metadata :
  at_most is_save 1
    (upscale_image_gradio E input_image upscale_factor output_format
       metadata).
Proof.
  unfold upscale_image_gradio.
  apply at_most_cleanup; [reflexivity | reflexivity |].
  apply (at_most_try_except _ 1 0); [| intros e; quiet].
  unfold upscale_image_gradio_body.
  destruct (given input_image) as [p |];
    [| apply (at_most_weaken _ 0 1); [lia | quiet]].
  apply (at_most_bind _ 0 1); [quiet | intros orig].
  apply (at_most_bind _ 0 1); [quiet | intros factor].
  destruct (negb (supported_factor factor));
    [apply (at_most_weaken _ 0 1); [lia | quiet] |].
  apply (at_most_bind _ 0 1); [quiet | intros _].
  apply (at_most_bind _ 0 1); [quiet | intros up].
  destruct up as [upscaled |];
    [| apply (at_most_weaken _ 0 1); [lia | quiet]].
  apply (at_most_bind _ 0 1); [quiet | intros ts].
  destruct (format_kwargs output_format) as [ext kw].
  apply (at_most_bind _ 1 0); [| intros _; quiet].
  unfold save_image.
  apply (at_most_bind _ 1 0); [apply at_most_emit | intros _; quiet].
Qed.

Lemma custom_one_upscale input_image target_width target_height
    output_format metadata :
  at_most is_upscale 1
    (upscale_with_custom_dimensions_gradio E parse_scale_factor input_image
       target_width target_height output_format metadata).
Proof.
  unfold upscale_with_custom_dimensions_gradio.
  apply at_most_cleanup; [reflexivity | reflexivity |].
  apply (at_most_try_except _ 1 0); [| intros e; quiet].
  unfold upscale_with_custom_dimensions_gradio_body.
  destruct (given input_image) as [p |];
    [| apply (at_most_weaken _ 0 1); [lia | quiet]].
  apply (at_most_bind _ 0 1); [quiet | intros orig].
  apply (at_most_bind _ 0 1); [quiet | intros fw].
  apply (at_most_bind _ 0 1); [quiet | intros fh].
  apply (at_most_bind _ 0 1); [quiet | intros es].
  apply (at_most_bind _ 0 1); [quiet | intros _].
  apply (at_most_bind _ 1 0); [apply upscale_image_one_call | intros up].
  quiet.
Qed.

Lemma custom_one_save input_image target_width target_height
    output_format metadata :
  at_most is_save 1
    (upscale_with_custom_dimensions_gradio E parse_scale_factor input_image
       target_width target_height output_format metadata).
Proof.
  unfold upscale_with_custom_dimensions_gradio.
  apply at_most_cleanup; [reflexivity | reflexivity |].
  apply (at_most_try_except _ 1 0); [| intros e; quiet].
  unfold upscale_with_custom_dimensions_gradio_body.
  destruct (given input_image) as [p |];
    [| apply (at_most_weaken _ 0 1); [lia | quiet]].
  apply (at_most_bind _ 0 1); [quiet | intros orig].
  apply (at_most_bind _ 0 1); [quiet | intros fw].
  apply (at_most_bind _ 0 1); [quiet | intros fh].
  apply (at_most_bind _ 0 1); [quiet | intros es].
  apply (at_most_bind _ 0 1); [quiet | intros _].
  apply (at_most_bind _ 0 1); [quiet | intros up].
  destruct up as [upscaled |];
    [| apply (at_most_weaken _ 0 1); [lia | quiet]].
  apply (at_most_bind _ 0 1); [quiet | intros fitted].
  apply (at_most_bind _ 0 1); [quiet | intros ts].
  destruct (format_kwargs output_format) as [ext kw].
  apply (at_most_bind _ 1 0); [| intros _; quiet].
  unfold save_image.
  apply (at_most_bind _ 1 0); [apply at_most_emit | intros _; quiet].
Qed.

(** The batch: what holds of every item holds of the loop, once for
    each item. *)
Lemma batch_loop_at_most (f : event -> bool) upscale_factor output_format
    metadata (items : list (option string)) :
  (forall s, f (Print s) = false) ->
  (forall item,
      at_most f 1
        (upscale_image_gradio E item upscale_factor output_format metadata)) ->
  forall total idx upscaled_images errors,
    at_most f (List.length items)
      (batch_loop E total idx items upscale_factor output_format metadata
         upscaled_images errors).
Proof.
  intros Hprint Hitem.
  induction items as [| item rest IH]; intros; cbn [batch_loop List.length].
  - apply at_most_quiet. apply emits_ret.
  - apply (at_most_bind _ 1 (List.length rest)); [| intros lists; apply IH].
    apply (at_most_try_except _ 1 0);
      [| intros e; apply at_most_quiet, emits_ret].
    apply (at_most_bind _ 0 1);
      [apply at_most_quiet, emits_emit, Hprint | intros _].
    apply (at_most_bind _ 1 0); [apply Hitem | intros result].
    apply at_most_quiet. destruct (fst result); apply emits_ret.
Qed.

Lemma batch_at_most (f : event -> bool) input_images upscale_factor
    output_format metadata :
  (forall s, f (Print s) = false) -> f PrintExc = false ->
  (forall item,
      at_most f 1
        (upscale_image_gradio E item upscale_factor output_format metadata)) ->
  at_most f
    (match input_images with Some items => List.length items | None => 0 end)
    (batch_upscale_gradio E input_images upscale_factor output_format
       metadata).
Proof.
  intros Hprint Hexc Hitem. unfold batch_upscale_gradio.
  assert (Hh : forall e,
             at_most f 0
               (emit (Print ("Error in batch upscaling: " ++ exn_str e)) ;;;
                emit PrintExc ;;;
                ret (@nil image, "Error: " ++ exn_str e)))
    by (intros e; apply at_most_quiet; emits_auto;
        [apply Hprint | exact Hexc]).
  destruct input_images as [[| item rest] |].
  - apply (at_most_try_except _ 0 0); [| exact Hh].
    apply at_most_quiet, emits_ret.
  - apply (at_most_weaken _ (List.length (item :: rest) + 0 + 0));
      [lia |].
    apply at_most_try_except; [| exact Hh].
    apply at_most_bind;
      [apply batch_loop_at_most; assumption
      | intros lists; apply at_most_quiet, emits_ret].
  - apply (at_most_try_except _ 0 0); [| exact Hh].
    apply at_most_quiet, emits_ret.
Qed.

End Counts.

Section Sidecar.

Variable E : env.
Variable parse_scale_factor : pyval -> Z -> res Z.

Lemma plain_one_sidecar input_image upscale_factor output_format
    (metadata : bool) :
  at_most is_json_dump (if metadata then 1 else 0)%nat
    (upscale_image_gradio E input_image upscale_factor output_format
       metadata).
Proof.
  unfold upscale_image_gradio.
  apply at_most_cleanup; [reflexivity | reflexivity |].
  destruct metadata.
  - apply (at_most_try_except _ 1 0); [| intros e; quiet].
    unfold upscale_image_gradio_body.
    destruct (given input_image) as [p |];
      [| apply (at_most_weaken _ 0 1); [lia | quiet]].
    apply (at_most_bind _ 0 1); [quiet | intros orig].
    apply (at_most_bind _ 0 1); [quiet | intros factor].
    destruct (negb (supported_factor factor));
      [apply (at_most_weaken _ 0 1); [lia | quiet] |].
    apply (at_most_bind _ 0 1); [quiet | intros _].
    apply (at_most_bind _ 0 1); [quiet | intros up].
    destruct up as [upscaled |];
      [| apply (at_most_weaken _ 0 1); [lia | quiet]].
    apply (at_most_bind _ 0 1); [quiet | intros ts].
    destruct (format_kwargs output_format) as [ext kw].
    apply (at_most_bind _ 0 1); [quiet | intros _].
    apply (at_most_bind _ 1 0); [| intros _; quiet].
    apply (at_most_bind _ 0 1); [quiet | intros original].
    apply (at_most_bind _ 0 1); [quiet | intros ctime].
    unfold dump_json.
    apply (at_most_bind _ 1 0); [apply at_most_emit | intros _; quiet].
  - apply (at_most_try_except _ 0 0); [| intros e; quiet].
    unfold upscale_image_gradio_body.
    destruct (given input_image) as [p |]; [| quiet].
    apply (at_most_bind _ 0 0); [quiet | intros orig].
    apply (at_most_bind _ 0 0); [quiet | intros factor].
    destruct (negb (supported_factor factor)); [quiet |].
    apply (at_most_bind _ 0 0); [quiet | intros _].
    apply (at_most_bind _ 0 0); [quiet | intros up].
    destruct up as [upscaled |]; [| quiet].
    apply (at_most_bind _ 0 0); [quiet | intros ts].
    destruct (format_kwargs output_format) as [ext kw].
    apply (at_most_bind _ 0 0); [quiet | intros _].
    apply (at_most_bind _ 0 0); [quiet | intros _; quiet].
Qed.

Lemma custom_one_sidecar input_image target_width target_height
    output_format (metadata : bool) :
  at_most is_json_dump (if metadata then 1 else 0)%nat
    (upscale_with_custom_dimensions_gradio E parse_scale_factor input_image
       target_width target_height output_format metadata).
Proof.
  unfold upscale_with_custom_dimensions_gradio.
  apply at_most_cleanup; [reflexivity | reflexivity |].
  destruct metadata.
  - apply (at_most_try_except _ 1 0); [| intros e; quiet].
    unfold upscale_with_custom_dimensions_gradio_body.
    destruct (given input_image) as [p |];
      [| apply (at_most_weaken _ 0 1); [lia | quiet]].
    apply (at_most_bind _ 0 1); [quiet | intros orig].
    apply (at_most_bind _ 0 1); [quiet | intros fw].
    apply (at_most_bind _ 0 1); [quiet | intros fh].
    apply (at_most_bind _ 0 1); [quiet | intros es].
    apply (at_most_bind _ 0 1); [quiet | intros _].
    apply (at_most_bind _ 0 1); [quiet | intros up].
    destruct up as [upscaled |];
      [| apply (at_most_weaken _ 0 1); [lia | quiet]].
    apply (at_most_bind _ 0 1); [quiet | intros fitted].
    apply (at_most_bind _ 0 1); [quiet | intros ts].
    destruct (format_kwargs output_format) as [ext kw].
    apply (at_most_bind _ 0 1); [quiet | intros _].
    apply (at_most_bind _ 1 0); [| intros _; quiet].
    apply (at_most_bind _ 0 1); [quiet | intros ctime].
    unfold dump_json.
    apply (at_most_bind _ 1 0); [apply at_most_emit | intros _; quiet].
  - apply (at_most_try_except _ 0 0); [| intros e; quiet].
    unfold upscale_with_custom_dimensions_gradio_body.
    destruct (given input_image) as [p |]; [| quiet].
    apply (at_most_bind _ 0 0); [quiet | intros orig].
    apply (at_most_bind _ 0 0); [quiet | intros fw].
    apply (at_most_bind _ 0 0); [quiet | intros fh].
    apply (at_most_bind _ 0 0); [quiet | intros es].
    apply (at_most_bind _ 0 0); [quiet | intros _].
    apply (at_most_bind _ 0 0); [quiet | intros up].
    destruct up as [upscaled |]; [| quiet].
    apply (at_most_bind _ 0 0); [quiet | intros fitted].
    apply (at_most_bind _ 0 0); [quiet | intros ts].
    destruct (format_kwargs output_format) as [ext kw].
    apply (at_most_bind _ 0 0); [quiet | intros _].
    apply (at_most_bind _ 0 0); [quiet | intros _; quiet].
Qed.

End Sidecar.

(** ** Runs that end in an error *)

Section Forward.

Variable E : env.

(** X6.  When [upscale_image] fails inside [upscale_image_gradio], the
    call returns [None] with "Error: Failed to upscale image" whatever
    the cause was: the text of the exception is printed by
    [upscale_image] and is no part of the result.  Nothing is saved, and
    the cleanup runs. *)
Theorem X6_upscaler_failure_is_reported_without_cause (p : string)
    (upscale_factor : pyval) (output_format : string) (metadata : bool)
    (t t2 : trace) (orig : image) (f : Z) :
  PyString.truthy p = true ->
  image_open E (t ++ [ImageOpen p])%list p = inr orig ->
  resolve_factor upscale_factor = inr f ->
  supported f ->
  upscale_image E p f
    (t ++ [ImageOpen p;
           Print ("Upscaling image with factor " ++ PyString.of_Z f ++ "x")])%list
  = (t2, inr None) ->
  upscale_image_gradio E (Some p) upscale_factor output_format metadata t
  = ((t2 ++ [GcCollect; ForceMlxCleanup])%list,
     inr (None, "Error: Failed to upscale image"))
  /\ exists e d,
       t2 = ((t ++ [ImageOpen p;
                    Print ("Upscaling image with factor " ++ PyString.of_Z f
                           ++ "x")])
             ++ d ++ upscale_image_report e)%list
       /\ Forall (fun ev => is_save ev = false) d.
Proof.
  intros Hp Hopen Hres Hsup Hup. split.
  - apply supported_factor_spec in Hsup.
    unfold upscale_image_gradio, upscale_image_gradio_body.
    rewrite (given_Some p Hp).
    rewrite (guarded_step _ _ _ _ _ _ _ (runs_open_image E p t orig Hopen)).
    rewrite (guarded_step _ _ _ _ _ _ _ (runs_lift _ f _ Hres)).
    rewrite Hsup. cbn [negb].
    rewrite (guarded_step _ _ _ _ _ _ _ (runs_emit _ _)).
    rewrite <- app_assoc. cbn [app].
    rewrite (guarded_step _ _ _ _ _ _ _ Hup).
    apply guarded_ret.
  - destruct (upscale_image_outcome E p f
                (t ++ [ImageOpen p;
                       Print ("Upscaling image with factor "
                              ++ PyString.of_Z f ++ "x")])%list)
      as [t' [r [Hrun Hr]]].
    rewrite Hup in Hrun. injection Hrun as <- <-.
    destruct Hr as [e [d [Ht Hd]]]. exists e, d. split; [exact Ht |].
    destruct Hd as [-> | [-> | [image [-> _]]]]; repeat constructor.
Qed.

(** X7.  A result that reports an error does not mean that no file was
    written.  Take a call of [upscale_image_gradio] without metadata
    that returns an image.  The same call with metadata saves the same
    image under the same name and then, when the input can not be opened
    once more or the metadata can not be written, returns [None] with
    "Error: " and the text of that exception. *)
Theorem X7_metadata_failure_after_save (input_image : option string)
    (upscale_factor : pyval) (output_format : string) (t t' : trace)
    (img : image) (message : string) :
  runs
    (upscale_image_gradio E input_image upscale_factor output_format false)
    t t' (Some img, message) ->
  exists p f ts d,
    let output_path :=
      PyPath.join (OUTPUT_DIR E)
        (upscaled_stem f ts ++ "." ++ fst (format_kwargs output_format)) in
    let saved :=
      (t ++ d ++ [Save img output_path (snd (format_kwargs output_format))])%list
    in
    given input_image = Some p
    /\ t' = (saved ++ [Print ("Upscaled image saved to " ++ output_path);
                       GcCollect; ForceMlxCleanup])%list
    /\ (forall e,
           image_open E (saved ++ [ImageOpen p])%list p = inl e ->
           upscale_image_gradio E input_image upscale_factor output_format
             true t
           = ((saved ++ [ImageOpen p;
                         Print ("Error in upscaling: " ++ exn_str e);
                         PrintExc; GcCollect; ForceMlxCleanup])%list,
              inr (None, "Error: " ++ exn_str e)))
    /\ (forall original e,
           let metadata_path :=
             PyPath.join (OUTPUT_DIR E) (upscaled_stem f ts ++ ".json") in
           let metadata_dict :=
             plain_metadata original img f output_format
               (time_ctime E (saved ++ [ImageOpen p])%list) p in
           image_open E (saved ++ [ImageOpen p])%list p = inr original ->
           json_dump E
             (saved ++ [ImageOpen p; JsonDump metadata_path metadata_dict])%list
             metadata_path metadata_dict = Some e ->
           upscale_image_gradio E input_image upscale_factor output_format
             true t
           = ((saved ++ [ImageOpen p; JsonDump metadata_path metadata_dict;
                         Print ("Error in upscaling: " ++ exn_str e);
                         PrintExc; GcCollect; ForceMlxCleanup])%list,
              inr (None, "Error: " ++ exn_str e))).
Proof.
  intros H. apply plain_success_inv in H.
  destruct H as [p [orig [f [image [ts [sidecar H]]]]]]. cbv zeta in H.
  destruct H as [Hp [Hopen [Hf [Hsup [Hup [_ [Hts [Hsave [Ht [-> _]]]]]]]]]].
  exists p, f, ts,
    [ImageOpen p;
     Print ("Upscaling image with factor " ++ PyString.of_Z f ++ "x");
     ImageOpen p; Upscale image f].
  cbv zeta.
  split; [exact Hp |].
  split; [rewrite Ht; cbn [app]; now rewrite <- !app_assoc |].
  assert (Hstart :
            forall metadata,
              upscale_image_gradio E input_image upscale_factor output_format
                metadata t
              = try_finally
                  (try_except
                     ((if metadata then
                         original_image <- open_image E p ;;
                         ctime <- ask_val (time_ctime E) ;;
                         dump_json E
                           (PyPath.join (OUTPUT_DIR E)
                              (upscaled_stem f ts ++ ".json"))
                           (plain_metadata original_image img f output_format
                              ctime p)
                       else ret tt) ;;;
                      emit (Print ("Upscaled image saved to "
                                   ++ PyPath.join (OUTPUT_DIR E)
                                        (upscaled_stem f ts ++ "."
                                         ++ fst (format_kwargs output_format)))) ;;;
                      ret (Some img,
                           "Successfully upscaled image "
                           ++ PyString.of_Z f ++ "x to "
                           ++ PyString.of_Z (width img) ++ "x"
                           ++ PyString.of_Z (height img)))
                     (fun e =>
                        emit (Print ("Error in upscaling: " ++ exn_str e)) ;;;
                        emit PrintExc ;;;
                        ret (None, "Error: " ++ exn_str e)))
                  cleanup
                  ((t ++ [ImageOpen p;
                          Print ("Upscaling image with factor "
                                 ++ PyString.of_Z f ++ "x");
                          ImageOpen p; Upscale image f])
                   ++ [Save img
                         (PyPath.join (OUTPUT_DIR E)
                            (upscaled_stem f ts ++ "."
                             ++ fst (format_kwargs output_format)))
                         (snd (format_kwargs output_format))])%list).
  { intros metadata.
    unfold upscale_image_gradio, upscale_image_gradio_body.
    rewrite Hp.
    rewrite (guarded_step _ _ _ _ _ _ _ (runs_open_image E p t orig Hopen)).
    rewrite (guarded_step _ _ _ _ _ _ _ (runs_lift _ f _ Hf)).
    rewrite Hsup. cbn [negb].
    rewrite (guarded_step _ _ _ _ _ _ _ (runs_emit _ _)).
    rewrite <- app_assoc. cbn [app].
    rewrite (guarded_step _ _ _ _ _ _ _ Hup).
    rewrite (guarded_step _ _ _ _ _ _ _ (runs_unix_time E _ ts Hts)).
    destruct (format_kwargs output_format) as [ext kw]. cbn [fst snd] in *.
    rewrite (guarded_step _ _ _ _ _ _ _
               (runs_save_image E img _ kw _
                  ltac:(rewrite <- app_assoc; exact Hsave))).
    reflexivity. }
  split.
  - intros e He. rewrite Hstart. cbv iota.
    rewrite app_assoc in He. apply raises_open_image in He.
    rewrite (guarded_raise _ _ _ _ _ _ _ (bind_raise _ _ _ _ _ He)).
    rewrite handler_run.
    repeat (rewrite <- app_assoc; cbn [app]). reflexivity.
  - intros original e Hre Hdump. rewrite Hstart. cbv iota.
    rewrite app_assoc in Hre, Hdump. apply runs_open_image in Hre.
    rewrite (app_two _ (ImageOpen p)) in Hdump.
    apply raises_dump_json in Hdump.
    erewrite guarded_raise;
      [| rewrite (bind_step _ _ _ _ _ Hre);
         rewrite (bind_step _ _ _ _ _
                    (eq_refl : runs (ask_val (time_ctime E)) _ _ _));
         exact Hdump].
    rewrite handler_run.
    repeat (rewrite <- app_assoc; cbn [app]). reflexivity.
Qed.

End Forward.

Lemma X6_upscaler_failure_is_reported_without_cause_witness :
  PyString.truthy "a.png" = true
  /\ image_open Sample.no_upscaler_world [ImageOpen "a.png"] "a.png"
     = inr (Image 100 100 [])
  /\ resolve_factor (PyInt 2) = inr 2
  /\ supported 2
  /\ upscale_image Sample.no_upscaler_world "a.png" 2
       [ImageOpen "a.png"; Print "Upscaling image with factor 2x"]
     = ([ImageOpen "a.png"; Print "Upscaling image with factor 2x";
         Print "Error upscaling image: No module named 'mflux.upscaler'";
         PrintExc],
        inr None)
  /\ upscale_image_gradio Sample.no_upscaler_world (Some "a.png") (PyInt 2)
       "PNG" false []
     = ([ImageOpen "a.png"; Print "Upscaling image with factor 2x";
         Print "Error upscaling image: No module named 'mflux.upscaler'";
         PrintExc; GcCollect; ForceMlxCleanup],
        inr (None, "Error: Failed to upscale image")).
Proof.
  assert (H2 : supported 2) by (left; reflexivity).
  split; [reflexivity |]. split; [reflexivity |]. split; [reflexivity |].
  split; [exact H2 |]. split; [reflexivity |].
  apply (proj1
           (X6_upscaler_failure_is_reported_without_cause
              Sample.no_upscaler_world "a.png" (PyInt 2) "PNG" false []
              [ImageOpen "a.png"; Print "Upscaling image with factor 2x";
               Print "Error upscaling image: No module named 'mflux.upscaler'";
               PrintExc]
              (Image 100 100 []) 2 eq_refl eq_refl eq_refl H2 eq_refl)).
Defined.

Lemma X7_metadata_failure_after_save_witness :
  runs
    (upscale_image_gradio Sample.vanishing_world (Some "a.png") (PyInt 2)
       "PNG" false)
    [] Sample.saved_trace
    (Some (Image 200 200 []), "Successfully upscaled image 2x to 200x200")
  /\ exists t',
       upscale_image_gradio Sample.vanishing_world (Some "a.png") (PyInt 2)
         "PNG" true []
       = (t', inr (None, "Error: No such file: a.png")).
Proof.
  assert (Hrun :
            runs
              (upscale_image_gradio Sample.vanishing_world (Some "a.png")
                 (PyInt 2) "PNG" false)
              [] Sample.saved_trace
              (Some (Image 200 200 []),
               "Successfully upscaled image 2x to 200x200"))
    by (vm_compute; reflexivity).
  split; [exact Hrun |].
  destruct (X7_metadata_failure_after_save Sample.vanishing_world
              (Some "a.png") (PyInt 2) "PNG" [] Sample.saved_trace
              (Image 200 200 []) "Successfully upscaled image 2x to 200x200"
              Hrun)
    as [p [f [ts [d H]]]].
  cbv zeta in H. destruct H as [Hp [_ [Hgone _]]].
  injection Hp as <-.
  eexists.
  apply (Hgone (Exn OtherException "No such file: a.png")).
  cbn [image_open Sample.vanishing_world app].
  rewrite !existsb_app. cbn [existsb].
  rewrite orb_true_r. reflexivity.
Defined.
Section CustomForward.

Variable E : env.
Variable parse_scale_factor : pyval -> Z -> res Z.

(** A call for custom dimensions up to the answer of [upscale_image]. *)
Lemma custom_to_upscale (p : string) (target_width target_height : pyval)
    (output_format : string) (metadata : bool) (t t2 : trace) (orig : image)
    (fw fh : Z) (es : spec_float) (upscaled : option image) :
  PyString.truthy p = true ->
  image_open E (t ++ [ImageOpen p])%list p = inr orig ->
  parse_scale_factor target_width (width orig) = inr fw ->
  parse_scale_factor target_height (height orig) = inr fh ->
  effective_scale_of fw fh (width orig) (height orig) = inr es ->
  upscale_image E p (nearest_factor es)
    (t ++ [ImageOpen p;
           Print ("Upscaling image with factor "
                  ++ PyString.of_Z (nearest_factor es) ++ "x to target "
                  ++ PyString.of_Z fw ++ "x" ++ PyString.of_Z fh)])%list
  = (t2, inr upscaled) ->
  exists k,
    upscale_with_custom_dimensions_gradio E parse_scale_factor (Some p)
      target_width target_height output_format metadata t
    = try_finally
        (try_except
           (match upscaled with
            | None => ret (None, "Error: Failed to upscale image")
            | Some upscaled_image =>
                fitted <- fit_to_target E upscaled_image fw fh ;; k fitted
            end)
           (fun e =>
              emit (Print ("Error in custom upscaling: " ++ exn_str e)) ;;;
              emit PrintExc ;;;
              ret (None, "Error: " ++ exn_str e)))
        cleanup t2.
Proof.
  intros Hp Hopen Hfw Hfh Hes Hup. eexists.
  unfold upscale_with_custom_dimensions_gradio,
    upscale_with_custom_dimensions_gradio_body.
  rewrite (given_Some p Hp).
  rewrite (guarded_step _ _ _ _ _ _ _ (runs_open_image E p t orig Hopen)).
  cbv zeta.
  rewrite (guarded_step _ _ _ _ _ _ _ (runs_lift _ fw _ Hfw)).
  rewrite (guarded_step _ _ _ _ _ _ _ (runs_lift _ fh _ Hfh)).
  rewrite (guarded_step _ _ _ _ _ _ _ (runs_lift _ es _ Hes)).
  rewrite (guarded_step _ _ _ _ _ _ _ (runs_emit _ _)).
  rewrite <- app_assoc. cbn [app].
  rewrite (guarded_step _ _ _ _ _ _ _ Hup).
  destruct upscaled; reflexivity.
Qed.

(** X8.  [upscale_with_custom_dimensions_gradio] checks a target size
    only after the upscaler has run.  When [parse_scale_factor] resolves
    a target side below one pixel and the upscaler returns an image with
    at least one pixel on each side, the call runs the upscaler, asks
    for the resize, which PIL refuses, and returns [None] with "Error: "
    and the text of PIL's error; nothing is saved.  The error is the
    ValueError "height and width must be > 0" when the two sides are C
    integers.  Otherwise it is the OverflowError of the first side,
    the width before the height, that is no C integer: "signed integer
    is less than minimum" below [- 2 ^ 31], "signed integer is greater
    than maximum" above [2 ^ 31 - 1], and "Python int too large to
    convert to C long" outside 64 bits. *)
Theorem X8_target_below_one_pixel (p : string)
    (target_width target_height : pyval) (output_format : string)
    (metadata : bool) (t t2 : trace) (orig upscaled : image) (fw fh : Z)
    (es : spec_float) :
  PyString.truthy p = true ->
  image_open E (t ++ [ImageOpen p])%list p = inr orig ->
  parse_scale_factor target_width (width orig) = inr fw ->
  parse_scale_factor target_height (height orig) = inr fh ->
  effective_scale_of fw fh (width orig) (height orig) = inr es ->
  upscale_image E p (nearest_factor es)
    (t ++ [ImageOpen p;
           Print ("Upscaling image with factor "
                  ++ PyString.of_Z (nearest_factor es) ++ "x to target "
                  ++ PyString.of_Z fw ++ "x" ++ PyString.of_Z fh)])%list
  = (t2, inr (Some upscaled)) ->
  1 <= width upscaled -> 1 <= height upscaled ->
  fw < 1 \/ fh < 1 ->
  exists e,
    image_resize (resample E) upscaled fw fh = inl e
    /\ upscale_with_custom_dimensions_gradio E parse_scale_factor (Some p)
         target_width target_height output_format metadata t
       = ((t2 ++ [Resize upscaled fw fh;
                  Print ("Error in custom upscaling: " ++ exn_str e);
                  PrintExc; GcCollect; ForceMlxCleanup])%list,
          inr (None, "Error: " ++ exn_str e))
    /\ (- 2 ^ 31 <= fw <= 2 ^ 31 - 1 -> - 2 ^ 31 <= fh <= 2 ^ 31 - 1 ->
        e = Exn ValueError "height and width must be > 0")
    /\ (- 2 ^ 63 <= fw < - 2 ^ 31
        \/ (- 2 ^ 31 <= fw <= 2 ^ 31 - 1 /\ - 2 ^ 63 <= fh < - 2 ^ 31) ->
        e = Exn OverflowError "signed integer is less than minimum")
    /\ (2 ^ 31 - 1 < fw <= 2 ^ 63 - 1
        \/ (- 2 ^ 31 <= fw <= 2 ^ 31 - 1 /\ 2 ^ 31 - 1 < fh <= 2 ^ 63 - 1) ->
        e = Exn OverflowError "signed integer is greater than maximum")
    /\ ((fw < - 2 ^ 63 \/ 2 ^ 63 - 1 < fw)
        \/ (- 2 ^ 31 <= fw <= 2 ^ 31 - 1
            /\ (fh < - 2 ^ 63 \/ 2 ^ 63 - 1 < fh)) ->
        e = Exn OverflowError "Python int too large to convert to C long").
Proof.
  intros Hp Hopen Hfw Hfh Hes Hup Hw Hh Hsmall.
  destruct (image_resize_small (resample E) upscaled fw fh Hsmall)
    as [e [He Hcases]].
  exists e. split; [exact He |]. split; [| exact Hcases].
  destruct (custom_to_upscale p target_width target_height output_format
              metadata t t2 orig fw fh es (Some upscaled)
              Hp Hopen Hfw Hfh Hes Hup) as [k ->].
  assert (Hfit : fit_to_target E upscaled fw fh t2
                 = ((t2 ++ [Resize upscaled fw fh])%list, inl e)).
  { unfold fit_to_target.
    assert (Hne : negb (width upscaled =? fw)
                  || negb (height upscaled =? fh) = true).
    { apply orb_true_iff. rewrite !negb_true_iff, !Z.eqb_neq. lia. }
    rewrite Hne. unfold bind, emit, lift. now rewrite He. }
  rewrite (guarded_raise _ _ _ _ _ _ _ Hfit).
  rewrite handler_run.
  now rewrite <- app_assoc.
Qed.

(** X9.  When [upscale_image] fails inside
    [upscale_with_custom_dimensions_gradio], the call returns [None]
    with "Error: Failed to upscale image" whatever the cause was; the
    text of the exception is printed by [upscale_image] only.  Nothing
    is resized or saved, and the cleanup runs. *)
Theorem X9_custom_upscaler_failure_is_reported_without_cause (p : string)
    (target_width target_height : pyval) (output_format : string)
    (metadata : bool) (t t2 : trace) (orig : image) (fw fh : Z)
    (es : spec_float) :
  PyString.truthy p = true ->
  image_open E (t ++ [ImageOpen p])%list p = inr orig ->
  parse_scale_factor target_width (width orig) = inr fw ->
  parse_scale_factor target_height (height orig) = inr fh ->
  effective_scale_of fw fh (width orig) (height orig) = inr es ->
  upscale_image E p (nearest_factor es)
    (t ++ [ImageOpen p;
           Print ("Upscaling image with factor "
                  ++ PyString.of_Z (nearest_factor es) ++ "x to target "
                  ++ PyString.of_Z fw ++ "x" ++ PyString.of_Z fh)])%list
  = (t2, inr None) ->
  upscale_with_custom_dimensions_gradio E parse_scale_factor (Some p)
    target_width target_height output_format metadata t
  = ((t2 ++ [GcCollect; ForceMlxCleanup])%list,
     inr (None, "Error: Failed to upscale image"))
  /\ exists e d,
       t2 = ((t ++ [ImageOpen p;
                    Print ("Upscaling image with factor "
                           ++ PyString.of_Z (nearest_factor es)
                           ++ "x to target "
                           ++ PyString.of_Z fw ++ "x" ++ PyString.of_Z fh)])
             ++ d ++ upscale_image_report e)%list
       /\ Forall (fun ev => is_save ev = false) d.
Proof.
  intros Hp Hopen Hfw Hfh Hes Hup. split.
  - destruct (custom_to_upscale p target_width target_height output_format
                metadata t t2 orig fw fh es None
                Hp Hopen Hfw Hfh Hes Hup) as [k ->].
    apply guarded_ret.
  - destruct (upscale_image_outcome E p (nearest_factor es)
                (t ++ [ImageOpen p;
                       Print ("Upscaling image with factor "
                              ++ PyString.of_Z (nearest_factor es)
                              ++ "x to target "
                              ++ PyString.of_Z fw ++ "x"
                              ++ PyString.of_Z fh)])%list)
      as [t' [r [Hrun Hr]]].
    rewrite Hup in Hrun. injection Hrun as <- <-.
    destruct Hr as [e [d [Ht Hd]]]. exists e, d. split; [exact Ht |].
    destruct Hd as [-> | [-> | [image [-> _]]]]; repeat constructor.
Qed.

End CustomForward.

Lemma X8_target_below_one_pixel_witness :
  PyString.truthy "a.png" = true
  /\ image_open Sample.world [ImageOpen "a.png"] "a.png"
     = inr (Image 100 100 [])
  /\ Sample.pixels_or_original (PyInt 0) 100 = inr 0
  /\ Sample.pixels_or_original (PyInt (- 2147483649)) 100
     = inr (- 2147483649)
  /\ Sample.pixels_or_original (PyInt 300) 100 = inr 300
  /\ effective_scale_of 0 300 100 100
     = inr (S754_finite false 6755399441055744 (-51))
  /\ effective_scale_of (- 2147483649) 300 100 100
     = inr (S754_finite false 6755399441055744 (-51))
  /\ nearest_factor (S754_finite false 6755399441055744 (-51)) = 3
  /\ upscale_with_custom_dimensions_gradio Sample.world
       Sample.pixels_or_original (Some "a.png") (PyInt 0) (PyInt 300) "PNG"
       false []
     = ([ImageOpen "a.png";
         Print "Upscaling image with factor 3x to target 0x300";
         ImageOpen "a.png"; Upscale (Image 100 100 []) 3;
         Resize (Image 300 300 []) 0 300;
         Print "Error in custom upscaling: height and width must be > 0";
         PrintExc; GcCollect; ForceMlxCleanup],
        inr (None, "Error: height and width must be > 0"))
  /\ upscale_with_custom_dimensions_gradio Sample.world
       Sample.pixels_or_original (Some "a.png") (PyInt (- 2147483649))
       (PyInt 300) "PNG" false []
     = ([ImageOpen "a.png";
         Print "Upscaling image with factor 3x to target -2147483649x300";
         ImageOpen "a.png"; Upscale (Image 100 100 []) 3;
         Resize (Image 300 300 []) (- 2147483649) 300;
         Print
           "Error in custom upscaling: signed integer is less than minimum";
         PrintExc; GcCollect; ForceMlxCleanup],
        inr (None, "Error: signed integer is less than minimum")).
Proof.
  do 8 (split; [reflexivity |]).
  split.
  - destruct (X8_target_below_one_pixel Sample.world
                Sample.pixels_or_original
                "a.png" (PyInt 0) (PyInt 300) "PNG" false []
                [ImageOpen "a.png";
                 Print "Upscaling image with factor 3x to target 0x300";
                 ImageOpen "a.png"; Upscale (Image 100 100 []) 3]
                (Image 100 100 []) (Image 300 300 []) 0 300
                (S754_finite false 6755399441055744 (-51))
                eq_refl eq_refl eq_refl eq_refl eq_refl eq_refl
                ltac:(cbn [width]; lia) ltac:(cbn [height]; lia)
                ltac:(left; lia))
      as [e [_ [Hcall [Hvalue _]]]].
    rewrite Hcall, (Hvalue ltac:(lia) ltac:(lia)). reflexivity.
  - destruct (X8_target_below_one_pixel Sample.world
                Sample.pixels_or_original
                "a.png" (PyInt (- 2147483649)) (PyInt 300) "PNG" false []
                [ImageOpen "a.png";
                 Print
                   "Upscaling image with factor 3x to target -2147483649x300";
                 ImageOpen "a.png"; Upscale (Image 100 100 []) 3]
                (Image 100 100 []) (Image 300 300 []) (- 2147483649) 300
                (S754_finite false 6755399441055744 (-51))
                eq_refl eq_refl eq_refl eq_refl eq_refl eq_refl
                ltac:(cbn [width]; lia) ltac:(cbn [height]; lia)
                ltac:(left; lia))
      as [e [_ [Hcall [_ [Hless _]]]]].
    rewrite Hcall, (Hless ltac:(left; lia)). reflexivity.
Defined.

Lemma X9_custom_upscaler_failure_is_reported_without_cause_witness :
  PyString.truthy "a.png" = true
  /\ image_open Sample.no_upscaler_world [ImageOpen "a.png"] "a.png"
     = inr (Image 100 100 [])
  /\ Sample.pixels_or_original (PyInt 250) 100 = inr 250
  /\ Sample.pixels_or_original (PyInt 300) 100 = inr 300
  /\ effective_scale_of 250 300 100 100
     = inr (S754_finite false 6755399441055744 (-51))
  /\ upscale_with_custom_dimensions_gradio Sample.no_upscaler_world
       Sample.pixels_or_original (Some "a.png") (PyInt 250) (PyInt 300)
       "PNG" false []
     = ([ImageOpen "a.png";
         Print "Upscaling image with factor 3x to target 250x300";
         Print "Error upscaling image: No module named 'mflux.upscaler'";
         PrintExc; GcCollect; ForceMlxCleanup],
        inr (None, "Error: Failed to upscale image")).
Proof.
  do 5 (split; [reflexivity |]).
  apply (proj1
           (X9_custom_upscaler_failure_is_reported_without_cause
              Sample.no_upscaler_world Sample.pixels_or_original "a.png"
              (PyInt 250) (PyInt 300) "PNG" false []
              [ImageOpen "a.png";
               Print "Upscaling image with factor 3x to target 250x300";
               Print "Error upscaling image: No module named 'mflux.upscaler'";
               PrintExc]
              (Image 100 100 []) 250 300
              (S754_finite false 6755399441055744 (-51))
              eq_refl eq_refl eq_refl eq_refl eq_refl eq_refl)).
Defined.

(** ** More on the batch *)

Section BatchMore.

Variable E : env.

Lemma batch_outcomes_events (P : event -> Prop) upscale_factor output_format
    metadata (items : list (option string)) :
  (forall s, P (Print ("Processing image " ++ s))) ->
  (forall item,
      emits P
        (upscale_image_gradio E item upscale_factor output_format metadata)) ->
  forall total idx t,
  exists d,
    snd (batch_outcomes E total idx items upscale_factor output_format
           metadata t) = (t ++ d)%list
    /\ Forall P d.
Proof.
  intros Hprint Hitem.
  induction items as [| item rest IH]; intros; cbn [batch_outcomes].
  - exists []. cbn [snd]. now rewrite app_nil_r.
  - destruct (Hitem item
                (t ++ [Print ("Processing image " ++ PyString.of_Z (idx + 1)
                              ++ "/" ++ PyString.of_Z total)])%list)
      as [d [Ht Hd]].
    destruct (upscale_image_gradio E item upscale_factor output_format
                metadata _) as [t2 r]. cbn [fst] in Ht. subst t2.
    destruct (IH total (idx + 1)
                ((t ++ [Print ("Processing image " ++ PyString.of_Z (idx + 1)
                               ++ "/" ++ PyString.of_Z total)]) ++ d)%list)
      as [d' [Ht' Hd']].
    destruct (batch_outcomes E total (idx + 1) rest upscale_factor
                output_format metadata _) as [outcomes t3].
    cbn [snd] in *. subst t3.
    exists ([Print ("Processing image " ++ PyString.of_Z (idx + 1) ++ "/"
                    ++ PyString.of_Z total)] ++ d ++ d')%list.
    split; [now rewrite <- !app_assoc |].
    apply Forall_app; split; [constructor; [apply Hprint | constructor] |].
    apply Forall_app; auto.
Qed.

Lemma batch_events (P : event -> Prop) input_images upscale_factor
    output_format metadata :
  (forall s, P (Print ("Processing image " ++ s))) ->
  (forall item,
      emits P
        (upscale_image_gradio E item upscale_factor output_format metadata)) ->
  emits P
    (batch_upscale_gradio E input_images upscale_factor output_format
       metadata).
Proof.
  intros Hprint Hitem t.
  destruct input_images as [[| item rest] |];
    [exists []; split; [symmetry; apply app_nil_r | constructor] |
    | exists []; split; [symmetry; apply app_nil_r | constructor]].
  rewrite batch_upscale_gradio_items by discriminate. cbn [fst].
  now apply batch_outcomes_events.
Qed.

Lemma batch_outcomes_say_Error upscale_factor output_format metadata
    (items : list (option string)) :
  forall total idx t,
    Forall failure_says_Error
      (fst (batch_outcomes E total idx items upscale_factor output_format
              metadata t)).
Proof.
  induction items as [| item rest IH]; intros; cbn [batch_outcomes];
    [constructor |].
  destruct (upscale_image_gradio_call E item upscale_factor output_format
              metadata
              (t ++ [Print ("Processing image " ++ PyString.of_Z (idx + 1)
                            ++ "/" ++ PyString.of_Z total)])%list)
    as [d [a [Hcall _]]].
  pose proof (upscale_image_gradio_failure E item upscale_factor
                output_format metadata
                (t ++ [Print ("Processing image " ++ PyString.of_Z (idx + 1)
                              ++ "/" ++ PyString.of_Z total)])%list a) as Ha.
  rewrite Hcall in Ha |- *. cbn [snd] in Ha.
  specialize (IH total (idx + 1)
                ((t ++ [Print ("Processing image "
                               ++ PyString.of_Z (idx + 1) ++ "/"
                               ++ PyString.of_Z total)])
                 ++ d ++ [GcCollect; ForceMlxCleanup])%list).
  destruct (batch_outcomes E total (idx + 1) rest upscale_factor
              output_format metadata _) as [outcomes t3].
  cbn [fst] in *. constructor; [apply Ha; reflexivity | exact IH].
Qed.

Lemma outcomes_split (outcomes : list (option image * string)) :
  forall idx,
    (List.length (successes outcomes) + List.length (failures idx outcomes)
     = List.length outcomes)%nat.
Proof.
  induction outcomes as [| [[img |] m] rest IH]; intros idx;
    cbn [successes failures List.length]; [reflexivity | |];
    rewrite <- (IH (idx + 1)); lia.
Qed.

Lemma failures_reports (outcomes : list (option image * string)) :
  Forall failure_says_Error outcomes ->
  forall idx,
    Forall
      (fun x =>
         exists k message,
           idx <= k < idx + Z.of_nat (List.length outcomes)
           /\ x = item_error k message
           /\ String.prefix "Error" message = true)
      (failures idx outcomes).
Proof.
  induction 1 as [| [[img |] m] rest Ho _ IH]; intros idx;
    cbn [failures]; [constructor | |].
  - eapply Forall_impl; [| apply (IH (idx + 1))].
    intros x [k [message [Hk H]]]. exists k, message.
    split; [cbn [List.length]; lia | exact H].
  - constructor.
    + exists idx, m. split; [cbn [List.length]; lia |].
      split; [reflexivity | apply Ho; reflexivity].
    + eapply Forall_impl; [| apply (IH (idx + 1))].
      intros x [k [message [Hk H]]]. exists k, message.
      split; [cbn [List.length]; lia | exact H].
Qed.

(** X10.  The loop of [batch_upscale_gradio] never raises and puts
    every item into exactly one of its two lists: the images and the
    errors together are as many as the items.  Every recorded error is
    "Image ", the position of an item of the batch counted from 1, ": "
    and a message that starts with "Error", which is the message that
    [upscale_image_gradio] returned for that item. *)
Theorem X10_batch_loop_sorts_every_item (items : list (option string))
    (total : Z) (upscale_factor : pyval) (output_format : string)
    (metadata : bool) (t : trace) :
  exists t' upscaled_images errors,
    batch_loop E total 0 items upscale_factor output_format metadata [] [] t
    = (t', inr (upscaled_images, errors))
    /\ (List.length upscaled_images + List.length errors
        = List.length items)%nat
    /\ Forall (item_report (List.length items)) errors.
Proof.
  rewrite batch_loop_outcomes.
  destruct (batch_outcomes_trace E items total 0 upscale_factor output_format
              metadata t) as [d [_ [_ [_ [_ Hlen]]]]].
  pose proof (batch_outcomes_say_Error upscale_factor output_format metadata
                items total 0 t) as Hsay.
  destruct (batch_outcomes E total 0 items upscale_factor output_format
              metadata t) as [outcomes t3].
  cbn [fst snd app] in *.
  exists t3, (successes outcomes), (failures 0 outcomes).
  split; [reflexivity |].
  split; [rewrite <- Hlen; apply outcomes_split |].
  rewrite <- Hlen. apply (failures_reports outcomes Hsay 0).
Qed.

Lemma plain_prints input_image upscale_factor output_format metadata :
  emits not_from_batch_handler
    (upscale_image_gradio E input_image upscale_factor output_format
       metadata).
Proof.
  unfold upscale_image_gradio.
  apply emits_with_cleanup; [intros line Hline; discriminate Hline .. |].
  unfold upscale_image_gradio_body, open_image, unix_time, save_image,
    dump_json, upscale_image.
  emits_auto;
    intros line Hline;
    first [discriminate Hline | injection Hline as <-; reflexivity].
Qed.

(** X11.  [input_images] being a list of paths or a value that is no
    list ([None], a truth value, a number or a text), the [except]
    clause that closes [batch_upscale_gradio] runs for one kind of call
    only: one whose [input_images] is truthy and can not be iterated,
    as the number 5.  Then [enumerate] raises a TypeError at the header
    of the loop, outside the [try] of the items, and the call prints
    "Error in batch upscaling: " with the text of the error and the
    traceback, and returns no image and "Error: " with that text.  A
    falsy [input_images] is answered with "Error: No images provided"
    and nothing is printed.  For a list or a text the call is that of
    the list of its items and prints no line that starts with
    "Error in batch upscaling": every failure of an item is caught and
    turned into a result by [upscale_image_gradio] itself. *)
Theorem X11_batch_handler_runs_for_no_list (input_images : images_arg)
    (upscale_factor : pyval) (output_format : string) (metadata : bool) :
  (forall e,
      images_truthy input_images = true ->
      images_items input_images = inl e ->
      (exists what,
          e = Exn TypeError ("'" ++ what ++ "' object is not iterable"))
      /\ forall t,
           batch_upscale_gradio_any E input_images upscale_factor
             output_format metadata t
           = ((t ++ [Print ("Error in batch upscaling: " ++ exn_str e);
                     PrintExc])%list,
              inr ([], "Error: " ++ exn_str e)))
  /\ (images_truthy input_images = false ->
      forall t,
        batch_upscale_gradio_any E input_images upscale_factor
          output_format metadata t
        = (t, inr ([], "Error: No images provided")))
  /\ (forall items,
         images_items input_images = inr items ->
         (forall t,
             batch_upscale_gradio_any E input_images upscale_factor
               output_format metadata t
             = batch_upscale_gradio E (Some items) upscale_factor
                 output_format metadata t)
         /\ emits not_from_batch_handler
              (batch_upscale_gradio_any E input_images upscale_factor
                 output_format metadata))
  /\ (forall listed,
         emits not_from_batch_handler
           (batch_upscale_gradio E listed upscale_factor output_format
              metadata)).
Proof.
  assert (Hlisted : forall listed,
             emits not_from_batch_handler
               (batch_upscale_gradio E listed upscale_factor output_format
                  metadata)).
  { intros listed. apply batch_events.
    - intros s0 s H. injection H as <-. reflexivity.
    - intros item. apply plain_prints. }
  split; [| split; [| split]].
  - intros e Htruthy Hitems. split.
    + destruct input_images as [items | [| b | n | f | s]];
        cbn [images_items] in Hitems; try discriminate Hitems;
        injection Hitems as <-;
        [exists "NoneType" | exists "bool" | exists "int" | exists "float"];
        reflexivity.
    + intros t. unfold batch_upscale_gradio_any.
      rewrite Htruthy, Hitems. cbn [negb].
      unfold try_except, bind, lift, emit, ret. cbn [fst snd].
      now rewrite <- app_assoc.
  - intros Hfalsy t. unfold batch_upscale_gradio_any.
    rewrite Hfalsy. reflexivity.
  - intros items Hitems.
    assert (Heq : forall t,
               batch_upscale_gradio_any E input_images upscale_factor
                 output_format metadata t
               = batch_upscale_gradio E (Some items) upscale_factor
                   output_format metadata t).
    { intros t. unfold batch_upscale_gradio_any, batch_upscale_gradio.
      rewrite Hitems.
      destruct input_images as [[| item rest] | [| b | n | f | [| c s]]];
        cbn [images_items] in Hitems; try discriminate Hitems;
        injection Hitems as <-; reflexivity. }
    split; [exact Heq |].
    intros t. rewrite Heq. apply Hlisted.
  - exact Hlisted.
Qed.

(** X12.  The file names of a batch tell its items apart by the time
    only.  When the clock shows the same second all through a call of
    [batch_upscale_gradio], every image the call saves is saved under
    the same path, so each one overwrites the one before it. *)
Theorem X12_batch_saves_share_a_name
    (input_images : option (list (option string))) (upscale_factor : pyval)
    (output_format : string) (metadata : bool) (ts : Z) (t : trace) :
  (forall t0, PyFloat.to_int (time_time E t0) = inr ts) ->
  exists d,
    fst (batch_upscale_gradio E input_images upscale_factor output_format
           metadata t) = (t ++ d)%list
    /\ forall img1 path1 kw1 img2 path2 kw2,
         In (Save img1 path1 kw1) d -> In (Save img2 path2 kw2) d ->
         path1 = path2.
Proof.
  intros Hclock.
  destruct (batch_events (save_by_factor E upscale_factor output_format)
              input_images upscale_factor output_format metadata
              ltac:(intros s img path kw H; discriminate H)
              ltac:(intros item; apply plain_save_events) t)
    as [d [Ht Hd]].
  exists d. split; [exact Ht |].
  intros img1 path1 kw1 img2 path2 kw2 H1 H2.
  rewrite Forall_forall in Hd.
  destruct (Hd _ H1 img1 path1 kw1 eq_refl)
    as [f1 [ts1 [Hf1 [_ [[t1 Hts1] [-> ->]]]]]].
  destruct (Hd _ H2 img2 path2 kw2 eq_refl)
    as [f2 [ts2 [Hf2 [_ [[t2 Hts2] [-> ->]]]]]].
  rewrite Hf1 in Hf2. injection Hf2 as <-.
  rewrite Hclock in Hts1, Hts2.
  injection Hts1 as <-. injection Hts2 as <-. reflexivity.
Qed.

End BatchMore.

Lemma X11_batch_handler_runs_for_no_list_witness :
  images_truthy (NoList (PyInt 5)) = true
  /\ images_items (NoList (PyInt 5))
     = inl (Exn TypeError "'int' object is not iterable")
  /\ batch_upscale_gradio_any Sample.world (NoList (PyInt 5)) (PyInt 2)
       "PNG" false []
     = ([Print "Error in batch upscaling: 'int' object is not iterable";
         PrintExc],
        inr ([], "Error: 'int' object is not iterable"))
  /\ images_items (NoList (PyStr "ab")) = inr [Some "a"; Some "b"]
  /\ batch_upscale_gradio_any Sample.world (NoList (PyStr "ab")) (PyInt 2)
       "PNG" false []
     = batch_upscale_gradio Sample.world (Some [Some "a"; Some "b"])
         (PyInt 2) "PNG" false [].
Proof.
  split; [reflexivity |]. split; [reflexivity |].
  split;
    [exact (proj2
              (proj1
                 (X11_batch_handler_runs_for_no_list Sample.world
                    (NoList (PyInt 5)) (PyInt 2) "PNG" false)
                 (Exn TypeError "'int' object is not iterable")
                 eq_refl eq_refl) []) |].
  split; [reflexivity |].
  exact (proj1
           (proj1
              (proj2
                 (proj2
                    (X11_batch_handler_runs_for_no_list Sample.world
                       (NoList (PyStr "ab")) (PyInt 2) "PNG" false)))
              [Some "a"; Some "b"] eq_refl) []).
Defined.

Lemma X12_batch_saves_share_a_name_witness :
  (forall t0, PyFloat.to_int (time_time Sample.world t0) = inr 1700000000)
  /\ exists d,
       fst (batch_upscale_gradio Sample.world
              (Some [Some "a.png"; Some "b.png"]) (PyInt 2) "PNG" false [])
       = ([] ++ d)%list
       /\ forall img1 path1 kw1 img2 path2 kw2,
            In (Save img1 path1 kw1) d -> In (Save img2 path2 kw2) d ->
            path1 = path2.
Proof.
  assert (Hclock : forall t0,
             PyFloat.to_int (time_time Sample.world t0) = inr 1700000000)
    by (intros t0; reflexivity).
  split; [exact Hclock |].
  exact (X12_batch_saves_share_a_name Sample.world
           (Some [Some "a.png"; Some "b.png"]) (PyInt 2) "PNG" false
           1700000000 [] Hclock).
Defined.

(** ** The requested factor and the chosen one *)

(** X13.  A requested factor that is falsy (no value, 0, 0.0, False or
    the empty text) stands for 2.  A number stands for itself, a float
    for its integer part.  With the value True the factor is 1, which
    is not among the supported ones. *)
Theorem X13_requests_that_are_no_text :
  (forall upscale_factor,
      PyVal.truthy upscale_factor = false ->
      resolve_factor upscale_factor = inr 2)
  /\ (forall n, n <> 0 -> resolve_factor (PyInt n) = inr n)
  /\ (forall f,
         PyFloat.truthy f = true ->
         resolve_factor (PyFloat f) = PyFloat.to_int f)
  /\ resolve_factor (PyBool true) = inr 1
  /\ supported_factor 1 = false.
Proof.
  split; [| split; [| split; [| split]]].
  - intros [| b | n | f | s]; cbn [PyVal.truthy];
      intros H; unfold resolve_factor; cbn [PyVal.truthy]; rewrite ?H;
      try reflexivity.
    destruct s; [reflexivity | discriminate H].
  - intros n Hn. unfold resolve_factor. cbn [PyVal.truthy PyVal.to_int].
    apply Z.eqb_neq in Hn. now rewrite Hn.
  - intros f Hf. unfold resolve_factor. cbn [PyVal.truthy PyVal.to_int].
    now rewrite Hf.
  - reflexivity.
  - reflexivity.
Qed.

Lemma X13_requests_that_are_no_text_witness :
  PyVal.truthy (PyStr EmptyString) = false
  /\ resolve_factor (PyStr EmptyString) = inr 2
  /\ 3 <> 0
  /\ resolve_factor (PyInt 3) = inr 3
  /\ PyFloat.truthy (PyFloat.of_decimal false 29 (-1)) = true
  /\ resolve_factor (PyFloat (PyFloat.of_decimal false 29 (-1))) = inr 2.
Proof.
  destruct X13_requests_that_are_no_text as [Hfalsy [Hint [Hfloat _]]].
  split; [reflexivity |].
  split; [apply Hfalsy; reflexivity |].
  split; [discriminate |].
  split; [apply Hint; discriminate |].
  split; [reflexivity |].
  rewrite Hfloat by reflexivity. reflexivity.
Defined.

(** X14.  A larger target never gets a smaller factor from
    [upscale_with_custom_dimensions_gradio]: for an original below
    [2 ^ 51] on each side and targets below [2 ^ 53], when neither side
    of the target shrinks the factor chosen for the effective scale
    does not go down. *)
Theorem X14_factor_grows_with_the_target
    (fw fh fw' fh' ow oh : Z) :
  0 < fw <= fw' -> fw' < 2 ^ 53 ->
  0 < fh <= fh' -> fh' < 2 ^ 53 ->
  0 < ow < 2 ^ 51 -> 0 < oh < 2 ^ 51 ->
  exists es es',
    effective_scale_of fw fh ow oh = inr es
    /\ effective_scale_of fw' fh' ow oh = inr es'
    /\ nearest_factor es <= nearest_factor es'.
Proof.
  intros Hfw Hfw' Hfh Hfh' How Hoh.
  destruct (factor_by_sizes fw fh ow oh) as [es [Hes Hf]]; try lia.
  destruct (factor_by_sizes fw' fh' ow oh) as [es' [Hes' Hf']]; try lia.
  exists es, es'. split; [exact Hes |]. split; [exact Hes' |].
  rewrite Hf, Hf'.
  destruct (Z.leb_spec (2 * fw) (5 * ow)), (Z.leb_spec (2 * fh) (5 * oh)),
    (Z.leb_spec (2 * fw') (5 * ow)), (Z.leb_spec (2 * fh') (5 * oh)),
    (Z.leb_spec (2 * fw) (7 * ow)), (Z.leb_spec (2 * fh) (7 * oh)),
    (Z.leb_spec (2 * fw') (7 * ow)), (Z.leb_spec (2 * fh') (7 * oh));
    cbn [andb]; lia.
Qed.

Lemma X14_factor_grows_with_the_target_witness :
  (0 < 200 <= 300 /\ 300 < 2 ^ 53)
  /\ (0 < 200 <= 360 /\ 360 < 2 ^ 53)
  /\ 0 < 100 < 2 ^ 51
  /\ exists es es',
       effective_scale_of 200 200 100 100 = inr es
       /\ effective_scale_of 300 360 100 100 = inr es'
       /\ nearest_factor es <= nearest_factor es'.
Proof.
  assert (H1 : 0 < 200 <= 300) by lia.
  assert (H2 : 300 < 2 ^ 53) by reflexivity.
  assert (H3 : 0 < 200 <= 360) by lia.
  assert (H4 : 360 < 2 ^ 53) by reflexivity.
  assert (H5 : 0 < 100 < 2 ^ 51) by (split; reflexivity).
  split; [split; assumption |]. split; [split; assumption |].
  split; [exact H5 |].
  exact (X14_factor_grows_with_the_target 200 200 300 360 100 100
           H1 H2 H3 H4 H5 H5).
Defined.

Section CountsTheorem.

Variable E : env.
Variable parse_scale_factor : pyval -> Z -> res Z.

(** X15.  A call of [upscale_image_gradio] or of
    [upscale_with_custom_dimensions_gradio] calls the upscaler at most
    once and saves at most one image, on every path.  A call of
    [batch_upscale_gradio] calls the upscaler and saves at most once
    for each item of the batch.  A single call writes at most one
    metadata file, and none when no metadata is asked for. *)
Theorem X15_one_upscaler_call_and_one_file_per_image :
  (forall input_image upscale_factor output_format metadata,
      at_most is_upscale 1
        (upscale_image_gradio E input_image upscale_factor output_format
           metadata)
      /\ at_most is_save 1
           (upscale_image_gradio E input_image upscale_factor output_format
              metadata))
  /\ (forall input_image target_width target_height output_format metadata,
         at_most is_upscale 1
           (upscale_with_custom_dimensions_gradio E parse_scale_factor
              input_image target_width target_height output_format metadata)
         /\ at_most is_save 1
              (upscale_with_custom_dimensions_gradio E parse_scale_factor
                 input_image target_width target_height output_format
                 metadata))
  /\ (forall items upscale_factor output_format metadata,
         at_most is_upscale (List.length items)
           (batch_upscale_gradio E (Some items) upscale_factor output_format
              metadata)
         /\ at_most is_save (List.length items)
              (batch_upscale_gradio E (Some items) upscale_factor
                 output_format metadata))
  /\ (forall input_image upscale_factor output_format (metadata : bool),
         at_most is_json_dump (if metadata then 1 else 0)%nat
           (upscale_image_gradio E input_image upscale_factor output_format
              metadata))
  /\ (forall input_image target_width target_height output_format
            (metadata : bool),
         at_most is_json_dump (if metadata then 1 else 0)%nat
           (upscale_with_custom_dimensions_gradio E parse_scale_factor
              input_image target_width target_height output_format
              metadata)).
Proof.
  split; [| split; [| split; [| split]]];
    [| | | intros; apply plain_one_sidecar
     | intros; apply custom_one_sidecar].
  - intros. split; [apply plain_one_upscale | apply plain_one_save].
  - intros. split; [apply custom_one_upscale | apply custom_one_save].
  - intros. split.
    + apply (batch_at_most E is_upscale (Some items)); try reflexivity.
      intros item. apply plain_one_upscale.
    + apply (batch_at_most E is_save (Some items)); try reflexivity.
      intros item. apply plain_one_save.
Qed.

End CountsTheorem.

(** [int(float(...))] under [except ValueError]: a number, or the
    overflow of an infinity. *)
Lemma int_of_float_guarded (r : res spec_float) :
  (forall e, r = inl e -> is_ValueError e = true) ->
  (exists n, except_ValueError (bind_res r PyFloat.to_int) 2 = inr n)
  \/ (except_ValueError (bind_res r PyFloat.to_int) 2
      = inl (Exn OverflowError "cannot convert float infinity to integer")
      /\ exists neg, r = inr (S754_infinity neg)).
Proof.
  intros Hr. destruct r as [e | f]; cbn [bind_res except_ValueError].
  - rewrite (Hr e eq_refl). left. now exists 2.
  - destruct f as [s | s | | s m e]; cbn [PyFloat.to_int except_ValueError
                                            is_ValueError exn_kind].
    + left. now exists 0.
    + right. split; [reflexivity | now exists s].
    + left. now exists 2.
    + left. eexists. reflexivity.
Qed.

(** X16.  A text with something else than whitespace in it never makes
    the factor fail with a [ValueError]: it resolves to a number, unless
    the text read by [float] is an infinity, for which [int] raises an
    [OverflowError] that the [except ValueError] clauses let through.
    So "nan" stands for the factor 2, while "1e999x" ends the call in
    the error "cannot convert float infinity to integer". *)
Theorem X16_text_requests_that_end_in_an_error (s : string) :
  PyString.truthy (PyString.strip s) = true ->
  let text :=
    if PyString.endswith (PyString.lower (PyString.strip s)) "x"
    then PyString.replace "x" EmptyString (PyString.lower (PyString.strip s))
    else s in
  (exists n, resolve_factor (PyStr s) = inr n)
  \/ (resolve_factor (PyStr s)
      = inl (Exn OverflowError "cannot convert float infinity to integer")
      /\ exists neg,
           PyParse.float_of_string text = inr (S754_infinity neg)).
Proof.
  intros Hs text. unfold resolve_factor. rewrite Hs. subst text.
  destruct (PyString.endswith (PyString.lower (PyString.strip s)) "x");
    apply int_of_float_guarded; intros e He;
    apply (float_of_string_error _ _ He).
Qed.

Lemma X16_text_requests_that_end_in_an_error_witness :
  PyString.truthy (PyString.strip "1e999x") = true
  /\ resolve_factor (PyStr "nan") = inr 2
  /\ resolve_factor (PyStr "1e999x")
     = inl (Exn OverflowError "cannot convert float infinity to integer")
  /\ ((exists n, resolve_factor (PyStr "1e999x") = inr n)
      \/ (resolve_factor (PyStr "1e999x")
          = inl (Exn OverflowError "cannot convert float infinity to integer")
          /\ exists neg,
               PyParse.float_of_string "1e999" = inr (S754_infinity neg))).
Proof.
  split; [reflexivity |].
  split; [vm_compute; reflexivity |].
  split; [vm_compute; reflexivity |].
  exact (X16_text_requests_that_end_in_an_error "1e999x" eq_refl).
Defined.

(** ** Custom dimensions: the run that returns an image *)

Section CustomSuccess.

Variable E : env.
Variable parse_scale_factor : pyval -> Z -> res Z.

(** X17.  A call of [upscale_with_custom_dimensions_gradio] that returns
    an image has saved that very image, once, under
    "upscaled_custom_", its width, "x", its height, "_", the time and
    the extension, as the last thing before the metadata, the print of
    the path and the cleanup.  With metadata it has written one file
    with the same name and the extension json, which records the size
    of the original as read at the start of the call, the size of the
    image returned, the two targets as they were given, the effective
    scale and the factor chosen for it.  The message names the size of
    the image returned. *)
Theorem X17_custom_success (input_image : option string)
    (target_width target_height : pyval) (output_format : string)
    (metadata : bool) (t t' : trace) (img : image) (message : string) :
  runs
    (upscale_with_custom_dimensions_gradio E parse_scale_factor input_image
       target_width target_height output_format metadata)
    t t' (Some img, message) ->
  exists p orig es ts d sidecar,
    let stem := custom_stem (width img) (height img) ts in
    let output_path :=
      PyPath.join (OUTPUT_DIR E)
        (stem ++ "." ++ fst (format_kwargs output_format)) in
    given input_image = Some p
    /\ image_open E (t ++ [ImageOpen p])%list p = inr orig
    /\ effective_scale_of (width img) (height img) (width orig) (height orig)
       = inr es
    /\ t' = (t ++ d
             ++ [Save img output_path (snd (format_kwargs output_format))]
             ++ sidecar
             ++ [Print ("Upscaled image saved to " ++ output_path);
                 GcCollect; ForceMlxCleanup])%list
    /\ Forall (fun ev => is_save ev = false) d
    /\ (if metadata then
          exists ctime,
            sidecar
            = [JsonDump (PyPath.join (OUTPUT_DIR E) (stem ++ ".json"))
                 (custom_metadata orig img target_width target_height es
                    output_format ctime p)]
        else sidecar = [])
    /\ message
       = "Successfully upscaled image to "
         ++ PyString.of_Z (width img) ++ "x" ++ PyString.of_Z (height img).
Proof.
  intros H. unfold upscale_with_custom_dimensions_gradio in H.
  apply runs_cleanup_inv in H. destruct H as [tb [H ->]].
  apply runs_try_except_inv in H. destruct H as [H | [t1 [e [_ H]]]].
  2: { run_step H as t2 u2 Hev. run_step H as t3 u3 Hev'.
       apply runs_ret_inv in H. destruct H as [_ H]. discriminate H. }
  unfold upscale_with_custom_dimensions_gradio_body in H.
  destruct (given input_image) as [p |] eqn:Hp;
    [| apply runs_ret_inv in H; destruct H as [_ H]; discriminate H].
  run_step H as t1 orig Hopen. unfold open_image in Hopen.
  run_step Hopen as t0 u0 Hev. apply runs_emit_inv in Hev. subst t0.
  apply runs_ask_inv in Hopen. destruct Hopen as [-> Hopen].
  cbv zeta in H.
  run_step H as t2 fw Hfw. apply runs_lift_inv in Hfw.
  destruct Hfw as [-> Hfw].
  run_step H as t3 fh Hfh. apply runs_lift_inv in Hfh.
  destruct Hfh as [-> Hfh].
  run_step H as t4 es Hes. apply runs_lift_inv in Hes.
  destruct Hes as [-> Hes].
  run_step H as t5 u5 Hev. apply runs_emit_inv in Hev. subst t5.
  run_step H as t6 upscaled Hup.
  destruct upscaled as [upscaled |];
    [| apply runs_ret_inv in H; destruct H as [_ H]; discriminate H].
  apply upscale_image_success in Hup.
  destruct Hup as [opened [image [_ [_ [_ Ht6]]]]].
  run_step H as t7 fitted Hfit.
  assert (Hsize : width fitted = fw /\ height fitted = fh).
  { apply (fit_to_target_size E upscaled fw fh). exists t6.
    unfold runs in Hfit. now rewrite Hfit. }
  destruct Hsize as [Hw Hh].
  assert (Hd7 : exists d7, t7 = (t6 ++ d7)%list
                           /\ Forall (fun ev => is_save ev = false) d7).
  { apply fit_to_target_success in Hfit.
    destruct Hfit as [[_ [_ [_ ->]]] | [_ [_ ->]]].
    - exists []. now rewrite app_nil_r.
    - eexists. split; [reflexivity |]. repeat constructor. }
  destruct Hd7 as [d7 [-> Hd7]]. clear Hfit.
  run_step H as t8 ts Hts. unfold unix_time in Hts.
  run_step Hts as t9 now Hnow. apply runs_ask_val_inv in Hnow.
  destruct Hnow as [-> ->]. apply runs_lift_inv in Hts.
  destruct Hts as [-> Hts].
  destruct (format_kwargs output_format) as [ext kw] eqn:Hfmt.
  run_step H as t10 u10 Hsave. unfold save_image in Hsave.
  run_step Hsave as t11 u11 Hev. apply runs_emit_inv in Hev. subst t11.
  apply runs_ask_ok_inv in Hsave. destruct Hsave as [-> _].
  run_step H as t12 u12 Hmeta.
  run_step H as t13 u13 Hev. apply runs_emit_inv in Hev. subst t13.
  apply runs_ret_inv in H. destruct H as [-> [= -> ->]].
  rewrite <- Hw, <- Hh in Hes. subst t6.
  exists p, orig, es, ts,
    ([ImageOpen p;
      Print ("Upscaling image with factor "
             ++ PyString.of_Z (nearest_factor es) ++ "x to target "
             ++ PyString.of_Z fw ++ "x" ++ PyString.of_Z fh);
      ImageOpen p; Upscale image (nearest_factor es)] ++ d7)%list.
  assert (Hquiet : Forall (fun ev => is_save ev = false)
                     ([ImageOpen p;
                       Print ("Upscaling image with factor "
                              ++ PyString.of_Z (nearest_factor es)
                              ++ "x to target "
                              ++ PyString.of_Z fw ++ "x" ++ PyString.of_Z fh);
                       ImageOpen p; Upscale image (nearest_factor es)]
                      ++ d7)%list)
    by (apply Forall_app; split; [repeat constructor | exact Hd7]).
  destruct metadata.
  - run_step Hmeta as t14 ctime Hct. apply runs_ask_val_inv in Hct.
    destruct Hct as [-> _].
    unfold dump_json in Hmeta.
    run_step Hmeta as t15 u15 Hev. apply runs_emit_inv in Hev. subst t15.
    apply runs_ask_ok_inv in Hmeta. destruct Hmeta as [-> _].
    exists [JsonDump
              (PyPath.join (OUTPUT_DIR E)
                 (custom_stem (width fitted) (height fitted) ts ++ ".json"))
              (custom_metadata orig fitted target_width target_height es
                 output_format ctime p)].
    cbv zeta. cbn [fst snd].
    split; [reflexivity |]. split; [exact Hopen |]. split; [exact Hes |].
    split; [| split; [exact Hquiet
                     | split; [exists ctime; reflexivity | reflexivity]]].
    unfold custom_metadata. rewrite Hw, Hh.
    repeat (rewrite <- app_assoc; cbn [app]). reflexivity.
  - apply runs_ret_inv in Hmeta. destruct Hmeta as [-> _].
    exists []. cbv zeta. cbn [fst snd].
    split; [reflexivity |]. split; [exact Hopen |]. split; [exact Hes |].
    split; [| split; [exact Hquiet | split; reflexivity]].
    rewrite Hw, Hh.
    repeat (rewrite <- app_assoc; cbn [app]). reflexivity.
Qed.

End CustomSuccess.

Lemma X17_custom_success_witness :
  runs
    (upscale_with_custom_dimensions_gradio Sample.world
       Sample.pixels_or_original (Some "a.png") (PyInt 250) (PyInt 300)
       "PNG" false)
    [] Sample.custom_trace
    (Some (Image 250 300 []), "Successfully upscaled image to 250x300")
  /\ exists p orig es,
       given (Some "a.png") = Some p
       /\ image_open Sample.world ([] ++ [ImageOpen p])%list p = inr orig
       /\ effective_scale_of 250 300 (width orig) (height orig) = inr es.
Proof.
  assert (Hrun :
            runs
              (upscale_with_custom_dimensions_gradio Sample.world
                 Sample.pixels_or_original (Some "a.png") (PyInt 250)
                 (PyInt 300) "PNG" false)
              [] Sample.custom_trace
              (Some (Image 250 300 []),
               "Successfully upscaled image to 250x300"))
    by (vm_compute; reflexivity).
  split; [exact Hrun |].
  destruct (X17_custom_success Sample.world Sample.pixels_or_original
              (Some "a.png") (PyInt 250) (PyInt 300) "PNG" false []
              Sample.custom_trace (Image 250 300 [])
              "Successfully upscaled image to 250x300" Hrun)
    as [p [orig [es [ts [d [sidecar H]]]]]].
  cbv zeta in H. destruct H as [Hp [Hopen [Hes _]]].
  exists p, orig, es. auto.
Defined.

(** ** Where the files are written *)

Lemma contains_app (c : ascii) (a b : string) :
  PyString.contains c (a ++ b)
  = PyString.contains c a || PyString.contains c b.
Proof.
  induction a as [| x a IH]; cbn [append PyString.contains];
    [reflexivity | now rewrite IH, orb_assoc].
Qed.

Lemma basename_no_slash (p : string) :
  PyString.contains "/" p = false -> PyPath.basename p = p.
Proof.
  destruct p as [| c p]; [reflexivity |].
  cbn [PyString.contains PyPath.basename]. intros H.
  apply orb_false_iff in H. destruct H as [Hc Hp]. now rewrite Hp, Hc.
Qed.

Lemma endswith_contains (a : string) (c : ascii) :
  PyString.endswith a c = true -> PyString.contains c a = true.
Proof.
  induction a as [| x a IH]; [discriminate |].
  cbn [PyString.endswith PyString.contains]. destruct a as [| y a].
  - intros ->. reflexivity.
  - intros H. rewrite (IH H). apply orb_true_r.
Qed.

Lemma basename_after_slash (a b : string) :
  PyString.endswith a "/" = true -> PyString.contains "/" b = false ->
  PyPath.basename (a ++ b) = b.
Proof.
  intros Ha Hb. induction a as [| x a IH]; [discriminate Ha |].
  cbn [append PyPath.basename]. rewrite contains_app, Hb, orb_false_r.
  destruct a as [| y a].
  - cbn [PyString.endswith] in Ha. cbn [PyString.contains append].
    now rewrite Ha.
  - change (PyString.endswith (String x (String y a)) "/")
      with (PyString.endswith (String y a) "/") in Ha.
    rewrite (endswith_contains _ _ Ha). apply IH. exact Ha.
Qed.

Lemma endswith_app_char (a : string) (c : ascii) :
  PyString.endswith (a ++ String c EmptyString) c = true.
Proof.
  induction a as [| x a IH]; cbn [append PyString.endswith];
    [apply Ascii.eqb_refl |].
  destruct (a ++ String c EmptyString) eqn:Ha; [| exact IH].
  destruct a; discriminate Ha.
Qed.

(** [os.path.basename] undoes [os.path.join] on a name without a
    slash. *)
Lemma basename_join (a b : string) :
  PyString.contains "/" b = false -> PyPath.basename (PyPath.join a b) = b.
Proof.
  intros Hb. unfold PyPath.join.
  assert (Hs : PyPath.startswith_slash b = false).
  { destruct b as [| c b]; [reflexivity |].
    cbn [PyString.contains] in Hb. apply orb_false_iff in Hb.
    destruct Hb as [Hc _]. unfold PyPath.startswith_slash.
    destruct (Ascii.eqb_spec c "/") as [-> | Hne]; [discriminate Hc |].
    destruct c as [[|] [|] [|] [|] [|] [|] [|] [|]]; try reflexivity.
    now elim Hne. }
  rewrite Hs.
  destruct (PyString.truthy a) eqn:Ht; cbn [negb orb].
  - destruct (PyString.endswith a "/") eqn:He.
    + now apply basename_after_slash.
    + change (a ++ "/" ++ b) with (a ++ String "/" EmptyString ++ b).
      rewrite <- string_app_assoc.
      apply basename_after_slash; [apply endswith_app_char | exact Hb].
  - destruct a; [| discriminate Ht]. now apply basename_no_slash.
Qed.

Lemma upscaled_name_no_slash (f ts : Z) (ext : string) :
  PyString.contains "/" ext = false ->
  PyString.contains "/" (upscaled_stem f ts ++ "." ++ ext) = false.
Proof.
  intros He. unfold upscaled_stem.
  rewrite !contains_app, !of_Z_chars by (reflexivity || discriminate).
  now rewrite He.
Qed.

Lemma custom_name_no_slash (w h ts : Z) (ext : string) :
  PyString.contains "/" ext = false ->
  PyString.contains "/" (custom_stem w h ts ++ "." ++ ext) = false.
Proof.
  intros He. unfold custom_stem.
  rewrite !contains_app, !of_Z_chars by (reflexivity || discriminate).
  now rewrite He.
Qed.

Lemma extension_no_slash (output_format : string) :
  PyString.contains "/" (fst (format_kwargs output_format)) = false.
Proof.
  unfold format_kwargs.
  destruct (String.eqb output_format "PNG"); [reflexivity |].
  destruct (String.eqb output_format "JPEG"); reflexivity.
Qed.

Lemma upscaled_json_no_slash (f ts : Z) :
  PyString.contains "/" (upscaled_stem f ts ++ ".json") = false.
Proof. apply (upscaled_name_no_slash f ts "json"). reflexivity. Qed.

Lemma custom_json_no_slash (w h ts : Z) :
  PyString.contains "/" (custom_stem w h ts ++ ".json") = false.
Proof. apply (custom_name_no_slash w h ts "json"). reflexivity. Qed.

Lemma writes_into_name (dir name : string) :
  PyString.contains "/" name = false ->
  exists name',
    PyPath.join dir name = PyPath.join dir name'
    /\ PyString.contains "/" name' = false
    /\ PyPath.basename (PyPath.join dir name) = name'.
Proof.
  intros H. exists name. split; [reflexivity |].
  split; [exact H | now apply basename_join].
Qed.

Ltac not_written := exact I.

Ltac extension_ok :=
  match goal with
  | Hx : PyString.contains "/" (fst (?e, _)) = false
    |- PyString.contains "/" ?e = false => exact Hx
  end.

Ltac written :=
  unfold writes_into; cbn [written_path];
  apply writes_into_name;
  match goal with
  | |- PyString.contains _ (upscaled_stem _ _ ++ ".json") = false =>
      apply upscaled_json_no_slash
  | |- PyString.contains _ (custom_stem _ _ _ ++ ".json") = false =>
      apply custom_json_no_slash
  | |- PyString.contains _ (upscaled_stem _ _ ++ "." ++ _) = false =>
      apply upscaled_name_no_slash; extension_ok
  | |- PyString.contains _ (custom_stem _ _ _ ++ "." ++ _) = false =>
      apply custom_name_no_slash; extension_ok
  end.

Section Written.

Variable E : env.
Variable parse_scale_factor : pyval -> Z -> res Z.

Lemma plain_writes input_image upscale_factor output_format metadata :
  emits (writes_into (OUTPUT_DIR E))
    (upscale_image_gradio E input_image upscale_factor output_format
       metadata).
Proof.
  pose proof (extension_no_slash output_format) as Hext.
  unfold upscale_image_gradio.
  apply emits_with_cleanup; [not_written | not_written |].
  apply emits_try_except; [| intros e; emits_auto; not_written].
  unfold upscale_image_gradio_body, open_image, unix_time, save_image,
    dump_json, upscale_image.
  emits_auto; first [not_written | written].
Qed.

Lemma custom_writes input_image target_width target_height output_format
    metadata :
  emits (writes_into (OUTPUT_DIR E))
    (upscale_with_custom_dimensions_gradio E parse_scale_factor input_image
       target_width target_height output_format metadata).
Proof.
  pose proof (extension_no_slash output_format) as Hext.
  unfold upscale_with_custom_dimensions_gradio.
  apply emits_with_cleanup; [not_written | not_written |].
  apply emits_try_except; [| intros e; emits_auto; not_written].
  unfold upscale_with_custom_dimensions_gradio_body, open_image, unix_time,
    save_image, dump_json, upscale_image, fit_to_target.
  emits_auto; first [not_written | written].
Qed.

(** X18.  Every file that the three entry points write, image or
    metadata, lies directly in [OUTPUT_DIR]: its path is [OUTPUT_DIR]
    joined with a name that has no slash in it, whatever the input
    path, the requested factor or sizes and the output format are, and
    [os.path.basename] gives that name back from the path. *)
Theorem X18_files_stay_in_the_output_directory :
  (forall input_image upscale_factor output_format metadata,
      emits (writes_into (OUTPUT_DIR E))
        (upscale_image_gradio E input_image upscale_factor output_format
           metadata))
  /\ (forall input_image target_width target_height output_format metadata,
         emits (writes_into (OUTPUT_DIR E))
           (upscale_with_custom_dimensions_gradio E parse_scale_factor
              input_image target_width target_height output_format metadata))
  /\ (forall input_images upscale_factor output_format metadata,
         emits (writes_into (OUTPUT_DIR E))
           (batch_upscale_gradio E input_images upscale_factor output_format
              metadata))
  /\ (forall dir name,
         PyString.contains "/" name = false ->
         PyPath.basename (PyPath.join dir name) = name).
Proof.
  split; [intros; apply plain_writes |].
  split; [intros; apply custom_writes |].
  split; [| intros dir name; apply basename_join].
  intros. apply batch_events; [intros s; exact I |].
  intros item. apply plain_writes.
Qed.

End Written.

Lemma X18_files_stay_in_the_output_directory_witness :
  PyString.contains "/" "upscaled_2x_1700000000.png" = false
  /\ PyPath.basename
       (PyPath.join (OUTPUT_DIR Sample.world) "upscaled_2x_1700000000.png")
     = "upscaled_2x_1700000000.png".
Proof.
  split; [reflexivity |].
  apply (proj2 (proj2 (proj2
           (X18_files_stay_in_the_output_directory Sample.world
              Sample.pixels_or_original)))).
  reflexivity.
Defined.
